(** * GUIPySOFI: a shallow embedding of the analysis pipeline, the patched
      PySOFI methods, the frame player and the correlation kernels.

    Source files embedded here:
    - [guipysofi/core/optimization.py]  (fast_cross_correlation, both variants)
    - [guipysofi/core/data_manager.py]  (patched PysofiData methods, DataManager)
    - [guipysofi/ui/visualizer.py]      (DataVisualizer seek and playback state)
    - [guipysofi/ui/gui.py]             (the run parameters, the dropped path)

    Conventions.  A NumPy array is a dtype, a shape and a row-major buffer
    (offset -> element).  Floating-point elements are idealised as exact
    rationals ([Qc]); integer dtypes truncate on store, as NumPy does.
    Python exceptions are values of [exn]; a call that may raise returns
    [result].  Attributes that [hasattr] / [del] can observe are [attr]. *)

From Stdlib Require Import ZArith QArith Qcanon Ascii String List Lia ArithRing.
From stdpp Require Import gmap strings list fin_maps pretty.

Local Open Scope string_scope.

(* ===================================================================== *)
(** ** Python values *)
(* ===================================================================== *)

Module Py.

Inductive exn_class :=
| AttributeError | FileNotFoundError | ValueError | KeyError | TypeError
| OSError | ImportError | ZeroDivisionError | RuntimeError | IndexError.

(** [str(e)] of an exception is [exn_msg]. *)
Record exn := Exn { exn_cls : exn_class; exn_msg : string }.

Inductive result (A : Type) :=
| Ok (a : A)
| Raise (e : exn).
Arguments Ok {A} a.
Arguments Raise {A} e.

(** An instance attribute: missing ([hasattr] is false), [None], or a value. *)
Inductive attr (A : Type) :=
| Absent
| PyNone
| Val (a : A).
Arguments Absent {A}.
Arguments PyNone {A}.
Arguments Val {A} a.

Definition hasattr {A} (x : attr A) : bool :=
  match x with Absent => false | _ => true end.

Definition is_not_None {A} (x : attr A) : bool :=
  match x with Val _ => true | _ => false end.

(** [int(x)] on a float: truncation toward zero. *)
Definition int_of (x : Qc) : Z := Z.quot (Qnum (this x)) (Z.pos (Qden (this x))).

(** [for x in range(n): s = body x s] *)
Definition for_range {S : Type} (n : nat) (body : nat -> S -> S) (s : S) : S :=
  fold_left (fun acc i => body i acc) (seq 0 n) s.

(** [str(n)] for an integer. *)
Definition str_int (n : Z) : string := pretty n.

(** [f"{x:.1f}"] for [x = num / 2^20], the only use in the source: the
    value is an exact binary fraction, printed correctly rounded to one
    decimal, ties to even. *)
Definition fmt_mb_1f (bytes : Z) : string :=
  let tenths := ((bytes * 10) / 1048576)%Z in
  let rest := ((bytes * 10) mod 1048576)%Z in
  let up := orb (524288 <? rest)%Z (andb (rest =? 524288)%Z (Z.odd tenths)) in
  let t := if up then (tenths + 1)%Z else tenths in
  pretty (t / 10)%Z +:+ "." +:+ pretty (t mod 10)%Z.

End Py.
Import Py.

(* ===================================================================== *)
(** ** NumPy arrays *)
(* ===================================================================== *)

Module Np.

Inductive dtype := uint8 | uint16 | int32 | float32 | float64.

Definition itemsize (d : dtype) : Z :=
  match d with uint8 => 1 | uint16 => 2 | int32 => 4 | float32 => 4 | float64 => 8 end.

Definition is_floating (d : dtype) : bool :=
  match d with float32 | float64 => true | _ => false end.

Record ndarray := NdArray {
  arr_dtype : dtype;
  arr_shape : list nat;
  arr_item : nat -> Qc   (* row-major offset -> element *)
}.

Definition prod_shape (sh : list nat) : nat := fold_right Nat.mul 1%nat sh.

Definition ndim (a : ndarray) : nat := length (arr_shape a).
Definition size (a : ndarray) : nat := prod_shape (arr_shape a).

(** [a.nbytes], computed in [Z] so that gigabyte-sized shapes stay cheap. *)
Definition nbytes (a : ndarray) : Z :=
  fold_right (fun d acc => Z.of_nat d * acc)%Z 1%Z (arr_shape a) * itemsize (arr_dtype a).

(** [a.shape[0]] *)
Definition shape0 (a : ndarray) : nat := hd 0%nat (arr_shape a).

(** [len(a)] *)
Definition len (a : ndarray) : nat := shape0 a.

(** Store of a computed (float) value into an array of dtype [d]:
    integer dtypes keep the integer part. *)
Definition cast (d : dtype) (x : Qc) : Qc :=
  if is_floating d then x else Q2Qc (inject_Z (int_of x)).

(** Result dtype of true division and of arithmetic with float operands. *)
Definition promote (d : dtype) : dtype := if is_floating d then d else float64.

(** [a[np.newaxis, ...]] *)
Definition newaxis (a : ndarray) : ndarray :=
  NdArray (arr_dtype a) (1%nat :: arr_shape a) (arr_item a).

(** [a.astype(d)] *)
Definition astype (d : dtype) (a : ndarray) : ndarray :=
  NdArray d (arr_shape a) (fun p => cast d (arr_item a p)).

(** [np.zeros(shape, dtype)] *)
Definition zeros (d : dtype) (sh : list nat) : ndarray :=
  NdArray d sh (fun _ => 0%Qc).

(** [np.zeros_like(a)]: same shape and the same dtype. *)
Definition zeros_like (a : ndarray) : ndarray := zeros (arr_dtype a) (arr_shape a).

(** [a[p] = v] on the flat buffer, with the cast of the target dtype. *)
Definition store (a : ndarray) (p : nat) (v : Qc) : ndarray :=
  NdArray (arr_dtype a) (arr_shape a)
    (fun q => if Nat.eqb q p then cast (arr_dtype a) v else arr_item a q).

(** [a.reshape(sh)]: same buffer; fails when the sizes differ. *)
Definition reshape (a : ndarray) (sh : list nat) : result ndarray :=
  if Nat.eqb (prod_shape sh) (size a)
  then Ok (NdArray (arr_dtype a) sh (arr_item a))
  else Raise (Exn ValueError "cannot reshape array").

(** [a.reshape(rows, -1)] *)
Definition reshape_rows (a : ndarray) (rows : nat) : result ndarray :=
  if Nat.eqb rows 0 then Raise (Exn ValueError "cannot reshape array")
  else reshape a [rows; (size a / rows)%nat].

(** Sum of [f 0 .. f (n-1)], the reduction behind [np.mean] and [np.dot]. *)
Fixpoint sum_upto (n : nat) (f : nat -> Qc) : Qc :=
  match n with
  | O => 0%Qc
  | S m => (sum_upto m f + f m)%Qc
  end.

Definition q_of_nat (n : nat) : Qc := Q2Qc (inject_Z (Z.of_nat n)).

(** The three 2-D operations used by the vectorised kernel.  A 2-D array
    of shape [r; c] has element [i, j] at offset [i * c + j]. *)
Definition rows2 (a : ndarray) : nat := nth 0 (arr_shape a) 0%nat.
Definition cols2 (a : ndarray) : nat := nth 1 (arr_shape a) 0%nat.
Definition get2 (a : ndarray) (i j : nat) : Qc := arr_item a (i * cols2 a + j)%nat.

(** [np.mean(a, axis=0)] of a 2-D array: a 1-D array of column means. *)
Definition mean_axis0 (a : ndarray) : ndarray :=
  NdArray (promote (arr_dtype a)) [cols2 a]
    (fun j => (sum_upto (rows2 a) (fun f => get2 a f j) / q_of_nat (rows2 a))%Qc).

(** [a - v] with the 1-D [v] broadcast along the rows of the 2-D [a]. *)
Definition sub_rowvec (a v : ndarray) : ndarray :=
  NdArray (promote (arr_dtype a)) (arr_shape a)
    (fun p => (arr_item a p - arr_item v (p mod cols2 a)%nat)%Qc).

(** [a.T] of a 2-D array (as a new buffer). *)
Definition transpose (a : ndarray) : ndarray :=
  NdArray (arr_dtype a) [cols2 a; rows2 a]
    (fun p => get2 a (p mod rows2 a)%nat (p / rows2 a)%nat).

(** [np.dot(a, b)] of 2-D arrays. *)
Definition dot (a b : ndarray) : ndarray :=
  NdArray (arr_dtype a) [rows2 a; cols2 b]
    (fun p => sum_upto (cols2 a)
                (fun f => (get2 a (p / cols2 b)%nat f * get2 b f (p mod cols2 b)%nat)%Qc)).

(** [a / n] for an integer scalar. *)
Definition div_scalar (a : ndarray) (n : nat) : ndarray :=
  NdArray (promote (arr_dtype a)) (arr_shape a) (fun p => (arr_item a p / q_of_nat n)%Qc).

(** [a[f, i, j]] of a 3-D array, by the array's own strides. *)
Definition get3 (a : ndarray) (f i j : nat) : Qc :=
  arr_item a ((f * nth 1 (arr_shape a) 0 + i) * nth 2 (arr_shape a) 0 + j)%nat.

(** [a[i, j, k, l]] of a 4-D array. *)
Definition get4 (a : ndarray) (i j k l : nat) : Qc :=
  arr_item a (((i * nth 1 (arr_shape a) 0 + j) * nth 2 (arr_shape a) 0 + k)
              * nth 3 (arr_shape a) 0 + l)%nat.

(** Loop-invariant vocabulary: [F] overwrites the offsets selected by
    [dom] with [val] and leaves dtype, shape and every other offset alone
    (on float32 arrays, as the kernels allocate them). *)
Definition overwrites (F : ndarray -> ndarray) (dom : nat -> bool) (val : nat -> Qc) : Prop :=
  forall a, arr_dtype a = float32 ->
    arr_dtype (F a) = float32 /\ arr_shape (F a) = arr_shape a /\
    forall p, arr_item (F a) p = if dom p then val p else arr_item a p.

Definition offset2 (cols i j : nat) : nat := (i * cols + j)%nat.
Definition offset4 (d1 d2 d3 i j k l : nat) : nat := (((i * d1 + j) * d2 + k) * d3 + l)%nat.

(** [F] overwrites the offsets selected by [dom] with [val] and leaves
    dtype, shape and every other offset alone, on arrays of dtype [d]. *)
Definition overwrites_as (d : dtype) (F : ndarray -> ndarray)
    (dom : nat -> bool) (val : nat -> Qc) : Prop :=
  forall a, arr_dtype a = d ->
    arr_dtype (F a) = d /\ arr_shape (F a) = arr_shape a /\
    forall p, arr_item (F a) p = if dom p then val p else arr_item a p.

(** Every element is a value of the array's dtype: storing it back changes
    nothing (integer dtypes hold integers). *)
Definition well_typed (a : ndarray) : Prop :=
  forall p, cast (arr_dtype a) (arr_item a p) = arr_item a p.

End Np.
Import Np.

(* ===================================================================== *)
(** ** guipysofi/core/optimization.py *)
(* ===================================================================== *)

Module Optimization.

(** The Numba kernel (optimization.py, lines 68-103).  [prange]/[range]
    loops are sequential folds; [pixel_sum] and [corr_sum] accumulate
    from [0.0] in loop order.  Division by [frames] is the field's; for
    [frames = 0] Python raises, which lies outside the stack invariant
    (frame count >= 1). *)
Definition numba_means (data : ndarray) (frames height width : nat) : ndarray :=
  for_range height (fun i means =>
    for_range width (fun j means =>
      let pixel_sum :=
        for_range frames (fun f acc => (acc + get3 data f i j)%Qc) 0%Qc in
      store means (offset2 width i j) (pixel_sum / q_of_nat frames)%Qc)
    means)
  (zeros float32 [height; width]).

Definition fast_cross_correlation_numba
    (data : ndarray) (frames height width : nat) : ndarray :=
  let result := zeros float32 [height; width; height; width] in
  let means := numba_means data frames height width in
  for_range height (fun i result =>
    for_range width (fun j result =>
      for_range height (fun k result =>
        for_range width (fun l result =>
          let corr_sum :=
            for_range frames (fun f acc =>
              (acc + (get3 data f i j - get2 means i j)
                     * (get3 data f k l - get2 means k l))%Qc) 0%Qc in
          store result (offset4 width height width i j k l)
                (corr_sum / q_of_nat frames)%Qc)
        result) result) result) result.

(** The NumPy fallback (optimization.py, lines 133-159). *)
Definition fast_cross_correlation_numpy
    (data : ndarray) (frames height width : nat) : result ndarray :=
  match reshape_rows data frames with
  | Raise e => Raise e
  | Ok data_reshaped =>
      let means := mean_axis0 data_reshaped in
      let data_centered := sub_rowvec data_reshaped means in
      let correlation := div_scalar (dot (transpose data_centered) data_centered) frames in
      reshape correlation [height; width; height; width]
  end.

(** The function both are meant to compute, in the claim's words. *)
Definition temporal_mean (data : ndarray) (frames i j : nat) : Qc :=
  (sum_upto frames (fun f => get3 data f i j) / q_of_nat frames)%Qc.

Definition cross_correlation_spec (data : ndarray) (frames i j k l : nat) : Qc :=
  (1 / q_of_nat frames
   * sum_upto frames (fun f =>
       (get3 data f i j - temporal_mean data frames i j)
       * (get3 data f k l - temporal_mean data frames k l)))%Qc.

(** [get_optimal_thread_count] (optimization.py, lines 23-45).  [psutil]
    is [None] when the import fails; each of its two counts may be [None]. *)
Record psutil := MkPsutil {
  physical_cores : option Z;    (* [psutil.cpu_count(logical=False)] *)
  logical_cores : option Z      (* [psutil.cpu_count()] *)
}.

Definition get_optimal_thread_count (ps : option psutil) : result Z :=
  match ps with
  | None => Ok 2%Z
  | Some p =>
      let num_physical_cores :=
        match physical_cores p with
        | Some n => Some n
        | None => logical_cores p
        end in
      match num_physical_cores with
      | None => Raise (Exn TypeError
                         "unsupported operand type(s) for -: 'NoneType' and 'int'")
      | Some n =>
          let optimal_threads := Z.max 1 (n - 1) in
          Ok (Z.min optimal_threads 8)
      end
  end.

End Optimization.

(* ===================================================================== *)
(** ** Control flow of a Python function body *)
(* ===================================================================== *)

Module Flow.

(** A statement either falls through with a value, executes [return r],
    or raises. *)
Inductive flow (R A : Type) :=
| Next (a : A)
| Return (r : R)
| Throw (e : exn).
Arguments Next {R A} a.
Arguments Return {R A} r.
Arguments Throw {R A} e.

(** A statement over a mutable state [S]. *)
Definition M (S R A : Type) : Type := S -> S * flow R A.

Definition ret {S R A} (a : A) : M S R A := fun s => (s, Next a).
Definition return_ {S R A} (r : R) : M S R A := fun s => (s, Return r).
Definition throw {S R A} (e : exn) : M S R A := fun s => (s, Throw e).
Definition get {S R} : M S R S := fun s => (s, Next s).
Definition modify {S R} (f : S -> S) : M S R unit := fun s => (f s, Next tt).

Definition bind {S R A B} (m : M S R A) (k : A -> M S R B) : M S R B :=
  fun s => match m s with
           | (s', Next a) => k a s'
           | (s', Return r) => (s', Return r)
           | (s', Throw e) => (s', Throw e)
           end.

(** [try: m  except Exception as e: h e] *)
Definition try_except {S R A} (m : M S R A) (h : exn -> M S R A) : M S R A :=
  fun s => match m s with
           | (s', Throw e) => h e s'
           | other => other
           end.

(** A call into code that may raise. *)
Definition lift {S R A} (r : result A) : M S R A :=
  match r with Ok a => ret a | Raise e => throw e end.

(** [for x in l: body x] *)
Fixpoint for_each {S R A} (l : list A) (body : A -> M S R unit) : M S R unit :=
  match l with
  | [] => ret tt
  | x :: l' => bind (body x) (fun _ => for_each l' body)
  end.

(** What the caller of the function observes. *)
Inductive outcome (R : Type) :=
| Returned (r : R)
| Propagated (e : exn).
Arguments Returned {R} r.
Arguments Propagated {R} e.

(** Run a function body whose every path ends in [return]; falling off
    the end returns [dflt] (Python's [None]). *)
Definition call {S R} (body : M S R unit) (dflt : R) (s : S) : S * outcome R :=
  match body s with
  | (s', Next _) => (s', Returned dflt)
  | (s', Return r) => (s', Returned r)
  | (s', Throw e) => (s', Propagated e)
  end.

End Flow.
Import Flow.

Notation "x <- m ;; k" := (Flow.bind m (fun x => k))
  (at level 100, m at next level, right associativity).
Notation "m ;;; k" := (Flow.bind m (fun _ => k))
  (at level 100, right associativity).

(* ===================================================================== *)
(** ** The operating system: files, TIFF decoding *)
(* ===================================================================== *)

Module Os.

Inductive node :=
| RegularFile (size : Z) (removable : bool)
    (* [removable = false]: [os.remove] is refused (read-only parent,
       file held open, ...) *)
| Directory.

Inductive io_event :=
| EvDecode (path : string)      (* tifffile.imread was entered *)
| EvRemove (path : string).     (* os.remove was entered *)

Record World := MkWorld {
  fs : gmap string node;
  (** what the TIFF decoder yields for the file stored at a path *)
  tiff_contents : string -> result ndarray;
  (** whether a file may be created or replaced at a path *)
  writable : string -> bool;
  io_log : list io_event
}.

Definition exists_ (w : World) (p : string) : bool := bool_decide (is_Some (fs w !! p)).

Definition getsize (w : World) (p : string) : result Z :=
  match fs w !! p with
  | Some (RegularFile sz _) => Ok sz
  | Some Directory => Ok 4096%Z
  | None => Raise (Exn FileNotFoundError ("No such file or directory: " +:+ p))
  end.

Definition log_event (e : io_event) (w : World) : World :=
  MkWorld (fs w) (tiff_contents w) (writable w) (io_log w ++ [e]).

(** [tifffile.imread(p)] *)
Definition imread (w : World) (p : string) : World * result ndarray :=
  let w' := log_event (EvDecode p) w in
  match fs w !! p with
  | Some (RegularFile _ _) => (w', tiff_contents w p)
  | Some Directory => (w', Raise (Exn OSError ("Is a directory: " +:+ p)))
  | None => (w', Raise (Exn FileNotFoundError ("No such file or directory: " +:+ p)))
  end.

(** [os.remove(p)] *)
Definition remove (w : World) (p : string) : World * result unit :=
  let w' := log_event (EvRemove p) w in
  match fs w !! p with
  | Some (RegularFile _ true) =>
      (MkWorld (delete p (fs w')) (tiff_contents w') (writable w') (io_log w'), Ok tt)
  | Some (RegularFile _ false) => (w', Raise (Exn OSError ("Permission denied: " +:+ p)))
  | Some Directory => (w', Raise (Exn OSError ("Is a directory: " +:+ p)))
  | None => (w', Raise (Exn FileNotFoundError ("No such file or directory: " +:+ p)))
  end.

(** Writing a file of [sz] bytes ([tifffile.imwrite], [plt.imsave]). *)
Definition write (w : World) (p : string) (sz : Z) : World * result unit :=
  if writable w p
  then (MkWorld (<[p := RegularFile sz true]> (fs w)) (tiff_contents w)
                (writable w) (io_log w), Ok tt)
  else (w, Raise (Exn OSError ("Permission denied: " +:+ p))).

(** [os.path.basename(p)]: what follows the last slash. *)
Fixpoint basename_from (current : string) (p : string) : string :=
  match p with
  | EmptyString => current
  | String c rest =>
      if Ascii.eqb c "/"%char then basename_from rest rest
      else basename_from current rest
  end.

Definition basename (p : string) : string := basename_from p p.

Fixpoint ends_with_slash (p : string) : bool :=
  match p with
  | EmptyString => false
  | String c EmptyString => Ascii.eqb c "/"%char
  | String _ rest => ends_with_slash rest
  end.

(** [os.path.join(a, b)] *)
Definition join (a b : string) : string :=
  match b with
  | String c _ =>
      if Ascii.eqb c "/"%char then b
      else if orb (String.eqb a "") (ends_with_slash a) then a +:+ b
      else a +:+ "/" +:+ b
  | EmptyString =>
      if orb (String.eqb a "") (ends_with_slash a) then a else a +:+ "/"
  end.

(** [s.lower()] on ASCII letters. *)
Definition lower_char (c : ascii) : ascii :=
  let n := Ascii.nat_of_ascii c in
  if andb (65 <=? n)%nat (n <=? 90)%nat then Ascii.ascii_of_nat (n + 32) else c.

Fixpoint lower (s : string) : string :=
  match s with
  | EmptyString => EmptyString
  | String c rest => String (lower_char c) (lower rest)
  end.

(** [s.endswith(suffix)] *)
Definition endswith (s suffix : string) : bool :=
  let ls := String.length s in
  let lx := String.length suffix in
  andb (lx <=? ls)%nat (String.eqb (String.substring (ls - lx) lx s) suffix).

End Os.

(* ===================================================================== *)
(** ** data_manager.py, lines 14-259: methods patched onto [PysofiData] *)
(* ===================================================================== *)

Module Pysofi.

(** The attributes of a [PysofiData] object that this repository touches.
    [None] in an [option] field means the attribute does not exist. *)
Record PysofiData := MkSofi {
  frames : attr ndarray;
  raw_input : attr ndarray;
  stack : attr ndarray;
  data : attr ndarray;
  data_path : option string;
  fileName : option string;
  cumulants_set : option (gmap Z ndarray);
  fourier_result : option (gmap Z ndarray);
  weighting : option string;
  bleach_corrected : bool;
  drift_corrected : bool
}.

(** A freshly constructed object with no attribute set. *)
Definition blank : PysofiData :=
  MkSofi Absent Absent Absent Absent None None None None None false false.

Definition set_frames (a : attr ndarray) (s : PysofiData) : PysofiData :=
  MkSofi a (raw_input s) (stack s) (data s) (data_path s) (fileName s)
         (cumulants_set s) (fourier_result s) (weighting s)
         (bleach_corrected s) (drift_corrected s).

Definition set_cumulants_set (c : option (gmap Z ndarray)) (s : PysofiData) : PysofiData :=
  MkSofi (frames s) (raw_input s) (stack s) (data s) (data_path s) (fileName s)
         c (fourier_result s) (weighting s) (bleach_corrected s) (drift_corrected s).

Definition set_fourier_result (c : option (gmap Z ndarray)) (s : PysofiData) : PysofiData :=
  MkSofi (frames s) (raw_input s) (stack s) (data s) (data_path s) (fileName s)
         (cumulants_set s) c (weighting s) (bleach_corrected s) (drift_corrected s).

Definition set_weighting (w : option string) (s : PysofiData) : PysofiData :=
  MkSofi (frames s) (raw_input s) (stack s) (data s) (data_path s) (fileName s)
         (cumulants_set s) (fourier_result s) w (bleach_corrected s) (drift_corrected s).

(** [if hasattr(self, x): self.x = v] *)
Definition overwrite_if_present (x : attr ndarray) (v : ndarray) : attr ndarray :=
  if hasattr x then Val v else x.

(** The tail of [bleach_correction] (lines 44-56). *)
Definition store_corrected (v : ndarray) (s : PysofiData) : PysofiData :=
  MkSofi (Val v) (overwrite_if_present (raw_input s) v)
         (overwrite_if_present (stack s) v) (overwrite_if_present (data s) v)
         (data_path s) (fileName s) (cumulants_set s) (fourier_result s)
         (weighting s) true (drift_corrected s).

(** A method of the object: it mutates [self] and returns or raises; the
    mutation made before a raise stays visible to the caller. *)
Definition method : Type := PysofiData -> PysofiData * result unit.

(** How the [weighting] keyword reaches [cumulants_images]. *)
Inductive weighting_arg :=
| NotPassed
| Passed (w : option string).

(** *** Array arithmetic of the patches *)

(** Elements per frame, per plane, and per pixel (1 for a 3-D stack). *)
Definition frame_size (a : ndarray) : nat := prod_shape (tl (arr_shape a)).
Definition plane (a : ndarray) : nat := (nth 1 (arr_shape a) 0 * nth 2 (arr_shape a) 0)%nat.
Definition channels (a : ndarray) : nat := prod_shape (skipn 3 (arr_shape a)).

(** [np.mean(a, axis=(1, 2))[i]] (at channel [ch] beyond three dimensions). *)
Definition mean_per_frame (a : ndarray) (i ch : nat) : Qc :=
  (sum_upto (plane a)
     (fun q => arr_item a (i * frame_size a + q * channels a + ch)%nat)
   / q_of_nat (plane a))%Qc.

(** [correction_factors = mean_per_frame[0] / mean_per_frame] *)
Definition correction_factor (a : ndarray) (i ch : nat) : Qc :=
  (mean_per_frame a 0 ch / mean_per_frame a i ch)%Qc.

(** [dst[i] = src]: a whole frame is stored, cast to the dtype of [dst]. *)
Definition store_frame (dst : ndarray) (i : nat) (src : nat -> Qc) : ndarray :=
  NdArray (arr_dtype dst) (arr_shape dst)
    (fun q =>
       if andb (i * frame_size dst <=? q)%nat (q <? (i + 1) * frame_size dst)%nat
       then cast (arr_dtype dst) (src (q - i * frame_size dst)%nat)
       else arr_item dst q).

(** Lines 33-42 of [bleach_correction]. *)
Definition bleach_frames (a : ndarray) : ndarray :=
  for_range (shape0 a) (fun i corrected_frames =>
    store_frame corrected_frames i
      (fun p => (arr_item a (i * frame_size a + p)%nat
                 * correction_factor a i (p mod channels a)%nat)%Qc))
    (zeros_like a).

(** Mean intensity of frame [i] of a 3-D stack. *)
Definition frame_mean (a : ndarray) (i : nat) : Qc :=
  (sum_upto (frame_size a) (fun q => arr_item a (i * frame_size a + q)%nat)
   / q_of_nat (frame_size a))%Qc.

(** [np.min], [np.max] over all elements (of a non-empty array). *)
Definition qmin (x y : Qc) : Qc := if Qclt_le_dec y x then y else x.
Definition qmax (x y : Qc) : Qc := if Qclt_le_dec x y then y else x.

Definition np_min (a : ndarray) : Qc :=
  for_range (size a) (fun p m => qmin m (arr_item a p)) (arr_item a 0%nat).
Definition np_max (a : ndarray) : Qc :=
  for_range (size a) (fun p m => qmax m (arr_item a p)) (arr_item a 0%nat).

Definition map_items (f : nat -> Qc -> Qc) (a : ndarray) : ndarray :=
  NdArray (promote (arr_dtype a)) (arr_shape a) (fun p => f p (arr_item a p)).

Section Patched.

(** [tifffile.imread] as seen from inside a method. *)
Variable imread : string -> result ndarray.
(** [scipy.ndimage.gaussian_filter(., sigma=1.0)], if SciPy is installed. *)
Variable gaussian_filter : option (ndarray -> ndarray).

(** [_ensure_frames_loaded] (lines 212-252). *)
Definition _ensure_frames_loaded (self : PysofiData) : PysofiData * result bool :=
  let from_other_sources :=
    match raw_input self, stack self, data self with
    | Val a, _, _ => (set_frames (Val a) self, Ok true)
    | _, Val a, _ => (set_frames (Val a) self, Ok true)
    | _, _, Val a => (set_frames (Val a) self, Ok true)
    | _, _, _ =>
        match data_path self, fileName self with
        | Some d, Some f =>
            match imread (Os.join d f) with
            | Ok a => (set_frames (Val a) self, Ok true)
            | Raise _ => (self, Ok false)
            end
        | _, _ => (self, Ok false)
        end
    end in
  match frames self with
  | Val a =>
      match arr_shape a with
      | [] => (self, Raise (Exn TypeError "len() of unsized object"))
      | n :: _ => if (0 <? n)%nat then (self, Ok true) else from_other_sources
      end
  | _ => from_other_sources
  end.

(** [bleach_correction] (lines 21-58). *)
Definition bleach_correction : method := fun self =>
  match _ensure_frames_loaded self with
  | (self1, Raise e) => (self1, Raise e)
  | (self1, Ok false) =>
      (self1, Raise (Exn ValueError "Could not find or load frames data in PySOFI object"))
  | (self1, Ok true) =>
      match frames self1 with
      | Val a =>
          if (ndim a <? 3)%nat
          then (self1, Raise (Exn ValueError "axis 2 is out of bounds for array"))
          else if (len a =? 0)%nat
          then (self1, Raise (Exn IndexError
                                "index 0 is out of bounds for axis 0 with size 0"))
          else (store_corrected (bleach_frames a) self1, Ok tt)
      | _ => (self1, Raise (Exn AttributeError "frames"))
      end
  end.

(** The body of the loop of [reconstruct_fourier] for one cumulant
    image (lines 159-175). *)
Definition enhance (cumulant : ndarray) : result ndarray :=
  match gaussian_filter with
  | None => Raise (Exn ImportError "No module named 'scipy'")
  | Some blur =>
      if (size cumulant =? 0)%nat
      then Raise (Exn ValueError "zero-size array to reduction operation minimum")
      else if Qclt_le_dec (np_min cumulant) (np_max cumulant) then
        let lo := np_min cumulant in
        let hi := np_max cumulant in
        let normalised := map_items (fun _ x => ((x - lo) / (hi - lo))%Qc) cumulant in
        let blurred := blur normalised in
        let sharpened :=
          map_items (fun p x => (x + Q2Qc (8 # 10) * (x - arr_item blurred p))%Qc)
                    normalised in
        Ok (map_items (fun _ x => qmax 0 (qmin x 1)) sharpened)
      else Ok cumulant
  end.

(** The loop of [reconstruct_fourier] (lines 150-179) over the orders
    still to do; [self.fourier_result] exists by then. *)
Fixpoint reconstruct_orders (orders : list Z) (self : PysofiData)
  : PysofiData * result unit :=
  match orders with
  | [] => (self, Ok tt)
  | order :: rest =>
      match cumulants_set self, fourier_result self with
      | Some cs, Some fr =>
          match cs !! order with
          | None => reconstruct_orders rest self
          | Some cumulant =>
              match enhance cumulant with
              | Raise e => (self, Raise e)
              | Ok r =>
                  reconstruct_orders rest
                    (set_fourier_result (Some (<[order := r]> fr)) self)
              end
          end
      | _, _ => (self, Raise (Exn AttributeError "cumulants_set"))
      end
  end.

(** [reconstruct_fourier] (lines 126-181). *)
Definition reconstruct_fourier (orders : option (list Z)) : method := fun self =>
  match cumulants_set self with
  | None =>
      (self, Raise (Exn ValueError
         "No cumulants available for reconstruction - run cumulants_images first"))
  | Some cs =>
      if bool_decide (cs = ∅)
      then (self, Raise (Exn ValueError
         "No cumulants available for reconstruction - run cumulants_images first"))
      else
        let self1 := match fourier_result self with
                     | None => set_fourier_result (Some ∅) self
                     | Some _ => self
                     end in
        let orders := match orders with
                      | None => (map_to_list cs).*1
                      | Some l => l
                      end in
        reconstruct_orders orders self1
  end.

(** [cumulants_images_wrapper] (lines 189-205) around the package's
    own method, which may or may not take [weighting]. *)
Definition cumulants_images_wrapper
    (accepts_weighting : bool)
    (original_cumulants_images : Z -> weighting_arg -> method)
    (highest_order : Z) (weighting_kw : option string) : method :=
  fun self =>
    if accepts_weighting
    then original_cumulants_images highest_order (Passed weighting_kw) self
    else
      let self1 := match weighting_kw with
                   | Some w => set_weighting (Some w) self
                   | None => self
                   end in
      original_cumulants_images highest_order NotPassed self1.

End Patched.

End Pysofi.

(* ===================================================================== *)
(** ** optimization.py, lines 105-128 and 161-177: [fast_normalize_data] *)
(* ===================================================================== *)

Module Normalize.

(** [np.min(data)] / [np.max(data)] raise on an empty array. *)
Definition checked_min (data : ndarray) : result Qc :=
  if (size data =? 0)%nat
  then Raise (Exn ValueError "zero-size array to reduction operation minimum")
  else Ok (Pysofi.np_min data).

Definition checked_max (data : ndarray) : result Qc :=
  if (size data =? 0)%nat
  then Raise (Exn ValueError "zero-size array to reduction operation maximum")
  else Ok (Pysofi.np_max data).

(** The Numba variant (lines 105-128): the loop nest indexes the two axes
    of a 2-D array and stores into [np.zeros_like(data)].  The arithmetic
    is that of the rationals: in floating point the product with the
    reciprocal [1.0 / (max_val - min_val)] taken here and the quotient
    taken by the NumPy variant can differ in the last place. *)
Definition fast_normalize_data_numba (data : ndarray) : result ndarray :=
  match checked_min data, checked_max data with
  | Raise e, _ => Raise e
  | _, Raise e => Raise e
  | Ok min_val, Ok max_val =>
      if Qc_eq_bool max_val min_val then Ok (zeros_like data)
      else
        let result := zeros_like data in
        let factor := (1 / (max_val - min_val))%Qc in
        Ok (for_range (nth 0 (arr_shape data) 0%nat) (fun i result =>
              for_range (nth 1 (arr_shape data) 0%nat) (fun j result =>
                store result (offset2 (cols2 data) i j)
                      ((get2 data i j - min_val) * factor)%Qc)
              result)
            result)
  end.

(** The NumPy fallback (lines 161-177). *)
Definition fast_normalize_data_numpy (data : ndarray) : result ndarray :=
  match checked_min data, checked_max data with
  | Raise e, _ => Raise e
  | _, Raise e => Raise e
  | Ok min_val, Ok max_val =>
      if Qc_eq_bool max_val min_val then Ok (zeros_like data)
      else Ok (Pysofi.map_items
                 (fun _ x => ((x - min_val) / (max_val - min_val))%Qc) data)
  end.

End Normalize.

(* ===================================================================== *)
(** ** guipysofi/ui/visualizer.py *)
(* ===================================================================== *)

Module Visualizer.

(** The fields of [DataVisualizer] that the frame handlers read or write.
    [frame_slider] is [None] until the UI initialiser has populated it and
    then holds the widget's position ([frame_slider.get()], a float);
    [shown] is the index of the frame last drawn on the canvas. *)
Record DataVisualizer := Mk {
  is_sofi : bool;
  data : option ndarray;
  current_frame : Z;
  total_frames : Z;
  is_playing : bool;
  play_button : bool;
  frame_slider : option Qc;
  frame_counter : option string;
  slider_update_id : option nat;
  shown : option Z
}.

Definition with_current_frame (v : DataVisualizer) (idx : Z) : DataVisualizer :=
  Mk (is_sofi v) (data v) idx (total_frames v) (is_playing v) (play_button v)
     (frame_slider v) (frame_counter v) (slider_update_id v) (shown v).

Definition with_slider (v : DataVisualizer) (s : option Qc) : DataVisualizer :=
  Mk (is_sofi v) (data v) (current_frame v) (total_frames v) (is_playing v)
     (play_button v) s (frame_counter v) (slider_update_id v) (shown v).

Definition with_counter (v : DataVisualizer) (c : option string) : DataVisualizer :=
  Mk (is_sofi v) (data v) (current_frame v) (total_frames v) (is_playing v)
     (play_button v) (frame_slider v) c (slider_update_id v) (shown v).

Definition with_update_id (v : DataVisualizer) (i : option nat) : DataVisualizer :=
  Mk (is_sofi v) (data v) (current_frame v) (total_frames v) (is_playing v)
     (play_button v) (frame_slider v) (frame_counter v) i (shown v).

Definition with_shown (v : DataVisualizer) (s : option Z) : DataVisualizer :=
  Mk (is_sofi v) (data v) (current_frame v) (total_frames v) (is_playing v)
     (play_button v) (frame_slider v) (frame_counter v) (slider_update_id v) s.

Definition with_playing (v : DataVisualizer) (b : bool) : DataVisualizer :=
  Mk (is_sofi v) (data v) (current_frame v) (total_frames v) b
     (play_button v) (frame_slider v) (frame_counter v) (slider_update_id v) (shown v).

(** [0 <= idx < self.total_frames] *)
Definition in_range (v : DataVisualizer) (idx : Z) : bool :=
  andb (0 <=? idx)%Z (idx <? total_frames v)%Z.

(** [f"{idx+1}/{self.total_frames}"] *)
Definition counter_text (v : DataVisualizer) (idx : Z) : string :=
  str_int (idx + 1) +:+ "/" +:+ str_int (total_frames v).

(** [display_frame] (lines 86-129). *)
Definition display_frame (v : DataVisualizer) (idx : Z) : DataVisualizer :=
  match data v with
  | None => v
  | Some _ =>
      if (total_frames v =? 0)%Z then v
      else if negb (in_range v idx) then v
      else
        let v1 := with_current_frame v idx in
        let v2 := with_shown v1 (Some idx) in
        if is_sofi v2 then v2
        else match frame_counter v2 with
             | Some _ => with_counter v2 (Some (counter_text v2 idx))
             | None => v2
             end
  end.

(** [play_pause] (lines 192-206): what the call itself assigns.  The
    thread it starts when it switches playback on is [play_animation],
    followed in [Player] below. *)
Definition play_pause (v : DataVisualizer) : DataVisualizer :=
  if negb (play_button v) then v
  else if is_playing v then with_playing v false
  else with_playing v true.

(** [prev_frame] (lines 247-252). *)
Definition prev_frame (v : DataVisualizer) : DataVisualizer :=
  let v1 := with_current_frame v (Z.max 0 (current_frame v - 1)) in
  let v2 := match frame_slider v1 with
            | Some _ => with_slider v1 (Some (Q2Qc (inject_Z (current_frame v1))))
            | None => v1
            end in
  display_frame v2 (current_frame v2).

(** [next_frame] (lines 254-259). *)
Definition next_frame (v : DataVisualizer) : DataVisualizer :=
  let v1 := with_current_frame v (Z.min (total_frames v - 1) (current_frame v + 1)) in
  let v2 := match frame_slider v1 with
            | Some _ => with_slider v1 (Some (Q2Qc (inject_Z (current_frame v1))))
            | None => v1
            end in
  display_frame v2 (current_frame v2).

(** [on_slider_release] (lines 286-300). *)
Definition on_slider_release (v : DataVisualizer) : DataVisualizer :=
  match frame_slider v with
  | None => v
  | Some pos =>
      let v1 := match slider_update_id v with
                | Some _ => with_update_id v None
                | None => v
                end in
      let idx := int_of pos in
      if in_range v1 idx
      then display_frame (with_current_frame v1 idx) idx
      else v1
  end.

(** [_update_frame_from_slider] (lines 302-311). *)
Definition _update_frame_from_slider (v : DataVisualizer) : DataVisualizer :=
  let v0 := with_update_id v None in
  match frame_slider v0 with
  | None => v0
  | Some pos =>
      let idx := int_of pos in
      if in_range v0 idx
      then display_frame (with_current_frame v0 idx) idx
      else v0
  end.

(** The user drags the slider to [pos] and lets go. *)
Definition seek (v : DataVisualizer) (pos : Qc) : DataVisualizer :=
  on_slider_release (with_slider v (Some pos)).

(** [update_ui_for_frame] (lines 241-245). *)
Definition update_ui_for_frame (v : DataVisualizer) (frame_idx : Z) : DataVisualizer :=
  let v1 := match frame_slider v with
            | Some _ => with_slider v (Some (Q2Qc (inject_Z frame_idx)))
            | None => v
            end in
  display_frame v1 frame_idx.

(** What the main loop can run: a button is pressed, the slider is
    dragged to a position, released, or its timer fires, or a frame is
    asked for directly. *)
Inductive event :=
| PrevFrame
| NextFrame
| PlayPause
| SliderDragged (pos : Qc)
| SliderReleased
| SliderTimer
| UpdateUi (frame_idx : Z)
| DisplayFrame (idx : Z).

Definition handle (v : DataVisualizer) (e : event) : DataVisualizer :=
  match e with
  | PrevFrame => prev_frame v
  | NextFrame => next_frame v
  | PlayPause => play_pause v
  | SliderDragged pos =>
      match frame_slider v with
      | Some _ => with_slider v (Some pos)
      | None => v
      end
  | SliderReleased => on_slider_release v
  | SliderTimer => _update_frame_from_slider v
  | UpdateUi frame_idx => update_ui_for_frame v frame_idx
  | DisplayFrame idx => display_frame v idx
  end.

(** *** Playback ([play_animation], lines 208-239)

    [play_pause] starts a thread that runs [play_animation] beside the
    main loop.  A thread is followed from one statement that touches the
    shared object to the next. *)
Inductive animation :=
| Starting                                       (* before line 211 *)
| GotCurrent (current : Z)                       (* before line 212 *)
| AtLoopHead (thread_id : nat) (current : Z)     (* before the test of line 216 *)
| InLoopBody (thread_id : nat) (current : Z)     (* before line 217 *)
| PastIdCheck (thread_id : nat) (current : Z)    (* before line 220 *)
| Written (thread_id : nat) (current : Z)        (* before line 224 *)
| AfterLoop (current : Z)                        (* before line 234 *)
| Finished.

(** A visualizer with its playback: [self.play_thread_id], the threads
    started so far, and the frames handed to [after(0, ...)] for
    [update_ui_for_frame] that the main loop has not run yet, oldest
    first. *)
Record Player := MkPlayer {
  visualizer : DataVisualizer;
  play_thread_id : option nat;
  animations : list animation;
  scheduled : list Z
}.

(** What a call into Tk from the thread does: [winfo_exists()] answers
    true or false, [after] goes through, or the call raises (the window or
    the application is gone), which line 237 catches. *)
Inductive tk := TkTrue | TkFalse | TkRaises.

(** Lines 237-239. *)
Definition caught (pl : Player) (i : nat) : Player :=
  MkPlayer (with_playing (visualizer pl) false) (play_thread_id pl)
    (<[i := Finished]> (animations pl)) (scheduled pl).

Definition at_point (pl : Player) (i : nat) (a : animation) : Player :=
  MkPlayer (visualizer pl) (play_thread_id pl) (<[i := a]> (animations pl)) (scheduled pl).

(** Thread [i] runs its next statement.  [now] is what [time.time()]
    answers if it is asked, [window] what Tk does if it is called. *)
Definition advance (pl : Player) (i : nat) (now : nat) (window : tk) : Player :=
  let v := visualizer pl in
  match animations pl !! i with
  | None => pl
  | Some Finished => pl
  | Some Starting =>
      (* line 211 *)
      at_point pl i (GotCurrent (current_frame v))
  | Some (GotCurrent current) =>
      (* lines 212-213 *)
      MkPlayer v (Some now) (<[i := AtLoopHead now current]> (animations pl)) (scheduled pl)
  | Some (AtLoopHead thread_id current) =>
      (* line 216 *)
      if (is_playing v && (current <? total_frames v - 1)%Z)%bool
      then match window with
           | TkTrue => at_point pl i (InLoopBody thread_id current)
           | TkFalse => at_point pl i (AfterLoop current)
           | TkRaises => caught pl i
           end
      else at_point pl i (AfterLoop current)
  | Some (InLoopBody thread_id current) =>
      (* lines 217-218 *)
      if bool_decide (play_thread_id pl = Some thread_id)
      then at_point pl i (PastIdCheck thread_id current)
      else at_point pl i (AfterLoop current)
  | Some (PastIdCheck thread_id current) =>
      (* lines 220-221 *)
      MkPlayer (with_current_frame v (current + 1)) (play_thread_id pl)
        (<[i := Written thread_id (current + 1)]> (animations pl)) (scheduled pl)
  | Some (Written thread_id current) =>
      (* line 224 *)
      match window with
      | TkRaises => caught pl i
      | _ => MkPlayer v (play_thread_id pl)
               (<[i := AtLoopHead thread_id current]> (animations pl))
               (scheduled pl ++ [current])
      end
  | Some (AfterLoop current) =>
      (* lines 234-236: at the end of the stack line 236 clears the flag,
         and so does the handler if Tk raises before it *)
      if (total_frames v - 1 <=? current)%Z
      then match window with
           | TkTrue => caught pl i
           | TkFalse => at_point pl i Finished
           | TkRaises => caught pl i
           end
      else at_point pl i Finished
  end.

(** What happens next: the main loop runs a handler (a [play_pause] that
    switches playback on starts a thread), the main loop runs the oldest
    scheduled [update_ui_for_frame], or a thread moves on. *)
Inductive move :=
| Handler (e : event)
| RunScheduled
| Advance (i : nat) (now : nat) (window : tk).

Definition play (pl : Player) (m : move) : Player :=
  let v := visualizer pl in
  match m with
  | Handler e =>
      MkPlayer (handle v e) (play_thread_id pl)
        (animations pl ++
         match e with
         | PlayPause => if (play_button v && negb (is_playing v))%bool
                        then [Starting] else []
         | _ => []
         end)
        (scheduled pl)
  | RunScheduled =>
      match scheduled pl with
      | f :: rest =>
          MkPlayer (update_ui_for_frame v f) (play_thread_id pl) (animations pl) rest
      | [] => pl
      end
  | Advance i now window => advance pl i now window
  end.

Definition play_all (pl : Player) (ms : list move) : Player := fold_left play ms pl.

(** The counter of a thread is a frame of the stack, and past the test of
    line 216 not the last one. *)
Definition counter_in_range (v : DataVisualizer) (a : animation) : Prop :=
  match a with
  | GotCurrent current => in_range v current = true
  | AtLoopHead _ current => in_range v current = true
  | Written _ current => in_range v current = true
  | InLoopBody _ current => (0 <= current < total_frames v - 1)%Z
  | PastIdCheck _ current => (0 <= current < total_frames v - 1)%Z
  | _ => True
  end.

(** The current frame is a frame of the stack, and so is the frame on the
    canvas whenever there is data to draw. *)
Definition shows_a_frame (v : DataVisualizer) : Prop :=
  in_range v (current_frame v) = true /\
  (data v <> None -> exists i, shown v = Some i /\ in_range v i = true).

(** That, and the counter of every playback thread is a frame of the
    stack too. *)
Definition on_the_stack (pl : Player) : Prop :=
  shows_a_frame (visualizer pl) /\
  Forall (counter_in_range (visualizer pl)) (animations pl).

End Visualizer.

(* ===================================================================== *)
(** ** data_manager.py, lines 268-631: [DataManager] *)
(* ===================================================================== *)

Module DataManager.

(** The instance attributes.  [data] can be deleted ([del self.data]);
    [file_path] is read by [run_sofi] and set nowhere in the class, so it
    exists only if a caller assigned it.  The two logs record what was
    handed to [update_status] and [update_progress]; the callbacks these
    pass it on to are taken to return (a callback that raises is not
    modelled). *)
Record t := Mk {
  data : attr ndarray;
  sofi_result : option ndarray;
  total_frames : nat;
  file_path : attr string;
  temp_files : list string;
  status_log : list string;
  progress_log : list Z
}.

(** [__init__] (lines 271-286). *)
Definition __init__ : t := Mk PyNone None 0 Absent [] [] [].

Definition set_data (d : attr ndarray) (m : t) : t :=
  Mk d (sofi_result m) (total_frames m) (file_path m) (temp_files m)
     (status_log m) (progress_log m).
Definition set_sofi_result (r : option ndarray) (m : t) : t :=
  Mk (data m) r (total_frames m) (file_path m) (temp_files m)
     (status_log m) (progress_log m).
Definition set_total_frames (n : nat) (m : t) : t :=
  Mk (data m) (sofi_result m) n (file_path m) (temp_files m)
     (status_log m) (progress_log m).
Definition set_file_path (p : attr string) (m : t) : t :=
  Mk (data m) (sofi_result m) (total_frames m) p (temp_files m)
     (status_log m) (progress_log m).
Definition set_temp_files (l : list string) (m : t) : t :=
  Mk (data m) (sofi_result m) (total_frames m) (file_path m) l
     (status_log m) (progress_log m).
Definition push_status (msg : string) (m : t) : t :=
  Mk (data m) (sofi_result m) (total_frames m) (file_path m) (temp_files m)
     (status_log m ++ [msg]) (progress_log m).
Definition push_progress (v : Z) (m : t) : t :=
  Mk (data m) (sofi_result m) (total_frames m) (file_path m) (temp_files m)
     (status_log m) (progress_log m ++ [v]).

(** The state a method runs in: the outside world and [self]. *)
Record St := MkSt { world : Os.World; self : t }.

Definition on_self {R} (f : t -> t) : M St R unit :=
  modify (fun s => MkSt (world s) (f (self s))).

Definition update_status {R} (msg : string) : M St R unit := on_self (push_status msg).
Definition update_progress {R} (v : Z) : M St R unit := on_self (push_progress v).

Definition os_imread {R} (p : string) : M St R ndarray := fun s =>
  let (w', r) := Os.imread (world s) p in
  lift r (MkSt w' (self s)).

Definition os_remove {R} (p : string) : M St R unit := fun s =>
  let (w', r) := Os.remove (world s) p in
  lift r (MkSt w' (self s)).

Definition os_write {R} (p : string) (sz : Z) : M St R unit := fun s =>
  let (w', r) := Os.write (world s) p sz in
  lift r (MkSt w' (self s)).

Definition MiB : Z := (1024 * 1024)%Z.

(** [load_file] (lines 298-364).  [x / (1024 * 1024) > 500] on the float
    quotient is the integer test [x > 500 * 1024 * 1024]. *)
Definition load_file_body (path : string) : M St (bool * string) unit :=
  (s0 <- get ;;
   (if andb (hasattr (data (self s0))) (is_not_None (data (self s0)))
    then on_self (set_data Absent) else ret tt)) ;;;
  try_except
    (update_status ("Loading " +:+ Os.basename path +:+ "...") ;;;
     update_progress 10 ;;;
     s1 <- get ;;
     (if negb (Os.exists_ (world s1) path)
      then throw (Exn FileNotFoundError ("Could not find the file: " +:+ path))
      else ret tt) ;;;
     file_size <- lift (Os.getsize (world s1) path) ;;
     (if (500 * MiB <? file_size)%Z
      then return_ (false, "The file is " +:+ fmt_mb_1f file_size
                           +:+ " MB, which may cause memory issues.")
      else ret tt) ;;;
     try_except
       (tiff_data <- os_imread path ;;
        let tiff_data := if (ndim tiff_data =? 2)%nat then newaxis tiff_data
                         else tiff_data in
        (if (ndim tiff_data <? 3)%nat
         then throw (Exn ValueError
                "Image stack must have at least 3 dimensions (frames, height, width)")
         else ret tt) ;;;
        (if (1000 * MiB <? nbytes tiff_data)%Z
         then return_ (false, "This data will use " +:+ fmt_mb_1f (nbytes tiff_data)
                              +:+ " MB of memory, which may crash the application.")
         else ret tt) ;;;
        on_self (set_data (Val (astype float32 tiff_data))))
       (fun e => throw (Exn ValueError ("Failed to read TIFF file: " +:+ exn_msg e))) ;;;
     s2 <- get ;;
     match data (self s2) with
     | Val d =>
         on_self (set_total_frames (shape0 d)) ;;;
         update_status ("Loaded " +:+ Os.basename path +:+ ": "
                        +:+ str_int (Z.of_nat (shape0 d)) +:+ " frames, "
                        +:+ str_int (Z.of_nat (nth 1 (arr_shape d) 0%nat)) +:+ "×"
                        +:+ str_int (Z.of_nat (nth 2 (arr_shape d) 0%nat)) +:+ " px") ;;;
         update_progress 100 ;;;
         return_ (true, "Successfully loaded " +:+ Os.basename path)
     | _ => throw (Exn AttributeError "'NoneType' object has no attribute 'shape'")
     end)
    (fun e =>
       update_status ("Error loading file: " +:+ exn_msg e) ;;;
       s3 <- get ;;
       (if hasattr (data (self s3)) then on_self (set_data PyNone) else ret tt) ;;;
       return_ (false, "Failed to load TIFF stack: " +:+ exn_msg e)).

Definition load_file (path : string) (s : St) : St * outcome (bool * string) :=
  call (load_file_body path) (false, "") s.

(** [_cleanup_temp_files] (lines 612-620). *)
Definition _cleanup_temp_files {R} : M St R unit :=
  s0 <- get ;;
  for_each (temp_files (self s0)) (fun temp_path =>
    s <- get ;;
    if Os.exists_ (world s) temp_path
    then try_except (os_remove temp_path) (fun _ => ret tt)
    else ret tt) ;;;
  on_self (set_temp_files []).

Definition cleanup (s : St) : St := fst (_cleanup_temp_files (R := unit) s).

(** [save_result] (lines 564-610).  A TIFF holds the float32 values; any
    other format holds the colour-mapped raster, whose size is not
    modelled beyond being positive. *)
Definition save_result_body (save_path : string) : M St (bool * string) unit :=
  s0 <- get ;;
  match sofi_result (self s0) with
  | None => return_ (false, "No result to save. Please run SOFI analysis first.")
  | Some result_to_save =>
      try_except
        (update_status "Saving results..." ;;;
         update_progress 10 ;;;
         (if orb (Os.endswith (Os.lower save_path) ".tif")
                 (Os.endswith (Os.lower save_path) ".tiff")
          then os_write save_path (nbytes (astype float32 result_to_save))
          else os_write save_path (Z.of_nat (size result_to_save) + 1)%Z) ;;;
         update_progress 100 ;;;
         update_status ("Saved to " +:+ Os.basename save_path) ;;;
         return_ (true, "Successfully saved to " +:+ Os.basename save_path))
        (fun e =>
           update_status ("Error saving file: " +:+ exn_msg e) ;;;
           return_ (false, "Failed to save file: " +:+ exn_msg e))
  end.

Definition save_result (save_path : string) (s : St) : St * outcome (bool * string) :=
  call (save_result_body save_path) (false, "") s.

(** *** [run_sofi] (lines 381-562) *)

(** The [PysofiData] class as [run_sofi] finds it, after the module-level
    patching: each method is the package's own where the package has one
    and the patch of lines 14-259 otherwise. *)
Record Library := MkLib {
  importable : bool;                      (* [import pysofi] succeeds *)
  construct : result Pysofi.PysofiData;   (* [PysofiData()] *)
  has_load_tiff : bool;
  load_tiff : string -> Pysofi.method;
  bleach_from_package : bool;
  bleach_correction : Pysofi.method;
  drift_from_package : bool;
  drift_correction : Pysofi.method;
  calc_moments_set : Z -> Pysofi.method;
  assign_weighting : string -> Pysofi.method;            (* [sofi.weighting = w] *)
  cumulants_images : Z -> option string -> Pysofi.method;  (* the wrapper *)
  reconstruct_fourier : list Z -> Pysofi.method
}.

(** [parameters]: a missing key is [None]. *)
Record Parameters := MkParams {
  p_order : option Z;
  p_weighting : option string;
  p_deconv : option bool;
  p_bleach_correction : option bool;
  p_drift_correction : option bool
}.

(** [parameters.get(key, dflt)] *)
Definition get_or {A} (o : option A) (dflt : A) : A :=
  match o with Some x => x | None => dflt end.

(** The steps of the pipeline, as the specification lists them, and the
    two statements between them that [run_sofi] gives a handler of their
    own: the assignment [sofi.weighting = weighting] (lines 499-504) and
    the second call of [cumulants_images], made after a [TypeError] of the
    first (lines 512-514). *)
Inductive step :=
| Load | BleachCorrection | DriftCorrection | MomentComputation
| WeightingAssignment | CumulantComputation | CumulantRetry
| Deconvolution | ResultExtraction.

(** One failure on the way: a statement of a step raised, or the check
    that closes the load (line 439) found no frames. *)
Inductive failure :=
| Raised (s : step) (e : exn)
| NoFramesLoaded.

(** The state of one run: world and [self], the local [sofi], and a ghost
    record of every failure so far, in order, whether or not a handler
    caught it. *)
Record RunSt := MkRun {
  run_st : St;
  sofi : Pysofi.PysofiData;
  failed_steps : list failure
}.

Definition Res : Type := (bool * string * option ndarray)%type.

(** A [DataManager] statement inside a run. *)
Definition in_manager {A} (m : M St Res A) : M RunSt Res A := fun rs =>
  match m (run_st rs) with
  | (s', f) => (MkRun s' (sofi rs) (failed_steps rs), f)
  end.

Definition get_sofi : M RunSt Res Pysofi.PysofiData := fun rs => (rs, Next (sofi rs)).

Definition on_sofi (f : Pysofi.PysofiData -> Pysofi.PysofiData) : M RunSt Res unit :=
  modify (fun rs => MkRun (run_st rs) (f (sofi rs)) (failed_steps rs)).

(** [sofi.method(...)] *)
Definition invoke (m : Pysofi.method) : M RunSt Res unit := fun rs =>
  let (sofi', r) := m (sofi rs) in
  lift r (MkRun (run_st rs) sofi' (failed_steps rs)).

Definition mark_failed (f : failure) : M RunSt Res unit :=
  modify (fun rs => MkRun (run_st rs) (sofi rs) (failed_steps rs ++ [f])).

(** [m] is a statement of step [s]: same behaviour, and a raise is
    recorded where it happens, before any handler sees it. *)
Definition in_step {A} (s : step) (m : M RunSt Res A) : M RunSt Res A :=
  try_except m (fun e => mark_failed (Raised s e) ;;; throw e).

(** [try: m  except TypeError: h] *)
Definition try_except_TypeError {S R A} (m : M S R A) (h : M S R A) : M S R A :=
  try_except m (fun e => match exn_cls e with TypeError => h | _ => throw e end).

(** [max(l)] of a non-empty list. *)
Definition py_max (l : list Z) : Z :=
  match l with
  | [] => 0%Z
  | x :: rest => fold_left Z.max rest x
  end.

(** [sofi.cumulants_set[order]] *)
Definition cumulant_at (order : Z) : M RunSt Res ndarray :=
  s <- get_sofi ;;
  match Pysofi.cumulants_set s with
  | None => throw (Exn AttributeError
                     "'PysofiData' object has no attribute 'cumulants_set'")
  | Some cs =>
      match cs !! order with
      | Some img => ret img
      | None => throw (Exn KeyError (str_int order))
      end
  end.

(** [self.sofi_result = img.copy()] *)
Definition store_result (img : ndarray) : M RunSt Res unit :=
  in_manager (on_self (set_sofi_result (Some img))).

Definition status (msg : string) : M RunSt Res unit := in_manager (update_status msg).
Definition progress (v : Z) : M RunSt Res unit := in_manager (update_progress v).

Section RunSofi.

Variable lib : Library.
Variable parameters : Parameters.

Let order : Z := get_or (p_order parameters) 2%Z.
Let weighting : string := get_or (p_weighting parameters) "tvmoments".
Let deconv : bool := get_or (p_deconv parameters) false.
Let bleach : bool := get_or (p_bleach_correction parameters) false.
Let drift : bool := get_or (p_drift_correction parameters) false.

(** Lines 413-440. *)
Definition load_stage (path : string) : M RunSt Res unit :=
  status "Creating PySOFI data object..." ;;;
  in_step Load (s0 <- lift (construct lib) ;; on_sofi (fun _ => s0)) ;;;
  status "Loading data into PySOFI..." ;;;
  try_except
    (in_step Load
       (if has_load_tiff lib then invoke (load_tiff lib path)
        else (data <- in_manager (os_imread path) ;;
              on_sofi (Pysofi.set_frames (Val data)))))
    (fun e =>
       status ("Error loading data: " +:+ exn_msg e) ;;;
       return_ (false, "Failed to load data into PySOFI: " +:+ exn_msg e, None)) ;;;
  progress 20 ;;;
  s <- get_sofi ;;
  if negb (is_not_None (Pysofi.frames s))
  then mark_failed NoFramesLoaded ;;;
       return_ (false, "Failed to load frames data into PySOFI", None)
  else ret tt.

(** Lines 442-461. *)
Definition bleach_stage : M RunSt Res unit :=
  if bleach then
    status "Applying bleaching correction..." ;;;
    try_except
      (status (if bleach_from_package lib
               then "Using PySOFI package bleaching correction..."
               else "Using internal bleaching correction implementation...") ;;;
       in_step BleachCorrection (invoke (bleach_correction lib)) ;;;
       status "Bleaching correction applied")
      (fun e =>
         status ("Warning: Bleaching correction error: " +:+ exn_msg e) ;;;
         return_ (false, "Bleaching correction failed: " +:+ exn_msg e, None))
  else ret tt.

(** Lines 463-482. *)
Definition drift_stage : M RunSt Res unit :=
  if drift then
    status "Applying drift correction..." ;;;
    try_except
      (status (if drift_from_package lib
               then "Using PySOFI package drift correction..."
               else "Using internal drift correction implementation...") ;;;
       in_step DriftCorrection (invoke (drift_correction lib)) ;;;
       status "Drift correction applied")
      (fun e =>
         status ("Warning: Drift correction error: " +:+ exn_msg e) ;;;
         return_ (false, "Drift correction failed: " +:+ exn_msg e, None))
  else ret tt.

(** Lines 484-514. *)
Definition statistics_stage : M RunSt Res unit :=
  progress 50 ;;;
  status "Calculating statistical moments..." ;;;
  in_step MomentComputation (invoke (calc_moments_set lib order)) ;;;
  (if negb (String.eqb weighting "none") then
     status ("Applying " +:+ weighting +:+ " weighting...") ;;;
     try_except (in_step WeightingAssignment (invoke (assign_weighting lib weighting)))
       (fun e => status ("Warning: Could not set weighting attribute: " +:+ exn_msg e))
   else ret tt) ;;;
  progress 70 ;;;
  status "Calculating cumulants..." ;;;
  try_except_TypeError
    (in_step CumulantComputation
       (invoke (cumulants_images lib order
                  (if negb (String.eqb weighting "none") then Some weighting else None))))
    (in_step CumulantRetry (invoke (cumulants_images lib order None))).

(** Lines 516-543; yields the order whose image was stored. *)
Definition result_stage : M RunSt Res Z :=
  if andb deconv (2 <? order)%Z then
    status "Applying deconvolution..." ;;;
    try_except
      (in_step Deconvolution (invoke (reconstruct_fourier lib [order])) ;;;
       s <- get_sofi ;;
       match Pysofi.fourier_result s ≫= (fun fr => fr !! order) with
       | Some img =>
           store_result img ;;;
           status "Deconvolution applied successfully"
       | None =>
           status "Warning: Deconvolution produced no result, using regular SOFI instead" ;;;
           in_step ResultExtraction (img <- cumulant_at order ;; store_result img)
       end)
      (fun e =>
         status ("Warning: Deconvolution error: " +:+ exn_msg e
                 +:+ ", using regular SOFI instead") ;;;
         in_step ResultExtraction (img <- cumulant_at order ;; store_result img)) ;;;
    ret order
  else
    in_step ResultExtraction
      (s <- get_sofi ;;
       match Pysofi.cumulants_set s with
       | None => throw (Exn AttributeError
                          "'PysofiData' object has no attribute 'cumulants_set'")
       | Some cs =>
           order' <- (match cs !! order with
                      | Some _ => ret order
                      | None =>
                          let available := (map_to_list cs).*1 in
                          match available with
                          | [] => throw (Exn ValueError "No results available")
                          | _ => ret (py_max available)
                          end
                      end) ;;
           img <- cumulant_at order' ;;
           store_result img ;;;
           ret order'
       end).

Definition run_sofi_body : M RunSt Res unit :=
  if negb (importable lib)
  then return_ (false,
         "PySOFI package not found. Please install it with: pip install pysofi", None)
  else
    rs <- get ;;
    match file_path (self (run_st rs)) with
    | Absent => throw (Exn AttributeError
                         "'DataManager' object has no attribute 'file_path'")
    | PyNone => return_ (false, "No file loaded. Please load a file first.", None)
    | Val path =>
        progress 0 ;;;
        try_except
          (load_stage path ;;;
           bleach_stage ;;;
           drift_stage ;;;
           statistics_stage ;;;
           order' <- result_stage ;;
           in_manager _cleanup_temp_files ;;;
           status ("SOFI analysis complete: order " +:+ str_int order') ;;;
           progress 100 ;;;
           rs' <- get ;;
           return_ (true, "Successfully completed " +:+ str_int order'
                          +:+ "-order SOFI analysis",
                    sofi_result (self (run_st rs'))))
          (fun e =>
             in_manager _cleanup_temp_files ;;;
             status "SOFI analysis failed" ;;;
             return_ (false, "SOFI calculation failed: " +:+ exn_msg e, None))
    end.

(** The caller's view: final state, the failures met, and what came back. *)
Definition run_sofi (s : St) : St * list failure * outcome Res :=
  match call run_sofi_body (false, "", None) (MkRun s Pysofi.blank []) with
  | (rs, out) => (run_st rs, failed_steps rs, out)
  end.

End RunSofi.

(** *** Vocabulary for the statements about [run_sofi] *)

(** A failure result: [(False, message, None)] with a message. *)
Definition is_failure (r : Res) : Prop :=
  match r with (ok, msg, img) => ok = false /\ msg <> "" /\ img = None end.

Definition is_TypeError (e : exn) : bool :=
  match exn_cls e with TypeError => true | _ => false end.

(** The failures [run_sofi] has a handler for that goes on with the run:
    an error of the weighting assignment is logged (lines 501-504), a
    [TypeError] of the first [cumulants_images] call is answered with the
    second call (lines 512-514), and an error of [reconstruct_fourier] with
    the plain cumulant image (lines 529-531). *)
Definition recovered (f : failure) : bool :=
  match f with
  | Raised WeightingAssignment _ => true
  | Raised CumulantComputation e => is_TypeError e
  | Raised Deconvolution _ => true
  | _ => false
  end.

(** Every failure so far is one of those. *)
Definition all_recovered (l : list failure) : Prop :=
  forall f, f ∈ l -> recovered f = true.

(** What a stage of the pipeline guarantees when it starts with no failure
    but recovered ones: if it falls through, that is still so; if it
    returns, it returns a failure; and unless [may_store], the stored
    result is the one it found. *)
Definition stage_contract {A} (may_store : bool) (m : M RunSt Res A) : Prop :=
  forall rs, all_recovered (failed_steps rs) ->
    match m rs with
    | (rs', Next _) =>
        all_recovered (failed_steps rs') /\
        (may_store = false ->
         sofi_result (self (run_st rs')) = sofi_result (self (run_st rs)))
    | (rs', Return r) =>
        is_failure r /\
        sofi_result (self (run_st rs')) = sofi_result (self (run_st rs))
    | (rs', Throw _) =>
        sofi_result (self (run_st rs')) = sofi_result (self (run_st rs))
    end.

(** The [weighting] keyword of the first [cumulants_images] call
    (line 511). *)
Definition weighting_keyword (p : Parameters) : option string :=
  if negb (String.eqb (get_or (p_weighting p) "tvmoments") "none")
  then Some (get_or (p_weighting p) "tvmoments")
  else None.

(** What lines 497-504 make of the object [sofi1] the moments were
    computed on: the object after the assignment [sofi.weighting = ...]
    (not attempted for ["none"]), and the failure of that assignment, if
    any. *)
Definition after_weighting (lib : Library) (p : Parameters) (sofi1 : Pysofi.PysofiData)
  : Pysofi.PysofiData * list failure :=
  if negb (String.eqb (get_or (p_weighting p) "tvmoments") "none")
  then match assign_weighting lib (get_or (p_weighting p) "tvmoments") sofi1 with
       | (sofi2, Ok _) => (sofi2, [])
       | (sofi2, Raise e) => (sofi2, [Raised WeightingAssignment e])
       end
  else (sofi1, []).

(** What one pass of [_cleanup_temp_files] over the tracked paths [l]
    leaves at path [p]: a path disappears exactly when it is tracked and
    [os.remove] accepts it. *)
Definition fs_after_cleanup (l : list string) (w : Os.World) (p : string)
  : option Os.node :=
  match Os.fs w !! p with
  | Some (Os.RegularFile sz true) =>
      if bool_decide (p ∈ l) then None else Some (Os.RegularFile sz true)
  | o => o
  end.

(** What a run leaves alone between two states: the loaded stack, its
    frame count, [file_path], the tracked paths, and the files, the decoder
    and the permissions of the outside world. *)
Definition same_inputs (s s' : St) : Prop :=
  data (self s') = data (self s) /\
  total_frames (self s') = total_frames (self s) /\
  file_path (self s') = file_path (self s) /\
  temp_files (self s') = temp_files (self s) /\
  Os.fs (world s') = Os.fs (world s) /\
  Os.tiff_contents (world s') = Os.tiff_contents (world s) /\
  Os.writable (world s') = Os.writable (world s).

End DataManager.

(* ===================================================================== *)
(** ** guipysofi/ui/gui.py: what the window hands to the data manager *)
(* ===================================================================== *)

Module Gui.

(** *** The parameters of a run ([_run_sofi], lines 534-542) *)

(** The values the Tk variables of the parameter panel hold. *)
Inductive value :=
| Int (n : Z)
| Str (s : string)
| Bool (b : bool).

Definition dict : Type := gmap string value.

(** The dict literal of lines 534-542, from the values read off the
    variables ([order_var], [frames_var], [method_var], [weight_var],
    [bleach_var], [drift_var], [deconv_var]) in that order. *)
Definition parameters
    (order frames : Z) (method weight : string) (bleach drift deconv : bool) : dict :=
  <["deconvolution" := Bool deconv]>
  (<["drift_correction" := Bool drift]>
   (<["bleach_correction" := Bool bleach]>
    (<["weight" := Str weight]>
     (<["method" := Str method]>
      (<["frames" := Int frames]>
       (<["order" := Int order]> ∅)))))).

Definition as_int (v : value) : option Z := match v with Int n => Some n | _ => None end.
Definition as_str (v : value) : option string := match v with Str s => Some s | _ => None end.
Definition as_bool (v : value) : option bool := match v with Bool b => Some b | _ => None end.

(** [parameters.get(key)]: [Some None] for a missing key.  A value of
    another type than the pipeline computes with lies outside the typed
    [DataManager.Parameters] ([None]). *)
Definition dict_get {A} (as_ : value -> option A) (d : dict) (key : string)
  : option (option A) :=
  match d !! key with
  | None => Some None
  | Some v => match as_ v with
              | Some x => Some (Some x)
              | None => None
              end
  end.

(** The five look-ups of [run_sofi] (data_manager.py, lines 398-403). *)
Definition as_read_by_run_sofi (d : dict) : option DataManager.Parameters :=
  match dict_get as_int d "order", dict_get as_str d "weighting", dict_get as_bool d "deconv",
        dict_get as_bool d "bleach_correction", dict_get as_bool d "drift_correction" with
  | Some order, Some weighting, Some deconv, Some bleach, Some drift =>
      Some (DataManager.MkParams order weighting deconv bleach drift)
  | _, _, _, _, _ => None
  end.

(** *** The path of a dropped file ([_on_drop], lines 460-468) *)

(** A Python [str] is a sequence of Unicode code points. *)
Definition str : Type := list N.

Definition space : N := 32.
Definition open_brace : N := 123.
Definition close_brace : N := 125.

(** [ch.isspace()], the separator test of [str.split()]. *)
Definition isspace (c : N) : bool :=
  ((9 <=? c) && (c <=? 13) || (28 <=? c) && (c <=? 32)
   || (c =? 133) || (c =? 160) || (c =? 5760)
   || (8192 <=? c) && (c <=? 8202)
   || (c =? 8232) || (c =? 8233) || (c =? 8239) || (c =? 8287) || (c =? 12288))%N.

(** [path.startswith('{')], [path.endswith('}')] *)
Definition startswith_char (path : str) (c : N) : bool :=
  match path with
  | x :: _ => N.eqb x c
  | [] => false
  end.

Definition endswith_char (path : str) (c : N) : bool :=
  match last path with
  | Some x => N.eqb x c
  | None => false
  end.

(** [path[1:-1]] *)
Definition slice_1_m1 (path : str) : str := removelast (tl path).

(** [c in path] *)
Definition contains (path : str) (c : N) : bool := existsb (N.eqb c) path.

(** [path.split()]: the maximal runs of non-space characters, in order;
    [word] is the run being read, last character first. *)
Fixpoint split_from (word : str) (path : str) : list str :=
  match path with
  | [] => match word with
          | [] => []
          | _ => [rev word]
          end
  | c :: rest =>
      if isspace c
      then match word with
           | [] => split_from [] rest
           | _ => rev word :: split_from [] rest
           end
      else split_from (c :: word) rest
  end.

Definition split (path : str) : list str := split_from [] path.

(** Lines 463-464. *)
Definition strip_braces (path : str) : str :=
  if andb (startswith_char path open_brace) (endswith_char path close_brace)
  then slice_1_m1 path
  else path.

(** What the handler does with [event.data]: the path it displays and
    hands to [_load_file_from_path], or the [IndexError] of
    [path.split()[0]] on a list without a first element. *)
Inductive dropped :=
| Loads (path : str)
| IndexError.

Definition _on_drop (data : str) : dropped :=
  let path := strip_braces data in
  if contains path space
  then match split path with
       | first :: _ => Loads first
       | [] => IndexError
       end
  else Loads path.

End Gui.

(* ===================================================================== *)
(** ** Concrete inputs used by the examples *)
(* ===================================================================== *)

Module Samples.

(** Two frames of 1 x 2 pixels: [[0, 1]] and [[4, 9]]. *)
Definition ramp_stack : ndarray :=
  NdArray float32 [2; 1; 2]%nat (fun p => q_of_nat (p * p)).

(** Four frames of 1 x 1 pixels, as decoded from a 16-bit TIFF. *)
Definition four_frames : ndarray :=
  NdArray uint16 [4; 1; 1]%nat (fun p => q_of_nat p).

(** A four-frame stack being played, slider at position 1.7. *)
Definition slider_at_1 : Qc := Q2Qc (17 # 10).

Definition playing_visualizer : Visualizer.DataVisualizer :=
  Visualizer.Mk false (Some four_frames) 0 4 true true (Some slider_at_1)
                (Some "1/4") (Some 7%nat) (Some 0%Z).

(** A disk holding one small TIFF, a locked scratch file and a directory. *)
Definition disk : Os.World :=
  Os.MkWorld
    (<["stack.tif" := Os.RegularFile 8 true]>
     (<["scratch.tmp" := Os.RegularFile 3 true]>
      (<["locked.tmp" := Os.RegularFile 3 false]>
       (<["cache" := Os.Directory]> ∅))))
    (fun _ => Ok four_frames)
    (fun _ => true)
    [].

(** A 1001-frame, 1024 x 1024, 8-bit stack: 1001 MiB once decoded. *)
Definition dense_stack : ndarray :=
  NdArray uint8 [1001; 1024; 1024]%nat (fun _ => 0%Qc).

(** A disk with a 600 MiB file, and a small (compressed) file that
    decodes to [dense_stack]. *)
Definition big_disk : Os.World :=
  Os.MkWorld
    (<["big.tif" := Os.RegularFile 629145600 true]>
     (<["dense.tif" := Os.RegularFile 4096 true]> ∅))
    (fun _ => Ok dense_stack)
    (fun _ => true)
    [].

Definition before_big_load : DataManager.St :=
  DataManager.MkSt big_disk DataManager.__init__.

(** A two-frame RGB stack (frames x height x width x channels). *)
Definition rgb_stack : ndarray :=
  NdArray uint8 [2; 1; 1; 3]%nat (fun p => q_of_nat p).

Definition rgb_disk : Os.World :=
  Os.MkWorld (<["rgb.tif" := Os.RegularFile 6 true]> ∅)
             (fun _ => Ok rgb_stack) (fun _ => true) [].

Definition before_rgb_load : DataManager.St :=
  DataManager.MkSt rgb_disk DataManager.__init__.

(** A stack of zero frames of 2 x 2 pixels, and a disk whose file decodes
    to it. *)
Definition empty_stack : ndarray :=
  NdArray uint16 [0; 2; 2]%nat (fun _ => 0%Qc).

Definition empty_disk : Os.World :=
  Os.MkWorld (<["empty.tif" := Os.RegularFile 256 true]> ∅)
             (fun _ => Ok empty_stack) (fun _ => true) [].

Definition before_empty_load : DataManager.St :=
  DataManager.MkSt empty_disk DataManager.__init__.

(** A bleaching 16-bit stack: frame 0 is [[1, 2]], frame 1 is [[1, 1]]. *)
Definition fading_stack : ndarray :=
  NdArray uint16 [2; 1; 2]%nat
    (fun p => match p with 1%nat => Q2Qc 2 | _ => Q2Qc 1 end).

(** The same pixels held as floats. *)
Definition fading_stack_f32 : ndarray :=
  NdArray float32 [2; 1; 2]%nat
    (fun p => match p with 1%nat => Q2Qc 2 | _ => Q2Qc 1 end).

Definition no_files : string -> result ndarray :=
  fun p => Raise (Exn FileNotFoundError ("No such file or directory: " +:+ p)).

Definition holding (a : ndarray) : Pysofi.PysofiData :=
  Pysofi.set_frames (Val a) Pysofi.blank.

(** A second-order cumulant image, 1 x 1. *)
Definition cumulant2 : ndarray := NdArray float32 [1; 1]%nat (fun _ => Q2Qc (1 # 4)).
Definition cumulant3 : ndarray := NdArray float32 [1; 1]%nat (fun _ => Q2Qc (1 # 8)).

Definition no_op : Pysofi.method := fun s => (s, Ok tt).

(** A PySOFI build without [load_tiff], [bleach_correction] and
    [reconstruct_fourier] of its own (so the patches are bound), whose
    [cumulants_images] takes no [weighting] and fills [cumulants_set]
    with the images [cs] whatever order is asked for. *)
Definition patched_library (cs : gmap Z ndarray) : DataManager.Library :=
  DataManager.MkLib
    true (Ok Pysofi.blank) false (fun _ => no_op)
    false (Pysofi.bleach_correction (fun _ => Ok four_frames))
    false no_op
    (fun _ => no_op)
    (fun w s => (Pysofi.set_weighting (Some w) s, Ok tt))
    (Pysofi.cumulants_images_wrapper false
       (fun _ _ s => (Pysofi.set_cumulants_set (Some cs) s, Ok tt)))
    (fun orders => Pysofi.reconstruct_fourier (Some (fun a => a)) (Some orders)).

(** The same build with a package [reconstruct_fourier] that raises. *)
Definition failing_deconvolution_library (cs : gmap Z ndarray) : DataManager.Library :=
  DataManager.MkLib
    true (Ok Pysofi.blank) false (fun _ => no_op)
    false (Pysofi.bleach_correction (fun _ => Ok four_frames))
    false no_op
    (fun _ => no_op)
    (fun w s => (Pysofi.set_weighting (Some w) s, Ok tt))
    (Pysofi.cumulants_images_wrapper false
       (fun _ _ s => (Pysofi.set_cumulants_set (Some cs) s, Ok tt)))
    (fun _ s => (s, Raise (Exn RuntimeError "deconvolution did not converge"))).

(** A build whose [weighting] attribute cannot be assigned, whose
    [cumulants_images] takes no [weighting] keyword, and whose
    [reconstruct_fourier] raises. *)
Definition touchy_library (cs : gmap Z ndarray) : DataManager.Library :=
  DataManager.MkLib
    true (Ok Pysofi.blank) false (fun _ => no_op)
    false (Pysofi.bleach_correction (fun _ => Ok four_frames))
    false no_op
    (fun _ => no_op)
    (fun _ s => (s, Raise (Exn AttributeError "can't set attribute 'weighting'")))
    (fun _ w s =>
       match w with
       | Some _ =>
           (s, Raise (Exn TypeError
                        "cumulants_images() got an unexpected keyword argument 'weighting'"))
       | None => (Pysofi.set_cumulants_set (Some cs) s, Ok tt)
       end)
    (fun _ s => (s, Raise (Exn RuntimeError "deconvolution did not converge"))).

(** A manager as [__init__] leaves it, and one whose caller has assigned
    [file_path] by hand. *)
Definition fresh : DataManager.St := DataManager.MkSt disk DataManager.__init__.

Definition with_path : DataManager.St :=
  DataManager.MkSt disk
    (DataManager.set_file_path (Val "stack.tif") DataManager.__init__).

(** A manager tracking a scratch file, a locked file and a directory. *)
Definition tracking : DataManager.St :=
  DataManager.MkSt disk
    (DataManager.set_temp_files ["scratch.tmp"; "locked.tmp"; "cache"]
       DataManager.__init__).

(** A manager whose caller points it at a file that is not there. *)
Definition with_missing_path : DataManager.St :=
  DataManager.MkSt disk
    (DataManager.set_file_path (Val "missing.tif") DataManager.__init__).

(** The run state in which the result stage starts after the cumulants
    of orders 2 and 3 have been computed. *)
Definition after_cumulants : DataManager.RunSt :=
  DataManager.MkRun with_path
    (Pysofi.set_cumulants_set
       (Some (<[2%Z := cumulant2]> (<[3%Z := cumulant3]> ∅))) Pysofi.blank)
    [].

(** The run state in which the statistics stage starts: the stack is in
    the PySOFI object and nothing has failed. *)
Definition after_load : DataManager.RunSt :=
  DataManager.MkRun with_path (holding four_frames) [].

Definition params (order : Z) (deconv : bool) : DataManager.Parameters :=
  DataManager.MkParams (Some order) None (Some deconv) None None.

(** A 1 x 2 float image with pixels 1 and 3. *)
Definition pair_image : ndarray :=
  NdArray float32 [1; 2]%nat (fun p => match p with 0%nat => Q2Qc 1 | _ => Q2Qc 3 end).

(** An object with nothing loaded and no file to fall back on. *)
Definition empty_object : Pysofi.PysofiData := Pysofi.blank.

(** A loaded four-frame stack, paused on its first frame, no playback
    thread yet. *)
Definition paused_player : Visualizer.Player :=
  Visualizer.MkPlayer
    (Visualizer.Mk false (Some four_frames) 0 4 false true (Some (Q2Qc 0))
                   (Some "1/4") None (Some 0%Z))
    None [] [].

(** Play is pressed; the thread reads the current frame, takes its id,
    passes the loop test and the id check, stores frame 1 and schedules
    its redraw. *)
Definition a_playback : list Visualizer.move :=
  [Visualizer.Handler Visualizer.PlayPause;
   Visualizer.Advance 0 7 Visualizer.TkTrue; Visualizer.Advance 0 7 Visualizer.TkTrue;
   Visualizer.Advance 0 7 Visualizer.TkTrue; Visualizer.Advance 0 7 Visualizer.TkTrue;
   Visualizer.Advance 0 7 Visualizer.TkTrue; Visualizer.Advance 0 7 Visualizer.TkTrue].

(** The code points of an ASCII string. *)
Definition code_points (s : string) : Gui.str :=
  map Ascii.N_of_ascii (String.list_ascii_of_string s).

End Samples.

(* ===================================================================== *)
(** ** Correlation kernels: the loop nest and the vectorised form agree *)
(* ===================================================================== *)

Section KernelLemmas.

Import Optimization.

Lemma for_range_S {S : Type} (n : nat) (body : nat -> S -> S) (s : S) :
  for_range (Datatypes.S n) body s = body n (for_range n body s).
Proof.
  unfold for_range. rewrite seq_S, fold_left_app. reflexivity.
Qed.

(** An accumulation loop from zero is the finite sum. *)
Lemma for_range_accumulate (n : nat) (t : nat -> Qc) :
  for_range n (fun f acc => (acc + t f)%Qc) 0%Qc = sum_upto n t.
Proof.
  induction n as [|n IH]; [reflexivity|].
  rewrite for_range_S, IH. reflexivity.
Qed.

Lemma sum_upto_ext (n : nat) (f g : nat -> Qc) :
  (forall x, (x < n)%nat -> f x = g x) -> sum_upto n f = sum_upto n g.
Proof.
  induction n as [|n IH]; intros H; [reflexivity|].
  simpl. rewrite IH by (intros; apply H; lia). rewrite H by lia. reflexivity.
Qed.

Lemma store_overwrites (p : nat) (v : Qc) (val : nat -> Qc) :
  val p = v -> overwrites (fun a => store a p v) (fun q => Nat.eqb q p) val.
Proof.
  intros Hv a Hd. simpl. repeat split; [exact Hd|].
  intros q. rewrite Hd. unfold cast. simpl.
  destruct (Nat.eqb q p) eqn:E; [|reflexivity].
  apply Nat.eqb_eq in E. subst q. symmetry. exact Hv.
Qed.

Lemma for_range_overwrites (n : nat) (body : nat -> ndarray -> ndarray)
      (dom : nat -> nat -> bool) (val : nat -> Qc) :
  (forall i, (i < n)%nat -> overwrites (body i) (dom i) val) ->
  overwrites (for_range n body) (fun p => existsb (fun i => dom i p) (seq 0 n)) val.
Proof.
  induction n as [|n IH]; intros Hb a Hd.
  - simpl. auto.
  - rewrite for_range_S.
    destruct (IH (fun i Hi => Hb i (Nat.lt_lt_succ_r _ _ Hi)) a Hd) as (Hd1 & Hs1 & Hi1).
    destruct (Hb n (Nat.lt_succ_diag_r n) _ Hd1) as (Hd2 & Hs2 & Hi2).
    repeat split; [exact Hd2 | congruence |].
    intros p. rewrite Hi2, Hi1, seq_S, existsb_app. simpl.
    destruct (dom n p), (existsb (fun i => dom i p) (seq 0 n)); reflexivity.
Qed.

Lemma existsb_seq_hit (n i : nat) (d : nat -> bool) :
  (i < n)%nat -> d i = true -> existsb d (seq 0 n) = true.
Proof.
  intros Hi Hd. apply existsb_exists. exists i. split; [|exact Hd].
  apply in_seq. lia.
Qed.

Lemma offset_div (x w l : nat) : (l < w)%nat -> ((x * w + l) / w = x)%nat.
Proof.
  intros H. rewrite Nat.add_comm, Nat.div_add by lia.
  rewrite Nat.div_small by lia. reflexivity.
Qed.

Lemma offset_mod (x w l : nat) : (l < w)%nat -> ((x * w + l) mod w = l)%nat.
Proof.
  intros H. rewrite Nat.add_comm, Nat.Div0.mod_add.
  apply Nat.mod_small. exact H.
Qed.


(** The first loop nest leaves the per-pixel temporal mean in [means]. *)
Lemma numba_means_spec (data : ndarray) (frames height width : nat) :
  arr_shape (numba_means data frames height width) = [height; width] /\
  forall i j, (i < height)%nat -> (j < width)%nat ->
    get2 (numba_means data frames height width) i j = temporal_mean data frames i j.
Proof.
  set (val := fun p => temporal_mean data frames (p / width) (p mod width)).
  assert (Hw : overwrites
    (for_range height (fun i means =>
       for_range width (fun j means =>
         store means (offset2 width i j)
           (for_range frames (fun f acc => (acc + get3 data f i j)%Qc) 0%Qc
            / q_of_nat frames)%Qc) means))
    (fun p => existsb (fun i => existsb (fun j => Nat.eqb p (offset2 width i j))
                                  (seq 0 width)) (seq 0 height)) val).
  { apply for_range_overwrites. intros i Hi.
    apply (for_range_overwrites width _ (fun j p => Nat.eqb p (offset2 width i j))).
    intros j Hj. apply store_overwrites.
    unfold val, offset2, temporal_mean.
    rewrite offset_div, offset_mod, for_range_accumulate by exact Hj. reflexivity. }
  destruct (Hw (zeros float32 [height; width]) eq_refl) as (_ & Hs & Hi).
  split; [exact Hs|].
  intros i j Hlt_i Hlt_j. unfold get2, cols2, numba_means. rewrite Hs. simpl.
  rewrite Hi.
  rewrite (existsb_seq_hit height i);
    [| exact Hlt_i
     | apply (existsb_seq_hit width j); [exact Hlt_j | apply Nat.eqb_refl]].
  unfold val. rewrite offset_div, offset_mod by exact Hlt_j. reflexivity.
Qed.

Lemma q_of_nat_nonzero (n : nat) : (0 < n)%nat -> q_of_nat n <> 0%Qc.
Proof.
  intros Hn Heq. unfold q_of_nat in Heq.
  apply (f_equal this) in Heq. simpl in Heq.
  assert (Hq : (inject_Z (Z.of_nat n) == 0)%Q).
  { rewrite <- (Qred_correct (inject_Z (Z.of_nat n))). rewrite Heq. reflexivity. }
  unfold Qeq in Hq. simpl in Hq. lia.
Qed.

(** The Numba kernel computes the claimed formula at every index. *)
Lemma numba_kernel_spec (data : ndarray) (frames height width : nat) :
  (0 < frames)%nat ->
  arr_shape (fast_cross_correlation_numba data frames height width)
    = [height; width; height; width] /\
  forall i j k l, (i < height)%nat -> (j < width)%nat -> (k < height)%nat -> (l < width)%nat ->
    get4 (fast_cross_correlation_numba data frames height width) i j k l
    = cross_correlation_spec data frames i j k l.
Proof.
  intros Hfr.
  destruct (numba_means_spec data frames height width) as [_ Hmeans].
  set (means := numba_means data frames height width) in *.
  set (val := fun p =>
    cross_correlation_spec data frames
      (p / width / height / width) ((p / width / height) mod width)
      ((p / width) mod height) (p mod width)).
  assert (Hw : overwrites
    (for_range height (fun i result =>
      for_range width (fun j result =>
        for_range height (fun k result =>
          for_range width (fun l result =>
            store result (offset4 width height width i j k l)
              (for_range frames (fun f acc =>
                 (acc + (get3 data f i j - get2 means i j)
                        * (get3 data f k l - get2 means k l))%Qc) 0%Qc
               / q_of_nat frames)%Qc) result) result) result))
    (fun p => existsb (fun i => existsb (fun j => existsb (fun k => existsb (fun l =>
                Nat.eqb p (offset4 width height width i j k l))
                (seq 0 width)) (seq 0 height)) (seq 0 width)) (seq 0 height)) val).
  { apply for_range_overwrites. intros i Hi.
    apply (for_range_overwrites width _
      (fun j p => existsb (fun k => existsb (fun l =>
         Nat.eqb p (offset4 width height width i j k l)) (seq 0 width)) (seq 0 height))).
    intros j Hj.
    apply (for_range_overwrites height _
      (fun k p => existsb (fun l =>
         Nat.eqb p (offset4 width height width i j k l)) (seq 0 width))).
    intros k Hk.
    apply (for_range_overwrites width _
      (fun l p => Nat.eqb p (offset4 width height width i j k l))).
    intros l Hl. apply store_overwrites.
    unfold val, offset4.
    rewrite (offset_mod _ width l), (offset_div _ width l) by exact Hl.
    rewrite (offset_mod _ height k), (offset_div _ height k) by exact Hk.
    rewrite (offset_mod _ width j), (offset_div _ width j) by exact Hj.
    rewrite for_range_accumulate. unfold cross_correlation_spec.
    assert (E : sum_upto frames (fun f =>
                  ((get3 data f i j - get2 means i j)
                   * (get3 data f k l - get2 means k l))%Qc)
                = sum_upto frames (fun f =>
                  ((get3 data f i j - temporal_mean data frames i j)
                   * (get3 data f k l - temporal_mean data frames k l))%Qc)).
    { apply sum_upto_ext. intros f _. rewrite !Hmeans by assumption. reflexivity. }
    rewrite E. field. apply q_of_nat_nonzero. exact Hfr. }
  destruct (Hw (zeros float32 [height; width; height; width]) eq_refl) as (_ & Hs & Hi).
  split; [exact Hs|].
  intros i j k l Hlt_i Hlt_j Hlt_k Hlt_l.
  unfold get4, fast_cross_correlation_numba. fold means. rewrite Hs. simpl nth.
  rewrite Hi.
  rewrite (existsb_seq_hit height i);
    [| exact Hlt_i
     | apply (existsb_seq_hit width j); [exact Hlt_j |];
       apply (existsb_seq_hit height k); [exact Hlt_k |];
       apply (existsb_seq_hit width l); [exact Hlt_l | apply Nat.eqb_refl]].
  unfold val.
  rewrite (offset_mod _ width l), (offset_div _ width l) by exact Hlt_l.
  rewrite (offset_mod _ height k), (offset_div _ height k) by exact Hlt_k.
  rewrite (offset_mod _ width j), (offset_div _ width j) by exact Hlt_j.
  reflexivity.
Qed.

Lemma get3_flat (data : ndarray) (frames height width f i j : nat) :
  arr_shape data = [frames; height; width] ->
  get3 data f i j = arr_item data (f * (height * width) + (i * width + j))%nat.
Proof.
  intros Hsh. unfold get3. rewrite Hsh. simpl. f_equal. lia.
Qed.

(** The vectorised kernel returns, and computes the claimed formula. *)
Lemma numpy_kernel_spec (data : ndarray) (frames height width : nat) :
  arr_shape data = [frames; height; width] -> (0 < frames)%nat ->
  exists r, fast_cross_correlation_numpy data frames height width = Ok r /\
    arr_shape r = [height; width; height; width] /\
    forall i j k l, (i < height)%nat -> (j < width)%nat -> (k < height)%nat -> (l < width)%nat ->
      get4 r i j k l = cross_correlation_spec data frames i j k l.
Proof.
  intros Hsh Hfr.
  assert (Hsize : size data = (frames * (height * width))%nat).
  { unfold size. rewrite Hsh. simpl. lia. }
  assert (Hdiv : (size data / frames = height * width)%nat).
  { rewrite Hsize, Nat.mul_comm. apply Nat.div_mul. lia. }
  unfold fast_cross_correlation_numpy, reshape_rows.
  destruct (Nat.eqb_spec frames 0) as [->|_]; [lia|].
  unfold reshape at 1. rewrite Hdiv.
  replace (prod_shape [frames; (height * width)%nat]) with (size data)
    by (rewrite Hsize; simpl; lia).
  rewrite Nat.eqb_refl.
  set (dr := NdArray (arr_dtype data) [frames; (height * width)%nat] (arr_item data)).
  unfold reshape.
  replace (size (div_scalar (dot (transpose (sub_rowvec dr (mean_axis0 dr)))
                                 (sub_rowvec dr (mean_axis0 dr))) frames))
    with (prod_shape [height; width; height; width])
    by (unfold size, prod_shape; cbn; ring).
  rewrite Nat.eqb_refl.
  eexists. split; [reflexivity|]. split; [reflexivity|].
  intros i j k l Hi Hj Hk Hl.
  unfold get4. simpl.
  assert (Hkl : (k * width + l < height * width)%nat) by nia.
  assert (Hij : (i * width + j < height * width)%nat) by nia.
  replace (((i * width + j) * height + k) * width + l)%nat
    with ((i * width + j) * (height * width) + (k * width + l))%nat by lia.
  unfold get2, cols2, rows2. simpl.
  rewrite offset_div, offset_mod by exact Hkl.
  unfold cross_correlation_spec, temporal_mean.
  transitivity (sum_upto frames (fun f =>
      ((get3 data f i j - sum_upto frames (fun f0 => get3 data f0 i j) / q_of_nat frames)
       * (get3 data f k l - sum_upto frames (fun f0 => get3 data f0 k l) / q_of_nat frames))%Qc)
      / q_of_nat frames)%Qc.
  2:{ field. apply q_of_nat_nonzero. exact Hfr. }
  f_equal. apply sum_upto_ext. intros f Hf.
  rewrite (offset_mod _ frames f), (offset_div _ frames f) by exact Hf.
  rewrite (offset_mod _ (height * width)) by exact Hij.
  rewrite (offset_mod _ (height * width)) by exact Hkl.
  rewrite !(get3_flat data frames height width) by exact Hsh.
  f_equal; f_equal; f_equal; apply sum_upto_ext; intros f0 _;
    rewrite (get3_flat data frames height width) by exact Hsh; reflexivity.
Qed.

End KernelLemmas.

(** C10.  For every 3-D stack of shape frames x height x width (frames >= 1),
    the Numba loop nest and the vectorised NumPy fallback of
    [fast_cross_correlation] compute the same function: the fallback returns
    an array of the same 4-D shape, and at every index [i, j, k, l] both hold
    (1/frames) * sum_f (data[f,i,j] - mean[i,j]) * (data[f,k,l] - mean[k,l]),
    with mean the per-pixel temporal mean (exact arithmetic). *)
Theorem fast_cross_correlation_variants_agree
    (data : ndarray) (frames height width : nat) :
  arr_shape data = [frames; height; width] ->
  (0 < frames)%nat ->
  exists r,
    Optimization.fast_cross_correlation_numpy data frames height width = Ok r /\
    arr_shape r
      = arr_shape (Optimization.fast_cross_correlation_numba data frames height width) /\
    forall i j k l,
      (i < height)%nat -> (j < width)%nat -> (k < height)%nat -> (l < width)%nat ->
      get4 (Optimization.fast_cross_correlation_numba data frames height width) i j k l
        = Optimization.cross_correlation_spec data frames i j k l /\
      get4 r i j k l = Optimization.cross_correlation_spec data frames i j k l.
Proof.
  intros Hsh Hfr.
  destruct (numpy_kernel_spec data frames height width Hsh Hfr) as (r & Hr & Hshape & Hval).
  destruct (numba_kernel_spec data frames height width Hfr) as (Hshape' & Hval').
  exists r. split; [exact Hr|]. split; [congruence|].
  intros i j k l Hi Hj Hk Hl. split; [apply Hval' | apply Hval]; assumption.
Qed.

Lemma fast_cross_correlation_variants_agree_witness :
  exists r,
    Optimization.fast_cross_correlation_numpy Samples.ramp_stack 2 1 2 = Ok r /\
    arr_shape r
      = arr_shape (Optimization.fast_cross_correlation_numba Samples.ramp_stack 2 1 2) /\
    forall i j k l,
      (i < 1)%nat -> (j < 2)%nat -> (k < 1)%nat -> (l < 2)%nat ->
      get4 (Optimization.fast_cross_correlation_numba Samples.ramp_stack 2 1 2) i j k l
        = Optimization.cross_correlation_spec Samples.ramp_stack 2 i j k l /\
      get4 r i j k l = Optimization.cross_correlation_spec Samples.ramp_stack 2 i j k l.
Proof.
  apply (fast_cross_correlation_variants_agree Samples.ramp_stack 2 1 2);
    [reflexivity | lia].
Defined.

(** The two kernels on a 2-frame, 1 x 2 stack: covariance of pixel 0 with
    pixel 1 is (0-2)(1-5)/2 + (4-2)(9-5)/2 = 8. *)
Example kernels_on_ramp :
  get4 (Optimization.fast_cross_correlation_numba Samples.ramp_stack 2 1 2) 0 0 0 1
    = Q2Qc 8 /\
  match Optimization.fast_cross_correlation_numpy Samples.ramp_stack 2 1 2 with
  | Ok r => get4 r 0 0 0 1 = Q2Qc 8
  | Raise _ => False
  end.
Proof. split; apply Qc_is_canon; vm_compute; reflexivity. Qed.

(* ===================================================================== *)
(** ** Frame player: seeking leaves the play/pause state alone *)
(* ===================================================================== *)

Lemma display_frame_keeps_playing (v : Visualizer.DataVisualizer) (idx : Z) :
  Visualizer.is_playing (Visualizer.display_frame v idx) = Visualizer.is_playing v.
Proof.
  unfold Visualizer.display_frame.
  destruct (Visualizer.data v); [|reflexivity].
  destruct (Visualizer.total_frames v =? 0)%Z; [reflexivity|].
  destruct (negb (Visualizer.in_range v idx)); [reflexivity|].
  simpl. destruct (Visualizer.is_sofi v); [reflexivity|].
  destruct (Visualizer.frame_counter v); reflexivity.
Qed.

Lemma display_frame_sets_current (v : Visualizer.DataVisualizer) (idx : Z) :
  Visualizer.current_frame v = idx ->
  Visualizer.current_frame (Visualizer.display_frame v idx) = idx.
Proof.
  intros Hc. unfold Visualizer.display_frame.
  destruct (Visualizer.data v); [|exact Hc].
  destruct (Visualizer.total_frames v =? 0)%Z; [exact Hc|].
  destruct (negb (Visualizer.in_range v idx)); [exact Hc|].
  simpl. destruct (Visualizer.is_sofi v); [reflexivity|].
  destruct (Visualizer.frame_counter v); reflexivity.
Qed.

(** C9.  A manual seek performed while playback is active (slider release,
    or the deferred slider update) to a position inside the stack sets the
    current frame index to that position and leaves the playing flag as it
    was: neither set nor cleared. *)
Theorem seek_while_playing_keeps_play_state
    (v : Visualizer.DataVisualizer) (pos : Qc) :
  Visualizer.is_playing v = true ->
  Visualizer.frame_slider v = Some pos ->
  Visualizer.in_range v (int_of pos) = true ->
  Visualizer.is_playing (Visualizer.on_slider_release v) = true /\
  Visualizer.current_frame (Visualizer.on_slider_release v) = int_of pos /\
  Visualizer.is_playing (Visualizer._update_frame_from_slider v) = true /\
  Visualizer.current_frame (Visualizer._update_frame_from_slider v) = int_of pos.
Proof.
  intros Hplay Hslider Hrange.
  unfold Visualizer.on_slider_release, Visualizer._update_frame_from_slider.
  simpl. rewrite Hslider.
  assert (Hr1 : forall o, Visualizer.in_range (Visualizer.with_update_id v o) (int_of pos) = true)
    by (intros o; exact Hrange).
  rewrite Hr1.
  destruct (Visualizer.slider_update_id v);
    rewrite ?Hr1, ?Hrange, !display_frame_keeps_playing;
    (repeat split; try exact Hplay; apply display_frame_sets_current; reflexivity).
Qed.

Lemma seek_while_playing_keeps_play_state_witness :
  Visualizer.is_playing (Visualizer.on_slider_release Samples.playing_visualizer) = true /\
  Visualizer.current_frame (Visualizer.on_slider_release Samples.playing_visualizer)
    = int_of Samples.slider_at_1 /\
  Visualizer.is_playing (Visualizer._update_frame_from_slider Samples.playing_visualizer) = true /\
  Visualizer.current_frame (Visualizer._update_frame_from_slider Samples.playing_visualizer)
    = int_of Samples.slider_at_1.
Proof.
  apply (seek_while_playing_keeps_play_state Samples.playing_visualizer Samples.slider_at_1);
    reflexivity.
Defined.

(** No handler reachable from a seek ever writes the flag, whatever the
    slider shows (also out of range, also with no slider). *)
Lemma seek_never_touches_play_state (v : Visualizer.DataVisualizer) :
  Visualizer.is_playing (Visualizer.on_slider_release v) = Visualizer.is_playing v /\
  Visualizer.is_playing (Visualizer._update_frame_from_slider v) = Visualizer.is_playing v.
Proof.
  unfold Visualizer.on_slider_release, Visualizer._update_frame_from_slider. simpl.
  split.
  - destruct (Visualizer.frame_slider v); [|reflexivity].
    destruct (Visualizer.slider_update_id v);
      match goal with |- context [if ?b then _ else _] => destruct b end;
      rewrite ?display_frame_keeps_playing; reflexivity.
  - destruct (Visualizer.frame_slider v); [|reflexivity].
    match goal with |- context [if ?b then _ else _] => destruct b end;
      rewrite ?display_frame_keeps_playing; reflexivity.
Qed.

Example seek_on_sample :
  Visualizer.current_frame (Visualizer.seek Samples.playing_visualizer (Q2Qc (5 # 2))) = 2%Z /\
  Visualizer.is_playing (Visualizer.seek Samples.playing_visualizer (Q2Qc (5 # 2))) = true /\
  Visualizer.shown (Visualizer.seek Samples.playing_visualizer (Q2Qc (5 # 2))) = Some 2%Z.
Proof. vm_compute. repeat split. Qed.

(* ===================================================================== *)
(** ** [load_file]: missing files, size caps, the stored stack *)
(* ===================================================================== *)

(** Unfolding of the statement combinators, for symbolic execution. *)
Ltac run_flow :=
  cbv beta iota delta
    [Flow.call Flow.bind Flow.try_except Flow.ret Flow.return_ Flow.throw
     Flow.get Flow.modify Flow.lift Flow.for_each
     DataManager.load_file DataManager.load_file_body
     DataManager.update_status DataManager.update_progress DataManager.on_self
     DataManager.os_imread DataManager.os_remove DataManager.os_write
     DataManager.world DataManager.self fst snd].

Lemma exists_of_lookup (w : Os.World) (p : string) (n : Os.node) :
  Os.fs w !! p = Some n -> Os.exists_ w p = true.
Proof.
  intros H. unfold Os.exists_. apply bool_decide_eq_true. rewrite H. eauto.
Qed.

(** C5.  Loading a path that does not exist on the filesystem returns
    failure, and the message says that the file could not be found. *)
Theorem load_file_nonexistent (s : DataManager.St) (path : string) :
  Os.exists_ (DataManager.world s) path = false ->
  exists s',
    DataManager.load_file path s
    = (s', Returned (false, "Failed to load TIFF stack: Could not find the file: " +:+ path)).
Proof.
  intros Hex. destruct s as [w m]. destruct m as [d r n fp tf sl pl].
  cbn [DataManager.world] in Hex.
  destruct d; run_flow; cbn; rewrite Hex; cbn; eexists; reflexivity.
Qed.

Lemma load_file_nonexistent_witness :
  exists s',
    DataManager.load_file "nonexistent_file.tif" Samples.fresh
    = (s', Returned (false,
         "Failed to load TIFF stack: Could not find the file: " +:+ "nonexistent_file.tif")).
Proof.
  apply (load_file_nonexistent Samples.fresh "nonexistent_file.tif").
  vm_compute. reflexivity.
Defined.

(** C4.  A file over the size cap is rejected with a descriptive message.
    Over 500 MiB on disk: the message names the size, and the decoder is
    never entered (the I/O log is unchanged).  Within the disk cap but over
    1000 MiB once decoded: the message names the memory size (or, for an
    image that is not even 2-D, the dimension error), and no stack is
    stored. *)
Theorem load_file_over_cap (s : DataManager.St) (path : string) (sz : Z) (rm : bool) :
  Os.fs (DataManager.world s) !! path = Some (Os.RegularFile sz rm) ->
  ((500 * DataManager.MiB < sz)%Z ->
   exists s',
     DataManager.load_file path s
     = (s', Returned (false, "The file is " +:+ fmt_mb_1f sz
                             +:+ " MB, which may cause memory issues.")) /\
     Os.io_log (DataManager.world s') = Os.io_log (DataManager.world s) /\
     is_not_None (DataManager.data (DataManager.self s')) = false)
  /\
  (forall a,
     (sz <= 500 * DataManager.MiB)%Z ->
     Os.tiff_contents (DataManager.world s) path = Ok a ->
     (1000 * DataManager.MiB < nbytes a)%Z ->
     exists s',
       DataManager.load_file path s
       = (s', Returned (false,
            if (2 <=? ndim a)%nat
            then "This data will use " +:+ fmt_mb_1f (nbytes a)
                 +:+ " MB of memory, which may crash the application."
            else "Failed to load TIFF stack: Failed to read TIFF file: "
                 +:+ "Image stack must have at least 3 dimensions (frames, height, width)")) /\
       is_not_None (DataManager.data (DataManager.self s')) = false).
Proof.
  intros Hfs. destruct s as [w m]. destruct m as [d r n fp tf sl pl].
  cbn [DataManager.world DataManager.self] in *.
  pose proof (exists_of_lookup w path _ Hfs) as Hex.
  split.
  - intros Hbig. apply Z.ltb_lt in Hbig.
    destruct d; run_flow; cbn; rewrite Hex; cbn; unfold Os.getsize; rewrite Hfs; cbn;
      rewrite Hbig; cbn; eexists; repeat split; reflexivity.
  - intros a Hsmall Hdec Hmem. apply Z.ltb_lt in Hmem.
    assert (Hnot : (500 * DataManager.MiB <? sz)%Z = false) by (apply Z.ltb_ge; exact Hsmall).
    assert (Hnb : nbytes (newaxis a) = nbytes a).
    { unfold nbytes, newaxis. cbn. destruct (fold_right _ _ _); reflexivity. }
    destruct a as [dt sh it]. unfold ndim in *. cbn [arr_shape] in *.
    destruct sh as [|h0 [|h1 [|h2 sh]]]; cbn [length Nat.leb Nat.eqb Nat.ltb];
      destruct d; run_flow; cbn; rewrite Hex; cbn; unfold Os.getsize; rewrite Hfs; cbn;
      rewrite Hnot; cbn; unfold Os.imread; rewrite Hfs; cbn; rewrite Hdec; cbn;
      rewrite ?Hnb, ?Hmem; cbn; eexists; repeat split; reflexivity.
Qed.

Lemma load_file_over_cap_witness :
  (exists s',
     DataManager.load_file "big.tif" Samples.before_big_load
     = (s', Returned (false, "The file is " +:+ fmt_mb_1f 629145600
                             +:+ " MB, which may cause memory issues.")) /\
     Os.io_log (DataManager.world s') = Os.io_log (DataManager.world Samples.before_big_load) /\
     is_not_None (DataManager.data (DataManager.self s')) = false)
  /\
  (exists s',
     DataManager.load_file "dense.tif" Samples.before_big_load
     = (s', Returned (false,
          if (2 <=? ndim Samples.dense_stack)%nat
          then "This data will use " +:+ fmt_mb_1f (nbytes Samples.dense_stack)
               +:+ " MB of memory, which may crash the application."
          else "Failed to load TIFF stack: Failed to read TIFF file: "
               +:+ "Image stack must have at least 3 dimensions (frames, height, width)")) /\
     is_not_None (DataManager.data (DataManager.self s')) = false).
Proof.
  split.
  - apply (proj1 (load_file_over_cap Samples.before_big_load "big.tif" 629145600 true
                    eq_refl)).
    reflexivity.
  - apply (proj2 (load_file_over_cap Samples.before_big_load "dense.tif" 4096 true
                    eq_refl) Samples.dense_stack).
    + discriminate.
    + reflexivity.
    + reflexivity.
Defined.

Example oversize_messages :
  snd (DataManager.load_file "big.tif" Samples.before_big_load)
    = Returned (false, "The file is 600.0 MB, which may cause memory issues.") /\
  snd (DataManager.load_file "dense.tif" Samples.before_big_load)
    = Returned (false,
        "This data will use 1001.0 MB of memory, which may crash the application.").
Proof. split; vm_compute; reflexivity. Qed.

(** Against C6 as stated, on both counts.  A four-dimensional TIFF (here a
    two-frame RGB stack) passes the [ndim < 3] guard, the load succeeds, and
    the stored stack has four dimensions, not three.  And an image that
    decodes to a stack of zero frames passes every check too: the load
    succeeds with [total_frames = 0]. *)
Lemma load_file_stores_4d_and_empty_stacks :
  (exists s' d,
     DataManager.load_file "rgb.tif" Samples.before_rgb_load
       = (s', Returned (true, "Successfully loaded rgb.tif")) /\
     DataManager.data (DataManager.self s') = Val d /\
     ndim d = 4%nat /\ ndim d <> 3%nat) /\
  (exists s' d,
     DataManager.load_file "empty.tif" Samples.before_empty_load
       = (s', Returned (true, "Successfully loaded empty.tif")) /\
     DataManager.data (DataManager.self s') = Val d /\
     arr_shape d = [0; 2; 2]%nat /\
     DataManager.total_frames (DataManager.self s') = 0%nat /\
     ~ (1 <= DataManager.total_frames (DataManager.self s'))%nat).
Proof.
  split.
  - eexists. eexists. split; [vm_compute; reflexivity|].
    split; [reflexivity|]. split; [reflexivity | discriminate].
  - eexists. eexists. split; [vm_compute; reflexivity|].
    split; [reflexivity|]. split; [reflexivity|]. split; [reflexivity|].
    cbn. lia.
Qed.

(** C6, amended.  After every successful [load_file] the stored stack is
    one array of at least three dimensions (exactly the decoded image, with
    a leading axis of length 1 added when the image is 2-D), so all frames
    share the shape that follows the leading dimension; [total_frames] is
    the leading dimension; and the frame count is at least 1 exactly when
    the decoded image is 2-D or its leading dimension is not zero
    ([load_file] does not check it). *)
Theorem load_file_success_stack
    (s s' : DataManager.St) (path msg : string) :
  DataManager.load_file path s = (s', Returned (true, msg)) ->
  exists a d,
    Os.tiff_contents (DataManager.world s) path = Ok a /\
    DataManager.data (DataManager.self s') = Val d /\
    arr_shape d = (if (ndim a =? 2)%nat then 1%nat :: arr_shape a else arr_shape a) /\
    (3 <= ndim d)%nat /\
    arr_shape d = DataManager.total_frames (DataManager.self s') :: tl (arr_shape d) /\
    DataManager.total_frames (DataManager.self s') = shape0 d /\
    ((1 <= DataManager.total_frames (DataManager.self s'))%nat <->
     ndim a = 2%nat \/ (1 <= shape0 a)%nat).
Proof.
  destruct s as [w m]. destruct m as [d0 r n fp tf sl pl].
  cbn [DataManager.world DataManager.self].
  unfold DataManager.load_file.
  destruct (Os.fs w !! path) as [[sz rm|]|] eqn:Hfs.
  3:{ assert (Hex : Os.exists_ w path = false).
      { unfold Os.exists_. apply bool_decide_eq_false. rewrite Hfs.
        intros [x Hx]. discriminate. }
      destruct d0; run_flow; cbn; rewrite Hex; cbn; intros H; inversion H. }
  2:{ pose proof (exists_of_lookup w path _ Hfs) as Hex.
      destruct d0; run_flow; cbn; rewrite Hex; cbn; unfold Os.getsize; rewrite Hfs; cbn;
        change (500 * DataManager.MiB <? 4096)%Z with false; cbn;
        unfold Os.imread; rewrite Hfs; cbn; intros H; inversion H. }
  pose proof (exists_of_lookup w path _ Hfs) as Hex.
  destruct (500 * DataManager.MiB <? sz)%Z eqn:Hsz.
  { destruct d0; run_flow; cbn; rewrite Hex; cbn; unfold Os.getsize; rewrite Hfs; cbn;
      rewrite Hsz; cbn; intros H; inversion H. }
  destruct (Os.tiff_contents w path) as [a|e] eqn:Hdec.
  2:{ destruct d0; run_flow; cbn; rewrite Hex; cbn; unfold Os.getsize; rewrite Hfs; cbn;
        rewrite Hsz; cbn; unfold Os.imread; rewrite Hfs; cbn; rewrite Hdec; cbn;
        intros H; inversion H. }
  destruct a as [dt sh it]. unfold ndim. cbn [arr_shape].
  destruct sh as [|h0 [|h1 [|h2 sh]]]; cbn [length Nat.eqb];
    destruct d0; run_flow; cbn; rewrite Hex; cbn; unfold Os.getsize; rewrite Hfs; cbn;
    rewrite Hsz; cbn; unfold Os.imread; rewrite Hfs; cbn; rewrite Hdec; cbn;
    try (intros H; inversion H; fail);
    match goal with
    | |- context [(1000 * DataManager.MiB <? ?x)%Z] =>
        destruct (1000 * DataManager.MiB <? x)%Z; cbn
    end;
    intros H; inversion H; subst; cbn;
    eexists; eexists; (split; [reflexivity|]); (split; [reflexivity|]);
    cbn; (split; [reflexivity|]); (split; [lia|]); (split; [reflexivity|]);
    (split; [reflexivity|]);
    (split; [intros Hpos; first [left; reflexivity | right; exact Hpos]
            | intros [Hd|Hd]; first [lia | discriminate Hd | exact Hd]]).
Qed.

Lemma load_file_success_stack_witness :
  exists a d,
    Os.tiff_contents (DataManager.world Samples.fresh) "stack.tif" = Ok a /\
    DataManager.data (DataManager.self
      (fst (DataManager.load_file "stack.tif" Samples.fresh))) = Val d /\
    arr_shape d = (if (ndim a =? 2)%nat then 1%nat :: arr_shape a else arr_shape a) /\
    (3 <= ndim d)%nat /\
    arr_shape d = DataManager.total_frames (DataManager.self
      (fst (DataManager.load_file "stack.tif" Samples.fresh))) :: tl (arr_shape d) /\
    DataManager.total_frames (DataManager.self
      (fst (DataManager.load_file "stack.tif" Samples.fresh))) = shape0 d /\
    ((1 <= DataManager.total_frames (DataManager.self
      (fst (DataManager.load_file "stack.tif" Samples.fresh))))%nat <->
     ndim a = 2%nat \/ (1 <= shape0 a)%nat).
Proof.
  apply (load_file_success_stack Samples.fresh
           (fst (DataManager.load_file "stack.tif" Samples.fresh))
           "stack.tif" "Successfully loaded stack.tif").
  vm_compute. reflexivity.
Defined.

(* ===================================================================== *)
(** ** [_cleanup_temp_files] *)
(* ===================================================================== *)

Lemma cleanup_loop (R : Type) (l : list string) (s : DataManager.St) :
  exists w',
    Flow.for_each (R := R) l (fun temp_path =>
      s <- Flow.get ;;
      if Os.exists_ (DataManager.world s) temp_path
      then Flow.try_except (DataManager.os_remove temp_path) (fun _ => Flow.ret tt)
      else Flow.ret tt) s
    = (DataManager.MkSt w' (DataManager.self s), Next tt) /\
    forall p, Os.fs w' !! p = DataManager.fs_after_cleanup l (DataManager.world s) p.
Proof.
  revert s. induction l as [|x l IH]; intros [w m].
  - exists w. split; [reflexivity|]. intros p. unfold DataManager.fs_after_cleanup. cbn.
    destruct (Os.fs w !! p) as [[sz [|]|]|]; reflexivity.
  - cbn [Flow.for_each]. unfold Flow.bind at 1. unfold Flow.bind at 1.
    unfold Flow.get at 1. cbn [DataManager.world DataManager.self].
    assert (Hstep : exists w1,
      (if Os.exists_ w x
       then Flow.try_except (R := R) (DataManager.os_remove x) (fun _ => Flow.ret tt)
       else Flow.ret tt) (DataManager.MkSt w m)
      = (DataManager.MkSt w1 m, Next tt) /\
      forall p, Os.fs w1 !! p = DataManager.fs_after_cleanup [x] w p).
    { unfold DataManager.fs_after_cleanup.
      destruct (Os.fs w !! x) as [[sz [|]|]|] eqn:Hx.
      - rewrite (exists_of_lookup w x _ Hx).
        unfold Flow.try_except, DataManager.os_remove, Os.remove. cbn. rewrite Hx. cbn.
        eexists. split; [reflexivity|]. cbn. intros p.
        destruct (decide (p = x)) as [->|Hne].
        + rewrite lookup_delete_eq, Hx.
          rewrite bool_decide_eq_true_2 by (apply list_elem_of_singleton; reflexivity).
          reflexivity.
        + rewrite lookup_delete_ne by congruence.
          destruct (Os.fs w !! p) as [[sz' [|]|]|]; try reflexivity.
          rewrite bool_decide_eq_false_2; [reflexivity|].
          intros Hin. apply list_elem_of_singleton in Hin. contradiction.
      - rewrite (exists_of_lookup w x _ Hx).
        unfold Flow.try_except, DataManager.os_remove, Os.remove. cbn. rewrite Hx. cbn.
        eexists. split; [reflexivity|]. cbn. intros p.
        destruct (Os.fs w !! p) as [[sz' [|]|]|] eqn:Hp; try reflexivity.
        rewrite bool_decide_eq_false_2; [reflexivity|].
        intros Hin. apply list_elem_of_singleton in Hin. congruence.
      - rewrite (exists_of_lookup w x _ Hx).
        unfold Flow.try_except, DataManager.os_remove, Os.remove. cbn. rewrite Hx. cbn.
        eexists. split; [reflexivity|]. cbn. intros p.
        destruct (Os.fs w !! p) as [[sz' [|]|]|] eqn:Hp; try reflexivity.
        rewrite bool_decide_eq_false_2; [reflexivity|].
        intros Hin. apply list_elem_of_singleton in Hin. congruence.
      - assert (Hex : Os.exists_ w x = false).
        { unfold Os.exists_. apply bool_decide_eq_false. rewrite Hx.
          intros [y Hy]. discriminate. }
        rewrite Hex. exists w. split; [reflexivity|]. intros p.
        destruct (Os.fs w !! p) as [[sz' [|]|]|] eqn:Hp; try reflexivity.
        rewrite bool_decide_eq_false_2; [reflexivity|].
        intros Hin. apply list_elem_of_singleton in Hin. congruence. }
    destruct Hstep as (w1 & Hrun & Hfs1). rewrite Hrun.
    destruct (IH (DataManager.MkSt w1 m)) as (w' & Hrest & Hfs').
    exists w'. split; [exact Hrest|].
    intros p. rewrite Hfs'. unfold DataManager.fs_after_cleanup in *.
    cbn [DataManager.world]. rewrite Hfs1.
    destruct (Os.fs w !! p) as [[sz [|]|]|] eqn:Hp; try reflexivity.
    destruct (decide (p = x)) as [->|Hne].
    + rewrite bool_decide_eq_true_2 by (apply list_elem_of_singleton; reflexivity).
      rewrite bool_decide_eq_true_2 by (apply list_elem_of_here). reflexivity.
    + rewrite (bool_decide_eq_false_2 (p ∈ [x])).
      2:{ intros Hin. apply list_elem_of_singleton in Hin. contradiction. }
      destruct (decide (p ∈ l)) as [Hin|Hnin].
      * rewrite !bool_decide_eq_true_2; [reflexivity | | exact Hin].
        apply list_elem_of_further. exact Hin.
      * rewrite !bool_decide_eq_false_2; [reflexivity | | exact Hnin].
        intros Hin. apply elem_of_cons in Hin. destruct Hin; contradiction.
Qed.

Lemma cleanup_runs (R : Type) (s : DataManager.St) :
  exists w',
    DataManager._cleanup_temp_files (R := R) s
    = (DataManager.MkSt w' (DataManager.set_temp_files [] (DataManager.self s)), Next tt) /\
    forall p, Os.fs w' !! p
              = DataManager.fs_after_cleanup (DataManager.temp_files (DataManager.self s))
                  (DataManager.world s) p.
Proof.
  destruct (cleanup_loop R (DataManager.temp_files (DataManager.self s)) s)
    as (w' & Hrun & Hfs).
  exists w'. split; [|exact Hfs].
  unfold DataManager._cleanup_temp_files.
  unfold Flow.bind at 1. unfold Flow.bind at 1. unfold Flow.get at 1.
  rewrite Hrun. reflexivity.
Qed.

(** Against C7 as stated: a tracked directory and a tracked file that
    [os.remove] refuses are still on the file system after the cleanup (the
    [except Exception: pass] swallows the refusal); the list is emptied. *)
Lemma cleanup_leaves_unremovable_paths :
  DataManager.temp_files (DataManager.self Samples.tracking)
    = ["scratch.tmp"; "locked.tmp"; "cache"] /\
  Os.exists_ (DataManager.world (DataManager.cleanup Samples.tracking)) "cache" = true /\
  Os.exists_ (DataManager.world (DataManager.cleanup Samples.tracking)) "locked.tmp" = true /\
  Os.exists_ (DataManager.world (DataManager.cleanup Samples.tracking)) "scratch.tmp" = false /\
  DataManager.temp_files (DataManager.self (DataManager.cleanup Samples.tracking)) = [].
Proof. repeat split; vm_compute; reflexivity. Qed.

(** C7, amended.  For every state of the tracking list,
    [_cleanup_temp_files] returns normally with the list empty; every
    tracked path that [os.remove] accepts (a removable regular file) is gone
    from the file system; every other path, tracked or not, is left as it
    was. *)
Theorem cleanup_temp_files_spec (s : DataManager.St) :
  exists s',
    DataManager._cleanup_temp_files (R := unit) s = (s', Next tt) /\
    DataManager.temp_files (DataManager.self s') = [] /\
    (forall p sz,
       p ∈ DataManager.temp_files (DataManager.self s) ->
       Os.fs (DataManager.world s) !! p = Some (Os.RegularFile sz true) ->
       Os.fs (DataManager.world s') !! p = None) /\
    (forall p,
       (p ∉ DataManager.temp_files (DataManager.self s) \/
        forall sz, Os.fs (DataManager.world s) !! p <> Some (Os.RegularFile sz true)) ->
       Os.fs (DataManager.world s') !! p = Os.fs (DataManager.world s) !! p).
Proof.
  destruct (cleanup_runs unit s) as (w' & Hrun & Hfs). rewrite Hrun.
  eexists. split; [reflexivity|]. cbn. split; [reflexivity|]. split.
  - intros p sz Hin Hp. rewrite Hfs. unfold DataManager.fs_after_cleanup.
    rewrite Hp. rewrite bool_decide_eq_true_2 by exact Hin. reflexivity.
  - intros p Hp. rewrite Hfs. unfold DataManager.fs_after_cleanup.
    destruct (Os.fs (DataManager.world s) !! p) as [[sz [|]|]|] eqn:E; try reflexivity.
    destruct Hp as [Hnin|Hno].
    + rewrite bool_decide_eq_false_2 by exact Hnin. reflexivity.
    + exfalso. apply (Hno sz). reflexivity.
Qed.

Lemma cleanup_temp_files_spec_witness :
  exists s',
    DataManager._cleanup_temp_files (R := unit) Samples.tracking = (s', Next tt) /\
    DataManager.temp_files (DataManager.self s') = [] /\
    (forall p sz,
       p ∈ DataManager.temp_files (DataManager.self Samples.tracking) ->
       Os.fs (DataManager.world Samples.tracking) !! p = Some (Os.RegularFile sz true) ->
       Os.fs (DataManager.world s') !! p = None) /\
    (forall p,
       (p ∉ DataManager.temp_files (DataManager.self Samples.tracking) \/
        forall sz, Os.fs (DataManager.world Samples.tracking) !! p
                   <> Some (Os.RegularFile sz true)) ->
       Os.fs (DataManager.world s') !! p = Os.fs (DataManager.world Samples.tracking) !! p).
Proof. exact (cleanup_temp_files_spec Samples.tracking). Defined.

(* ===================================================================== *)
(** ** [run_sofi] *)
(* ===================================================================== *)

Ltac run_unfold :=
  cbv beta iota delta
    [Flow.call Flow.bind Flow.try_except Flow.ret Flow.return_ Flow.throw
     Flow.get Flow.modify Flow.lift
     DataManager.update_status DataManager.update_progress DataManager.on_self
     DataManager.os_imread
     DataManager.in_manager DataManager.get_sofi DataManager.on_sofi
     DataManager.invoke DataManager.mark_failed DataManager.in_step
     DataManager.try_except_TypeError DataManager.cumulant_at
     DataManager.store_result DataManager.status DataManager.progress
     DataManager.run_st DataManager.sofi DataManager.failed_steps
     DataManager.world DataManager.self DataManager.get_or].

(** Case analysis on whatever the execution is stuck on, reusing what
    earlier cases have fixed. *)
Ltac run_case :=
  match goal with
  | H : ?x = _ |- context [match ?x with _ => _ end] => rewrite H
  | |- context [match fmap ?f (map_to_list ?g) with _ => _ end] =>
      destruct (fmap f (map_to_list g)) eqn:?
  | |- context [match ?x with _ => _ end] =>
      lazymatch x with
      | context [match _ with _ => _ end] => fail
      | _ => destruct x eqn:?
      end
  end.

Ltac run_cases := repeat (run_case; cbn -[String.append] in * ).

Lemma all_recovered_snoc (l : list DataManager.failure) (f : DataManager.failure) :
  DataManager.all_recovered l -> DataManager.recovered f = true ->
  DataManager.all_recovered (l ++ [f]).
Proof.
  intros H Hf g Hin. apply elem_of_app in Hin. destruct Hin as [Hin|Hin].
  - apply H. exact Hin.
  - apply list_elem_of_singleton in Hin. subst g. exact Hf.
Qed.

Ltac recovered_here :=
  first [ reflexivity
        | cbn [DataManager.recovered]; unfold DataManager.is_TypeError;
          match goal with
          | H : exn_cls ?e = TypeError |- _ => rewrite H; reflexivity
          end ].

Lemma failure_message (prefix : string) (c : ascii) (rest : string) :
  (String c prefix +:+ rest) <> "".
Proof. discriminate. Qed.

Ltac close_stage :=
  cbn -[String.append];
  repeat match goal with
         | |- _ /\ _ => split
         | |- DataManager.is_failure _ => unfold DataManager.is_failure
         | |- _ -> _ => intro
         end;
  first [ reflexivity | assumption | discriminate
        | repeat (apply all_recovered_snoc; [|recovered_here]); assumption
        | idtac ].

Lemma load_stage_contract (lib : DataManager.Library) (path : string) :
  DataManager.stage_contract false (DataManager.load_stage lib path).
Proof.
  intros [[w m] sf fl] Hclean. unfold DataManager.load_stage.
  run_unfold. cbn -[String.append].
  run_cases; close_stage.
Qed.

Lemma bleach_stage_contract (lib : DataManager.Library) (p : DataManager.Parameters) :
  DataManager.stage_contract false (DataManager.bleach_stage lib p).
Proof.
  intros [[w m] sf fl] Hclean. unfold DataManager.bleach_stage.
  run_unfold. cbn -[String.append].
  run_cases; close_stage.
Qed.

Lemma drift_stage_contract (lib : DataManager.Library) (p : DataManager.Parameters) :
  DataManager.stage_contract false (DataManager.drift_stage lib p).
Proof.
  intros [[w m] sf fl] Hclean. unfold DataManager.drift_stage.
  run_unfold. cbn -[String.append].
  run_cases; close_stage.
Qed.

Lemma statistics_stage_contract (lib : DataManager.Library) (p : DataManager.Parameters) :
  DataManager.stage_contract false (DataManager.statistics_stage lib p).
Proof.
  intros [[w m] sf fl] Hclean. unfold DataManager.statistics_stage.
  run_unfold. cbn -[String.append].
  run_cases; close_stage.
Qed.

Lemma result_stage_contract (lib : DataManager.Library) (p : DataManager.Parameters) :
  DataManager.stage_contract true (DataManager.result_stage lib p).
Proof.
  intros [[w m] sf fl] Hclean. unfold DataManager.result_stage.
  run_unfold. cbn -[String.append].
  run_cases; close_stage.
Qed.

Ltac top_simpl :=
  cbn -[String.append DataManager.load_stage DataManager.bleach_stage
        DataManager.drift_stage DataManager.statistics_stage
        DataManager.result_stage DataManager._cleanup_temp_files].

Ltac run_cleanup :=
  match goal with
  | |- context [DataManager._cleanup_temp_files ?x] =>
      let w' := fresh "w'" in
      let Hc := fresh "Hc" in
      destruct (cleanup_runs DataManager.Res x) as (w' & Hc & _);
      rewrite Hc; clear Hc; top_simpl
  end.

Lemma all_recovered_nil : DataManager.all_recovered [].
Proof. intros st Hin. inversion Hin. Qed.

(** Every run either returns a failure, with the stored result untouched,
    or ends having met no failure but recovered ones. *)
Lemma run_sofi_outcomes
    (lib : DataManager.Library) (p : DataManager.Parameters) (s : DataManager.St) :
  match DataManager.run_sofi lib p s with
  | (s', failed, out) =>
      (exists r, out = Returned r /\ DataManager.is_failure r /\
                 DataManager.sofi_result (DataManager.self s')
                 = DataManager.sofi_result (DataManager.self s))
      \/ DataManager.all_recovered failed
  end.
Proof.
  destruct s as [w m].
  unfold DataManager.run_sofi, DataManager.run_sofi_body.
  destruct (DataManager.importable lib); top_simpl.
  2:{ left. eexists. split; [reflexivity|]. repeat split. discriminate. }
  run_unfold. top_simpl.
  destruct (DataManager.file_path m) as [| |path]; top_simpl.
  - right. apply all_recovered_nil.
  - left. eexists. split; [reflexivity|]. repeat split. discriminate.
  - set (rs0 := DataManager.MkRun _ _ _).
    assert (H0 : DataManager.all_recovered (DataManager.failed_steps rs0))
      by apply all_recovered_nil.
    assert (R0 : DataManager.sofi_result (DataManager.self (DataManager.run_st rs0))
                 = DataManager.sofi_result m) by reflexivity.
    clearbody rs0.
    (* load *)
    pose proof (load_stage_contract lib path rs0 H0) as C.
    destruct (DataManager.load_stage lib path rs0) as [rs1 [[]|r|e]].
    2:{ destruct C as [Hf Hr]. left. eexists. split; [reflexivity|].
        split; [exact Hf | exact (eq_trans Hr R0)]. }
    2:{ run_cleanup. left. eexists. split; [reflexivity|].
        split; [repeat split; discriminate | exact (eq_trans C R0)]. }
    destruct C as [H1 R1]. specialize (R1 eq_refl).
    apply (fun H => eq_trans H R0) in R1.
    (* bleach *)
    pose proof (bleach_stage_contract lib p rs1 H1) as C.
    destruct (DataManager.bleach_stage lib p rs1) as [rs2 [[]|r|e]].
    2:{ destruct C as [Hf Hr]. left. eexists. split; [reflexivity|].
        split; [exact Hf | exact (eq_trans Hr R1)]. }
    2:{ run_cleanup. left. eexists. split; [reflexivity|].
        split; [repeat split; discriminate | exact (eq_trans C R1)]. }
    destruct C as [H2 R2]. specialize (R2 eq_refl).
    apply (fun H => eq_trans H R1) in R2.
    (* drift *)
    pose proof (drift_stage_contract lib p rs2 H2) as C.
    destruct (DataManager.drift_stage lib p rs2) as [rs3 [[]|r|e]].
    2:{ destruct C as [Hf Hr]. left. eexists. split; [reflexivity|].
        split; [exact Hf | exact (eq_trans Hr R2)]. }
    2:{ run_cleanup. left. eexists. split; [reflexivity|].
        split; [repeat split; discriminate | exact (eq_trans C R2)]. }
    destruct C as [H3 R3]. specialize (R3 eq_refl).
    apply (fun H => eq_trans H R2) in R3.
    (* moments, cumulants *)
    pose proof (statistics_stage_contract lib p rs3 H3) as C.
    destruct (DataManager.statistics_stage lib p rs3) as [rs4 [[]|r|e]].
    2:{ destruct C as [Hf Hr]. left. eexists. split; [reflexivity|].
        split; [exact Hf | exact (eq_trans Hr R3)]. }
    2:{ run_cleanup. left. eexists. split; [reflexivity|].
        split; [repeat split; discriminate | exact (eq_trans C R3)]. }
    destruct C as [H4 R4]. specialize (R4 eq_refl).
    apply (fun H => eq_trans H R3) in R4.
    (* deconvolution, result *)
    pose proof (result_stage_contract lib p rs4 H4) as C.
    destruct (DataManager.result_stage lib p rs4) as [rs5 [order'|r|e]].
    2:{ destruct C as [Hf Hr]. left. eexists. split; [reflexivity|].
        split; [exact Hf | exact (eq_trans Hr R4)]. }
    2:{ run_cleanup. left. eexists. split; [reflexivity|].
        split; [repeat split; discriminate | exact (eq_trans C R4)]. }
    destruct C as [H5 _].
    run_cleanup. right. exact H5.
Qed.

(** Against C2 as stated: with a library whose [weighting] attribute
    cannot be assigned, whose [cumulants_images] takes no [weighting]
    keyword and whose [reconstruct_fourier] raises, a run at order 3 with
    deconvolution meets three failures -- the assignment, the first
    cumulant call, the deconvolution -- and still returns success, with the
    plain third-order cumulant. *)
Lemma recovered_failures_do_not_abort :
  snd (fst (DataManager.run_sofi
    (Samples.touchy_library
       (<[2%Z := Samples.cumulant2]> (<[3%Z := Samples.cumulant3]> ∅)))
    (Samples.params 3 true) Samples.with_path))
  = [DataManager.Raised DataManager.WeightingAssignment
       (Exn AttributeError "can't set attribute 'weighting'");
     DataManager.Raised DataManager.CumulantComputation
       (Exn TypeError "cumulants_images() got an unexpected keyword argument 'weighting'");
     DataManager.Raised DataManager.Deconvolution
       (Exn RuntimeError "deconvolution did not converge")] /\
  snd (DataManager.run_sofi
    (Samples.touchy_library
       (<[2%Z := Samples.cumulant2]> (<[3%Z := Samples.cumulant3]> ∅)))
    (Samples.params 3 true) Samples.with_path)
  = Returned (true, "Successfully completed 3-order SOFI analysis", Some Samples.cumulant3).
Proof. split; vm_compute; reflexivity. Qed.

(** C2, amended.  A failure of a pipeline step of [run_sofi] aborts the
    pipeline -- the run returns [(False, message, None)] with a non-empty
    message and leaves the stored result as it was -- for the load, the
    bleach correction, the drift correction, the moment computation, the
    result extraction, and for the cumulant computation unless the failure
    is a [TypeError] of its first call.  Three failures do not abort: an
    error of the weighting assignment is logged and the stage goes on; a
    [TypeError] of the first [cumulants_images] call is answered with a
    second call without the keyword (whose failure aborts); and after an
    error of [reconstruct_fourier] the result stage goes on with the plain
    cumulant image of the requested order. *)
Theorem run_sofi_step_failure
    (lib : DataManager.Library) (p : DataManager.Parameters) (s : DataManager.St) :
  (forall f,
     f ∈ snd (fst (DataManager.run_sofi lib p s)) ->
     DataManager.recovered f = false ->
     exists msg,
       snd (DataManager.run_sofi lib p s) = Returned (false, msg, None) /\
       msg <> "" /\
       DataManager.sofi_result (DataManager.self (fst (fst (DataManager.run_sofi lib p s))))
       = DataManager.sofi_result (DataManager.self s))
  /\
  (forall rs sofi1 sofi3,
     DataManager.calc_moments_set lib (DataManager.get_or (DataManager.p_order p) 2%Z)
       (DataManager.sofi rs) = (sofi1, Ok tt) ->
     DataManager.cumulants_images lib (DataManager.get_or (DataManager.p_order p) 2%Z)
       (DataManager.weighting_keyword p) (fst (DataManager.after_weighting lib p sofi1))
     = (sofi3, Ok tt) ->
     exists rs',
       DataManager.statistics_stage lib p rs = (rs', Next tt) /\
       DataManager.sofi rs' = sofi3 /\
       DataManager.failed_steps rs'
       = (DataManager.failed_steps rs
          ++ snd (DataManager.after_weighting lib p sofi1))%list)
  /\
  (forall rs sofi1 sofi3 e sofi4,
     DataManager.calc_moments_set lib (DataManager.get_or (DataManager.p_order p) 2%Z)
       (DataManager.sofi rs) = (sofi1, Ok tt) ->
     DataManager.cumulants_images lib (DataManager.get_or (DataManager.p_order p) 2%Z)
       (DataManager.weighting_keyword p) (fst (DataManager.after_weighting lib p sofi1))
     = (sofi3, Raise e) ->
     exn_cls e = TypeError ->
     DataManager.cumulants_images lib (DataManager.get_or (DataManager.p_order p) 2%Z)
       None sofi3 = (sofi4, Ok tt) ->
     exists rs',
       DataManager.statistics_stage lib p rs = (rs', Next tt) /\
       DataManager.sofi rs' = sofi4 /\
       DataManager.failed_steps rs'
       = (DataManager.failed_steps rs
          ++ snd (DataManager.after_weighting lib p sofi1)
          ++ [DataManager.Raised DataManager.CumulantComputation e])%list)
  /\
  (forall rs sofi' e cs img,
     DataManager.get_or (DataManager.p_deconv p) false = true ->
     (2 < DataManager.get_or (DataManager.p_order p) 2)%Z ->
     DataManager.reconstruct_fourier lib [DataManager.get_or (DataManager.p_order p) 2%Z]
       (DataManager.sofi rs) = (sofi', Raise e) ->
     Pysofi.cumulants_set sofi' = Some cs ->
     cs !! DataManager.get_or (DataManager.p_order p) 2%Z = Some img ->
     exists rs',
       DataManager.result_stage lib p rs
       = (rs', Next (DataManager.get_or (DataManager.p_order p) 2%Z)) /\
       DataManager.sofi_result (DataManager.self (DataManager.run_st rs')) = Some img /\
       DataManager.failed_steps rs'
       = (DataManager.failed_steps rs
          ++ [DataManager.Raised DataManager.Deconvolution e])%list).
Proof.
  split; [|split; [|split]].
  - intros f Hin Hne.
    pose proof (run_sofi_outcomes lib p s) as H.
    destruct (DataManager.run_sofi lib p s) as [[s' failed] out].
    cbn [fst snd] in *.
    destruct H as [(r & Hout & Hfail & Hres)|Hclean].
    + destruct r as [[ok msg] img]. destruct Hfail as (-> & Hmsg & ->).
      exists msg. repeat split; assumption.
    + exfalso. rewrite (Hclean f Hin) in Hne. discriminate.
  - intros [[w m] sf fl] sofi1 sofi3 Hmom Hcum.
    unfold DataManager.statistics_stage.
    unfold DataManager.after_weighting, DataManager.weighting_keyword in *.
    cbn [DataManager.sofi] in Hmom.
    unfold DataManager.get_or in *.
    run_unfold. cbn -[String.append]. rewrite Hmom. cbn -[String.append].
    destruct (negb (String.eqb _ "none")); cbn -[String.append] in *.
    + destruct (DataManager.assign_weighting lib _ sofi1) as [sofi2 [[]|e2]];
        cbn -[String.append] in *; rewrite Hcum; cbn -[String.append];
        eexists; (split; [reflexivity|]); split; try reflexivity.
      rewrite app_nil_r. reflexivity.
    + rewrite Hcum. cbn -[String.append].
      eexists. split; [reflexivity|]. split; [reflexivity|].
      rewrite app_nil_r. reflexivity.
  - intros [[w m] sf fl] sofi1 sofi3 e sofi4 Hmom Hcum Hcls Hretry.
    unfold DataManager.statistics_stage.
    unfold DataManager.after_weighting, DataManager.weighting_keyword in *.
    cbn [DataManager.sofi] in Hmom.
    unfold DataManager.get_or in *.
    run_unfold. cbn -[String.append]. rewrite Hmom. cbn -[String.append].
    destruct (negb (String.eqb _ "none")); cbn -[String.append] in *.
    + destruct (DataManager.assign_weighting lib _ sofi1) as [sofi2 [[]|e2]];
        cbn -[String.append] in *; rewrite Hcum; cbn -[String.append];
        rewrite Hcls; cbn -[String.append]; rewrite Hretry; cbn -[String.append];
        eexists; (split; [reflexivity|]); split; try reflexivity.
      rewrite <- app_assoc. reflexivity.
    + rewrite Hcum. cbn -[String.append]. rewrite Hcls. cbn -[String.append].
      rewrite Hretry. cbn -[String.append].
      eexists. split; [reflexivity|]. split; reflexivity.
  - intros [[w m] sf fl] sofi' e cs img Hdeconv Horder Hrec Hcs Himg.
    unfold DataManager.result_stage. cbn [DataManager.sofi] in Hrec.
    unfold DataManager.get_or in *.
    rewrite Hdeconv. apply Z.ltb_lt in Horder. rewrite Horder.
    run_unfold. cbn -[String.append]. rewrite Hrec. cbn -[String.append].
    rewrite Hcs, Himg. cbn -[String.append].
    eexists. split; [reflexivity|]. split; reflexivity.
Qed.

Lemma run_sofi_step_failure_witness :
  (exists msg,
     snd (DataManager.run_sofi (Samples.patched_library ∅) (Samples.params 2 false)
            Samples.with_missing_path) = Returned (false, msg, None) /\
     msg <> "" /\
     DataManager.sofi_result (DataManager.self (fst (fst
       (DataManager.run_sofi (Samples.patched_library ∅) (Samples.params 2 false)
          Samples.with_missing_path))))
     = DataManager.sofi_result (DataManager.self Samples.with_missing_path))
  /\
  (exists rs',
     DataManager.statistics_stage
       (Samples.touchy_library {[3%Z := Samples.cumulant3]}) (Samples.params 3 true)
       Samples.after_load
     = (rs', Next tt) /\
     DataManager.sofi rs'
     = Pysofi.set_cumulants_set (Some {[3%Z := Samples.cumulant3]})
         (Samples.holding Samples.four_frames) /\
     DataManager.failed_steps rs'
     = ([] ++ [DataManager.Raised DataManager.WeightingAssignment
                 (Exn AttributeError "can't set attribute 'weighting'")]
           ++ [DataManager.Raised DataManager.CumulantComputation
                 (Exn TypeError
                    "cumulants_images() got an unexpected keyword argument 'weighting'")])%list)
  /\
  (exists rs',
     DataManager.result_stage
       (Samples.failing_deconvolution_library ∅) (Samples.params 3 true)
       Samples.after_cumulants
     = (rs', Next 3%Z) /\
     DataManager.sofi_result (DataManager.self (DataManager.run_st rs'))
     = Some Samples.cumulant3 /\
     DataManager.failed_steps rs'
     = ([] ++ [DataManager.Raised DataManager.Deconvolution
                 (Exn RuntimeError "deconvolution did not converge")])%list).
Proof.
  split; [|split].
  - apply (proj1 (run_sofi_step_failure (Samples.patched_library ∅)
                    (Samples.params 2 false) Samples.with_missing_path)
             (DataManager.Raised DataManager.Load
                (Exn FileNotFoundError "No such file or directory: missing.tif"))).
    + vm_compute. apply list_elem_of_here.
    + reflexivity.
  - apply (proj1 (proj2 (proj2 (run_sofi_step_failure
                    (Samples.touchy_library {[3%Z := Samples.cumulant3]})
                    (Samples.params 3 true) Samples.with_path)))
             Samples.after_load
             (Samples.holding Samples.four_frames)
             (Samples.holding Samples.four_frames)
             (Exn TypeError
                "cumulants_images() got an unexpected keyword argument 'weighting'")
             (Pysofi.set_cumulants_set (Some {[3%Z := Samples.cumulant3]})
                (Samples.holding Samples.four_frames))).
    + reflexivity.
    + reflexivity.
    + reflexivity.
    + reflexivity.
  - apply (proj2 (proj2 (proj2 (run_sofi_step_failure
                    (Samples.failing_deconvolution_library ∅)
                    (Samples.params 3 true) Samples.with_path)))
             Samples.after_cumulants
             (DataManager.sofi Samples.after_cumulants)
             (Exn RuntimeError "deconvolution did not converge")
             (<[2%Z := Samples.cumulant2]> (<[3%Z := Samples.cumulant3]> ∅))
             Samples.cumulant3).
    + reflexivity.
    + reflexivity.
    + reflexivity.
    + reflexivity.
    + vm_compute. reflexivity.
Defined.

Example load_failure_message :
  snd (DataManager.run_sofi (Samples.patched_library ∅) (Samples.params 2 false)
         Samples.with_missing_path)
  = Returned (false,
      "Failed to load data into PySOFI: No such file or directory: missing.tif", None).
Proof. vm_compute. reflexivity. Qed.

(** *** The order fallback *)

Lemma py_max_fold_ge (l : list Z) (x : Z) : (x <= fold_left Z.max l x)%Z.
Proof.
  revert x. induction l as [|y l IH]; intros x; cbn; [lia|].
  specialize (IH (Z.max x y)). lia.
Qed.

Lemma py_max_fold_upper (l : list Z) (x y : Z) :
  y ∈ l -> (y <= fold_left Z.max l x)%Z.
Proof.
  revert x. induction l as [|z l IH]; intros x Hin; [inversion Hin|].
  apply elem_of_cons in Hin. destruct Hin as [->|Hin]; cbn.
  - pose proof (py_max_fold_ge l (Z.max x z)). lia.
  - apply IH. exact Hin.
Qed.

Lemma py_max_fold_in (l : list Z) (x : Z) :
  fold_left Z.max l x = x \/ fold_left Z.max l x ∈ l.
Proof.
  revert x. induction l as [|z l IH]; intros x; cbn; [left; reflexivity|].
  destruct (IH (Z.max x z)) as [H|H].
  - rewrite H. destruct (Z.max_spec x z) as [[_ ->]|[_ ->]].
    + right. apply list_elem_of_here.
    + left. reflexivity.
  - right. apply list_elem_of_further. exact H.
Qed.

(** [max(available)] is an available order and no available order exceeds it. *)
Lemma py_max_spec (l : list Z) :
  l <> [] -> DataManager.py_max l ∈ l /\ forall y, y ∈ l -> (y <= DataManager.py_max l)%Z.
Proof.
  destruct l as [|x l]; [congruence|]. intros _. cbn. split.
  - destruct (py_max_fold_in l x) as [->|H].
    + apply list_elem_of_here.
    + apply list_elem_of_further. exact H.
  - intros y Hin. apply elem_of_cons in Hin. destruct Hin as [->|Hin].
    + apply py_max_fold_ge.
    + apply py_max_fold_upper. exact Hin.
Qed.

Lemma keys_lookup (cs : gmap Z ndarray) (k : Z) :
  k ∈ (map_to_list cs).*1 <-> is_Some (cs !! k).
Proof.
  rewrite list_elem_of_fmap. split.
  - intros ([k' v] & -> & Hin). apply elem_of_map_to_list in Hin. eauto.
  - intros [v Hv]. exists (k, v). split; [reflexivity|].
    apply elem_of_map_to_list. exact Hv.
Qed.

(** X15.  Without deconvolution (the flag is off, or the order is at
    most 2), a requested order that is missing from a non-empty
    [cumulants_set] is replaced by the highest order present: that order's
    image becomes [sofi_result], the stage yields that order, and no step is
    recorded as failed. *)
Lemma result_stage_falls_back
    (lib : DataManager.Library) (p : DataManager.Parameters)
    (rs : DataManager.RunSt) (cs : gmap Z ndarray) :
  (DataManager.get_or (DataManager.p_deconv p) false
   && (2 <? DataManager.get_or (DataManager.p_order p) 2)%Z)%bool = false ->
  Pysofi.cumulants_set (DataManager.sofi rs) = Some cs ->
  cs !! DataManager.get_or (DataManager.p_order p) 2%Z = None ->
  cs <> ∅ ->
  exists k img rs',
    cs !! k = Some img /\
    (forall k', is_Some (cs !! k') -> (k' <= k)%Z) /\
    DataManager.result_stage lib p rs = (rs', Next k) /\
    DataManager.sofi_result (DataManager.self (DataManager.run_st rs')) = Some img /\
    DataManager.failed_steps rs' = DataManager.failed_steps rs.
Proof.
  intros Hbranch Hcs Hmiss Hne. destruct rs as [[w m] sf fl].
  cbn [DataManager.sofi] in Hcs.
  assert (Hkeys : (map_to_list cs).*1 <> []).
  { intros Hnil. apply Hne. apply map_to_list_empty_iff.
    destruct (map_to_list cs); [reflexivity | discriminate]. }
  destruct (py_max_spec _ Hkeys) as [Hin Hup].
  apply keys_lookup in Hin. destruct Hin as [img Himg].
  exists (DataManager.py_max (map_to_list cs).*1), img.
  unfold DataManager.result_stage. unfold DataManager.get_or in *.
  rewrite Hbranch. run_unfold. cbn -[String.append DataManager.py_max].
  rewrite Hcs, Hmiss.
  destruct ((map_to_list cs).*1) as [|k0 ks] eqn:Hl; [congruence|].
  cbn -[String.append DataManager.py_max]. rewrite ?Hcs.
  cbn -[String.append DataManager.py_max]. rewrite Himg.
  cbn -[String.append DataManager.py_max].
  eexists. split; [reflexivity|]. split.
  - intros k' Hk'. apply Hup. rewrite <- Hl. apply keys_lookup. exact Hk'.
  - repeat split; reflexivity.
Qed.

Lemma result_stage_falls_back_witness :
  exists k img rs',
    (<[2%Z := Samples.cumulant2]> (<[3%Z := Samples.cumulant3]> ∅) : gmap Z ndarray) !! k
    = Some img /\
    (forall k',
       is_Some ((<[2%Z := Samples.cumulant2]> (<[3%Z := Samples.cumulant3]> ∅)
                 : gmap Z ndarray) !! k') -> (k' <= k)%Z) /\
    DataManager.result_stage (Samples.patched_library ∅) (Samples.params 5 false)
      Samples.after_cumulants = (rs', Next k) /\
    DataManager.sofi_result (DataManager.self (DataManager.run_st rs')) = Some img /\
    DataManager.failed_steps rs' = DataManager.failed_steps Samples.after_cumulants.
Proof.
  apply (result_stage_falls_back (Samples.patched_library ∅) (Samples.params 5 false)
           Samples.after_cumulants
           (<[2%Z := Samples.cumulant2]> (<[3%Z := Samples.cumulant3]> ∅))).
  - reflexivity.
  - reflexivity.
  - vm_compute. reflexivity.
  - intros H.
    pose proof (f_equal (fun m : gmap Z ndarray => m !! 2%Z) H) as E.
    vm_compute in E. discriminate.
Defined.

(** C1.  The fallback exists only on the branch without deconvolution.
    With [cumulants_set = {2: image}] and order 4 requested: without
    deconvolution the run succeeds with the order-2 image; with
    deconvolution (order > 2) the patched [reconstruct_fourier] skips the
    missing order, the "regular SOFI" fallback indexes
    [cumulants_set[4]] directly, and the run fails with [KeyError]. *)
Theorem run_sofi_order_fallback_missing_with_deconvolution :
  ({[2%Z := Samples.cumulant2]} : gmap Z ndarray) !! 4%Z = None /\
  ({[2%Z := Samples.cumulant2]} : gmap Z ndarray) !! 2%Z = Some Samples.cumulant2 /\
  snd (DataManager.run_sofi (Samples.patched_library {[2%Z := Samples.cumulant2]})
         (Samples.params 4 false) Samples.with_path)
  = Returned (true, "Successfully completed 2-order SOFI analysis", Some Samples.cumulant2) /\
  snd (DataManager.run_sofi (Samples.patched_library {[2%Z := Samples.cumulant2]})
         (Samples.params 4 true) Samples.with_path)
  = Returned (false, "SOFI calculation failed: 4", None).
Proof. repeat split; vm_compute; reflexivity. Qed.

(** *** Exceptions at the boundary *)

Lemma run_sofi_without_file_path
    (lib : DataManager.Library) (p : DataManager.Parameters) (s : DataManager.St) :
  DataManager.importable lib = true ->
  DataManager.file_path (DataManager.self s) = Absent ->
  DataManager.run_sofi lib p s
  = (s, [], Propagated (Exn AttributeError
                          "'DataManager' object has no attribute 'file_path'")).
Proof.
  intros Himp Hfp. destruct s as [w m]. cbn [DataManager.self] in Hfp.
  unfold DataManager.run_sofi, DataManager.run_sofi_body.
  rewrite Himp. run_unfold. cbn -[String.append]. rewrite Hfp. reflexivity.
Qed.

(** C3.  [run_sofi] reads [self.file_path] (line 406) outside every [try],
    and neither [__init__] nor [load_file] ever assigns it: on a manager
    that has just loaded a stack, with PySOFI importable, the
    [AttributeError] reaches the caller instead of a [(False, message)]
    result. *)
Theorem run_sofi_propagates_attribute_error :
  snd (DataManager.load_file "stack.tif" Samples.fresh)
  = Returned (true, "Successfully loaded stack.tif") /\
  snd (DataManager.run_sofi (Samples.patched_library {[2%Z := Samples.cumulant2]})
         (Samples.params 2 false)
         (fst (DataManager.load_file "stack.tif" Samples.fresh)))
  = Propagated (Exn AttributeError "'DataManager' object has no attribute 'file_path'").
Proof. split; vm_compute; reflexivity. Qed.

Ltac io_case :=
  match goal with
  | H : ?x = _ |- context [match ?x with _ => _ end] => rewrite H
  | |- context [if ?b then _ else _] =>
      lazymatch b with
      | context [match _ with _ => _ end] => fail
      | _ => destruct b eqn:?
      end
  | |- context [match ?x with _ => _ end] =>
      lazymatch x with
      | context [match _ with _ => _ end] => fail
      | _ => destruct x eqn:?
      end
  end.

(** The two sibling operations do keep every exception inside: they always
    return a pair, and [load_file] leaves [file_path] as it found it. *)
Lemma load_file_never_propagates (s : DataManager.St) (path : string) :
  exists s' r,
    DataManager.load_file path s = (s', Returned r) /\
    DataManager.file_path (DataManager.self s')
    = DataManager.file_path (DataManager.self s).
Proof.
  destruct s as [w m]. destruct m as [d r n fp tf sl pl].
  destruct d; run_flow; unfold Os.getsize, Os.imread;
    cbn -[String.append DataManager.MiB];
    repeat (io_case; cbn -[String.append DataManager.MiB] in * );
    eexists; eexists; split; reflexivity.
Qed.

Lemma save_result_never_propagates (s : DataManager.St) (save_path : string) :
  exists s' r, DataManager.save_result save_path s = (s', Returned r).
Proof.
  destruct s as [w m]. destruct m as [d r n fp tf sl pl].
  unfold DataManager.save_result, DataManager.save_result_body.
  run_flow. unfold Os.write. cbn -[String.append Os.endswith Os.lower].
  repeat (io_case; cbn -[String.append Os.endswith Os.lower] in * );
    eexists; eexists; reflexivity.
Qed.

(* ===================================================================== *)
(** ** The patched [bleach_correction] *)
(* ===================================================================== *)

(** C8.  On a stack of an integer dtype the claim fails: [np.zeros_like]
    gives [corrected_frames] the integer dtype of the input, so each product
    [frame * factor] is truncated when stored.  For the 16-bit stack
    [[1, 2]], [[1, 1]] (means 3/2 and 1, both non-zero) the factor of frame 1
    is 3/2, its pixels 1 * 3/2 are stored as 1, and its mean stays 1 instead
    of becoming 3/2.  The same pixels held as float32 are corrected as the
    claim says. *)
Theorem bleach_correction_truncates_integer_stack :
  Pysofi.frame_mean Samples.fading_stack 0 = Q2Qc (3 # 2) /\
  Pysofi.frame_mean Samples.fading_stack 1 = Q2Qc 1 /\
  Pysofi.correction_factor Samples.fading_stack 1 0 = Q2Qc (3 # 2) /\
  (exists s' c,
     Pysofi.bleach_correction Samples.no_files (Samples.holding Samples.fading_stack)
       = (s', Ok tt) /\
     Pysofi.frames s' = Val c /\
     arr_item c 2 = Q2Qc 1 /\
     Pysofi.frame_mean c 1 = Q2Qc 1 /\
     Pysofi.frame_mean c 0 = Q2Qc (3 # 2) /\
     Pysofi.frame_mean c 1 <> Pysofi.frame_mean c 0) /\
  (exists s' c,
     Pysofi.bleach_correction Samples.no_files (Samples.holding Samples.fading_stack_f32)
       = (s', Ok tt) /\
     Pysofi.frames s' = Val c /\
     arr_item c 2 = Q2Qc (3 # 2) /\
     Pysofi.frame_mean c 1 = Pysofi.frame_mean c 0).
Proof.
  split; [apply Qc_is_canon; vm_compute; reflexivity|].
  split; [apply Qc_is_canon; vm_compute; reflexivity|].
  split; [apply Qc_is_canon; vm_compute; reflexivity|].
  split.
  - eexists. eexists. split; [reflexivity|]. split; [reflexivity|].
    split; [apply Qc_is_canon; vm_compute; reflexivity|].
    split; [apply Qc_is_canon; vm_compute; reflexivity|].
    split; [apply Qc_is_canon; vm_compute; reflexivity|].
    intros H. apply (f_equal (fun x => Qnum (this x))) in H. vm_compute in H. discriminate.
  - eexists. eexists. split; [reflexivity|]. split; [reflexivity|].
    split; apply Qc_is_canon; vm_compute; reflexivity.
Qed.

(** The loop of lines 40-42 after [n0] rounds: the first [n0] frames hold
    the products, cast to the dtype of the input; the rest is still zero. *)
Lemma bleach_loop_items (a : ndarray) (n0 : nat) :
  let c := for_range n0 (fun i corrected_frames =>
             Pysofi.store_frame corrected_frames i
               (fun p => (arr_item a (i * Pysofi.frame_size a + p)%nat
                          * Pysofi.correction_factor a i (p mod Pysofi.channels a)%nat)%Qc))
             (zeros_like a) in
  arr_dtype c = arr_dtype a /\ arr_shape c = arr_shape a /\
  forall q,
    arr_item c q
    = if (q <? n0 * Pysofi.frame_size a)%nat
      then cast (arr_dtype a)
             (arr_item a q
              * Pysofi.correction_factor a (q / Pysofi.frame_size a)%nat
                  ((q mod Pysofi.frame_size a) mod Pysofi.channels a)%nat)%Qc
      else 0%Qc.
Proof.
  induction n0 as [|n0 IH]; cbn zeta.
  - repeat split. 
  - rewrite for_range_S. cbn zeta in IH. destruct IH as (Hd & Hs & Hi).
    set (c := for_range n0 _ _) in *.
    assert (Hfs : Pysofi.frame_size c = Pysofi.frame_size a)
      by (unfold Pysofi.frame_size; rewrite Hs; reflexivity).
    unfold Pysofi.store_frame. cbn [arr_dtype arr_shape arr_item].
    split; [exact Hd|]. split; [exact Hs|].
    intros q. rewrite Hfs, Hd, Hi.
    set (fs := Pysofi.frame_size a) in *.
    destruct (Nat.leb_spec (n0 * fs) q) as [Hlo|Hlo];
      destruct (Nat.ltb_spec q ((n0 + 1) * fs)) as [Hhi|Hhi]; cbn [andb].
    + assert (Hpos : (0 < fs)%nat) by nia.
      assert (Hq : (q = fs * n0 + (q - n0 * fs))%nat) by lia.
      assert (Hr : (q - n0 * fs < fs)%nat) by lia.
      rewrite <- (Nat.div_unique q fs n0 (q - n0 * fs) Hr Hq).
      rewrite <- (Nat.mod_unique q fs n0 (q - n0 * fs) Hr Hq).
      replace (n0 * fs + (q - n0 * fs))%nat with q by lia.
      destruct (Nat.ltb_spec q (S n0 * fs)) as [_|Hge]; [reflexivity | lia].
    + destruct (Nat.ltb_spec q (n0 * fs)) as [Hlt|_]; [lia|].
      destruct (Nat.ltb_spec q (S n0 * fs)) as [Hlt|_]; [lia | reflexivity].
    + destruct (Nat.ltb_spec q (n0 * fs)) as [_|Hge]; [|lia].
      destruct (Nat.ltb_spec q (S n0 * fs)) as [_|Hge]; [reflexivity | lia].
    + lia.
Qed.

Lemma sum_upto_scale (n : nat) (f : nat -> Qc) (k : Qc) :
  sum_upto n (fun q => (f q * k)%Qc) = (sum_upto n f * k)%Qc.
Proof.
  induction n as [|n IH]; cbn; [ring|]. rewrite IH. ring.
Qed.

(** On a 3-D stack of a floating dtype whose frames all have non-zero mean,
    the correction is what C8 describes, in exact arithmetic: frame [i] is
    multiplied by mean(frame 0) / mean(frame i), every frame then has the
    first frame's mean, and the first frame is unchanged. *)
Lemma bleach_frames_float (a : ndarray) (n h w : nat) :
  arr_shape a = [n; h; w] ->
  is_floating (arr_dtype a) = true ->
  (0 < h * w)%nat ->
  (forall i, (i < n)%nat -> Pysofi.frame_mean a i <> 0%Qc) ->
  arr_shape (Pysofi.bleach_frames a) = arr_shape a /\
  (forall i q, (i < n)%nat -> (q < h * w)%nat ->
     arr_item (Pysofi.bleach_frames a) (i * (h * w) + q)%nat
     = (arr_item a (i * (h * w) + q)%nat
        * (Pysofi.frame_mean a 0 / Pysofi.frame_mean a i))%Qc) /\
  (forall i, (i < n)%nat ->
     Pysofi.frame_mean (Pysofi.bleach_frames a) i = Pysofi.frame_mean a 0) /\
  (forall q, (0 < n)%nat -> (q < h * w)%nat ->
     arr_item (Pysofi.bleach_frames a) q = arr_item a q).
Proof.
  intros Hsh Hfl Hpos Hmean.
  assert (Hfs : Pysofi.frame_size a = (h * w)%nat).
  { unfold Pysofi.frame_size. rewrite Hsh. cbn. lia. }
  assert (Hch : Pysofi.channels a = 1%nat).
  { unfold Pysofi.channels. rewrite Hsh. reflexivity. }
  assert (Hpl : Pysofi.plane a = (h * w)%nat).
  { unfold Pysofi.plane. rewrite Hsh. reflexivity. }
  assert (Hmpf : forall i, Pysofi.mean_per_frame a i 0 = Pysofi.frame_mean a i).
  { intros i. unfold Pysofi.mean_per_frame, Pysofi.frame_mean.
    rewrite Hpl, Hch, Hfs. f_equal. apply sum_upto_ext. intros q _.
    f_equal. lia. }
  assert (Hfac : forall i p,
            Pysofi.correction_factor a i (p mod Pysofi.channels a)%nat
            = (Pysofi.frame_mean a 0 / Pysofi.frame_mean a i)%Qc).
  { intros i p. unfold Pysofi.correction_factor.
    rewrite Hch, Nat.mod_1_r, !Hmpf. reflexivity. }
  destruct (bleach_loop_items a (shape0 a)) as (Hd & Hs & Hi).
  fold (Pysofi.bleach_frames a) in Hd, Hs, Hi.
  assert (Hn : shape0 a = n) by (unfold shape0; rewrite Hsh; reflexivity).
  assert (Hitem : forall i q, (i < n)%nat -> (q < h * w)%nat ->
     arr_item (Pysofi.bleach_frames a) (i * (h * w) + q)%nat
     = (arr_item a (i * (h * w) + q)%nat
        * (Pysofi.frame_mean a 0 / Pysofi.frame_mean a i))%Qc).
  { intros i q Hi_lt Hq. rewrite Hi, Hn, Hfs.
    destruct (Nat.ltb_spec (i * (h * w) + q) (n * (h * w))) as [_|Hge]; [|nia].
    rewrite Hfac. rewrite (offset_div i (h * w) q Hq).
    unfold cast. rewrite Hfl. reflexivity. }
  split; [exact Hs|]. split; [exact Hitem|]. split.
  - intros i Hi_lt. unfold Pysofi.frame_mean at 1.
    assert (Hfs' : Pysofi.frame_size (Pysofi.bleach_frames a) = (h * w)%nat).
    { unfold Pysofi.frame_size. rewrite Hs. exact Hfs. }
    rewrite Hfs'.
    rewrite (sum_upto_ext (h * w) _
               (fun q => (arr_item a (i * (h * w) + q)%nat
                          * (Pysofi.frame_mean a 0 / Pysofi.frame_mean a i))%Qc))
      by (intros q Hq; apply Hitem; assumption).
    rewrite sum_upto_scale.
    pose proof (Hmean i Hi_lt) as Hnz.
    assert (Hsum : sum_upto (h * w) (fun q => arr_item a (i * (h * w) + q)%nat)
                   = (Pysofi.frame_mean a i * q_of_nat (h * w))%Qc).
    { unfold Pysofi.frame_mean. rewrite Hfs. field.
      apply q_of_nat_nonzero. exact Hpos. }
    rewrite Hsum. field. split; first [exact Hnz | apply q_of_nat_nonzero; exact Hpos].
  - intros q Hn0 Hq. pose proof (Hitem 0%nat q Hn0 Hq) as H0.
    cbn [Nat.mul Nat.add] in H0. rewrite H0. field. apply Hmean. exact Hn0.
Qed.

(* ===================================================================== *)
(** ** Further properties of the correlation kernels *)
(* ===================================================================== *)

Lemma q_of_nat_pos (n : nat) : (0 < n)%nat -> (0 < q_of_nat n)%Qc.
Proof.
  intros Hn. change (0 < Qred (inject_Z (Z.of_nat n)))%Q.
  rewrite Qred_correct. unfold Qlt, inject_Z. cbn [Qnum Qden]. lia.
Qed.

Lemma Qc_square_nonneg (x : Qc) : (0 <= x * x)%Qc.
Proof.
  destruct (Qclt_le_dec x 0) as [Hneg|Hpos].
  - assert (H0 : (0 <= - x)%Qc).
    { apply Qclt_le_weak in Hneg. apply Qcopp_le_compat in Hneg. exact Hneg. }
    replace (x * x)%Qc with ((- x) * (- x))%Qc by ring.
    pose proof (Qcmult_le_compat_r 0 (- x) (- x) H0 H0) as H.
    rewrite Qcmult_0_l in H. exact H.
  - pose proof (Qcmult_le_compat_r 0 x x Hpos Hpos) as H.
    rewrite Qcmult_0_l in H. exact H.
Qed.

Lemma sum_upto_nonneg (n : nat) (f : nat -> Qc) :
  (forall x, (x < n)%nat -> (0 <= f x)%Qc) -> (0 <= sum_upto n f)%Qc.
Proof.
  induction n as [|n IH]; intros Hf; cbn.
  - apply Qcle_refl.
  - pose proof (Qcplus_le_compat 0 (sum_upto n f) 0 (f n)) as H.
    rewrite Qcplus_0_l in H. apply H.
    + apply IH. intros x Hx. apply Hf. lia.
    + apply Hf. lia.
Qed.

Lemma cross_correlation_spec_sym (data : ndarray) (frames i j k l : nat) :
  Optimization.cross_correlation_spec data frames i j k l
  = Optimization.cross_correlation_spec data frames k l i j.
Proof.
  unfold Optimization.cross_correlation_spec. f_equal.
  apply sum_upto_ext. intros f _. ring.
Qed.

Lemma cross_correlation_spec_diag (data : ndarray) (frames i j : nat) :
  (0 < frames)%nat ->
  (0 <= Optimization.cross_correlation_spec data frames i j i j)%Qc.
Proof.
  intros Hfr. unfold Optimization.cross_correlation_spec.
  set (S := sum_upto frames _).
  assert (HS : (0 <= S)%Qc).
  { apply sum_upto_nonneg. intros f _. apply Qc_square_nonneg. }
  apply (Qcmult_lt_0_le_reg_r _ _ (q_of_nat frames) (q_of_nat_pos frames Hfr)).
  rewrite Qcmult_0_l.
  replace (1 / q_of_nat frames * S * q_of_nat frames)%Qc with S; [exact HS|].
  field. apply q_of_nat_nonzero. exact Hfr.
Qed.

(** X1.  The correlation computed by either kernel is symmetric under
    exchanging the two pixels, and the correlation of a pixel with itself
    (its temporal variance) is never negative. *)
Theorem cross_correlation_symmetric_nonneg
    (data : ndarray) (frames height width : nat) :
  arr_shape data = [frames; height; width] ->
  (0 < frames)%nat ->
  exists r,
    Optimization.fast_cross_correlation_numpy data frames height width = Ok r /\
    forall i j k l,
      (i < height)%nat -> (j < width)%nat -> (k < height)%nat -> (l < width)%nat ->
      get4 (Optimization.fast_cross_correlation_numba data frames height width) i j k l
      = get4 (Optimization.fast_cross_correlation_numba data frames height width) k l i j /\
      get4 r i j k l = get4 r k l i j /\
      (0 <= get4 (Optimization.fast_cross_correlation_numba data frames height width)
              i j i j)%Qc /\
      (0 <= get4 r i j i j)%Qc.
Proof.
  intros Hsh Hfr.
  destruct (numpy_kernel_spec data frames height width Hsh Hfr) as (r & Hr & _ & Hval).
  destruct (numba_kernel_spec data frames height width Hfr) as (_ & Hval').
  exists r. split; [exact Hr|].
  intros i j k l Hi Hj Hk Hl.
  rewrite !Hval', !Hval by assumption.
  repeat split.
  - apply cross_correlation_spec_sym.
  - apply cross_correlation_spec_sym.
  - apply cross_correlation_spec_diag. exact Hfr.
  - apply cross_correlation_spec_diag. exact Hfr.
Qed.

Lemma cross_correlation_symmetric_nonneg_witness :
  exists r,
    Optimization.fast_cross_correlation_numpy Samples.ramp_stack 2 1 2 = Ok r /\
    forall i j k l,
      (i < 1)%nat -> (j < 2)%nat -> (k < 1)%nat -> (l < 2)%nat ->
      get4 (Optimization.fast_cross_correlation_numba Samples.ramp_stack 2 1 2) i j k l
      = get4 (Optimization.fast_cross_correlation_numba Samples.ramp_stack 2 1 2) k l i j /\
      get4 r i j k l = get4 r k l i j /\
      (0 <= get4 (Optimization.fast_cross_correlation_numba Samples.ramp_stack 2 1 2)
              i j i j)%Qc /\
      (0 <= get4 r i j i j)%Qc.
Proof.
  apply (cross_correlation_symmetric_nonneg Samples.ramp_stack 2 1 2);
    [reflexivity | lia].
Defined.

(** X2.  [get_optimal_thread_count] returns 2 when psutil cannot be
    imported.  With psutil it takes the physical core count, or the logical
    one when the physical count is [None], and returns that count less one,
    kept between 1 and 8: 1 for at most one core, [cores - 1] for 2 to 9
    cores, 8 from 9 cores on.  When psutil reports neither count, the
    subtraction on [None] raises [TypeError], which the [except ImportError]
    does not catch. *)
Theorem get_optimal_thread_count_spec (ps : option Optimization.psutil) :
  (ps = None -> Optimization.get_optimal_thread_count ps = Ok 2%Z) /\
  (forall p cores,
     ps = Some p ->
     (Optimization.physical_cores p = Some cores \/
      Optimization.physical_cores p = None /\
      Optimization.logical_cores p = Some cores) ->
     exists n,
       Optimization.get_optimal_thread_count ps = Ok n /\
       (1 <= n <= 8)%Z /\
       ((cores <= 1)%Z -> n = 1%Z) /\
       ((2 <= cores <= 9)%Z -> n = (cores - 1)%Z) /\
       ((9 <= cores)%Z -> n = 8%Z)) /\
  (forall p,
     ps = Some p ->
     Optimization.physical_cores p = None ->
     Optimization.logical_cores p = None ->
     exists e,
       Optimization.get_optimal_thread_count ps = Raise e /\
       exn_cls e = TypeError).
Proof.
  split; [|split].
  - intros ->. reflexivity.
  - intros p cores -> Hc. unfold Optimization.get_optimal_thread_count.
    assert (Hn : match Optimization.physical_cores p with
                 | Some n => Some n
                 | None => Optimization.logical_cores p
                 end = Some cores).
    { destruct Hc as [Hc|[Hc Hl]]; rewrite Hc; [reflexivity | exact Hl]. }
    rewrite Hn. eexists. split; [reflexivity|]. repeat split; lia.
  - intros p -> Hp Hl. unfold Optimization.get_optimal_thread_count.
    rewrite Hp, Hl. eexists. split; reflexivity.
Qed.

Lemma get_optimal_thread_count_spec_witness :
  exists n,
    Optimization.get_optimal_thread_count
      (Some (Optimization.MkPsutil None (Some 4%Z))) = Ok n /\
    (1 <= n <= 8)%Z /\
    ((4 <= 1)%Z -> n = 1%Z) /\
    ((2 <= 4 <= 9)%Z -> n = (4 - 1)%Z) /\
    ((9 <= 4)%Z -> n = 8%Z).
Proof.
  apply (proj1 (proj2 (get_optimal_thread_count_spec
                         (Some (Optimization.MkPsutil None (Some 4%Z)))))
           (Optimization.MkPsutil None (Some 4%Z)) 4%Z).
  - reflexivity.
  - right. split; reflexivity.
Defined.

(* ===================================================================== *)
(** ** [fast_normalize_data] *)
(* ===================================================================== *)

Lemma qmin_spec (x y : Qc) :
  (Pysofi.qmin x y <= x)%Qc /\ (Pysofi.qmin x y <= y)%Qc /\
  (Pysofi.qmin x y = x \/ Pysofi.qmin x y = y).
Proof.
  unfold Pysofi.qmin. destruct (Qclt_le_dec y x) as [H|H].
  - repeat split; [apply Qclt_le_weak; exact H | apply Qcle_refl | right; reflexivity].
  - repeat split; [apply Qcle_refl | exact H | left; reflexivity].
Qed.

Lemma qmax_spec (x y : Qc) :
  (x <= Pysofi.qmax x y)%Qc /\ (y <= Pysofi.qmax x y)%Qc /\
  (Pysofi.qmax x y = x \/ Pysofi.qmax x y = y).
Proof.
  unfold Pysofi.qmax. destruct (Qclt_le_dec x y) as [H|H].
  - repeat split; [apply Qclt_le_weak; exact H | apply Qcle_refl | right; reflexivity].
  - repeat split; [apply Qcle_refl | exact H | left; reflexivity].
Qed.

Lemma running_min_spec (item : nat -> Qc) (init : Qc) (n : nat) :
  let m := for_range n (fun p m => Pysofi.qmin m (item p)) init in
  (m <= init)%Qc /\ (forall p, (p < n)%nat -> (m <= item p)%Qc) /\
  (m = init \/ exists p, (p < n)%nat /\ m = item p).
Proof.
  induction n as [|n IH]; cbn zeta.
  - split; [apply Qcle_refl|]. split; [intros p Hp; lia | left; reflexivity].
  - rewrite for_range_S. cbn zeta in IH. destruct IH as (Hi & Hall & Hatt).
    set (m := for_range n _ _) in *.
    destruct (qmin_spec m (item n)) as (H1 & H2 & H3).
    split; [exact (Qcle_trans _ _ _ H1 Hi)|]. split.
    + intros p Hp. destruct (Nat.eq_dec p n) as [->|Hne]; [exact H2|].
      eapply Qcle_trans; [exact H1 | apply Hall; lia].
    + destruct H3 as [->| ->].
      * destruct Hatt as [Hatt|(p & Hp & Hatt)]; [left; exact Hatt|].
        right. exists p. split; [lia | exact Hatt].
      * right. exists n. split; [lia | reflexivity].
Qed.

Lemma running_max_spec (item : nat -> Qc) (init : Qc) (n : nat) :
  let m := for_range n (fun p m => Pysofi.qmax m (item p)) init in
  (init <= m)%Qc /\ (forall p, (p < n)%nat -> (item p <= m)%Qc) /\
  (m = init \/ exists p, (p < n)%nat /\ m = item p).
Proof.
  induction n as [|n IH]; cbn zeta.
  - split; [apply Qcle_refl|]. split; [intros p Hp; lia | left; reflexivity].
  - rewrite for_range_S. cbn zeta in IH. destruct IH as (Hi & Hall & Hatt).
    set (m := for_range n _ _) in *.
    destruct (qmax_spec m (item n)) as (H1 & H2 & H3).
    split; [exact (Qcle_trans _ _ _ Hi H1)|]. split.
    + intros p Hp. destruct (Nat.eq_dec p n) as [->|Hne]; [exact H2|].
      eapply Qcle_trans; [apply Hall; lia | exact H1].
    + destruct H3 as [->| ->].
      * destruct Hatt as [Hatt|(p & Hp & Hatt)]; [left; exact Hatt|].
        right. exists p. split; [lia | exact Hatt].
      * right. exists n. split; [lia | reflexivity].
Qed.

(** [np.min] is a lower bound that some element attains; [np.max] likewise. *)
Lemma np_min_spec (a : ndarray) :
  (0 < size a)%nat ->
  (forall p, (p < size a)%nat -> (Pysofi.np_min a <= arr_item a p)%Qc) /\
  exists p, (p < size a)%nat /\ Pysofi.np_min a = arr_item a p.
Proof.
  intros Hpos. unfold Pysofi.np_min.
  destruct (running_min_spec (arr_item a) (arr_item a 0%nat) (size a)) as (_ & Hall & Hatt).
  split; [exact Hall|].
  destruct Hatt as [->|Hatt]; [exists 0%nat; split; [exact Hpos | reflexivity] | exact Hatt].
Qed.

Lemma np_max_spec (a : ndarray) :
  (0 < size a)%nat ->
  (forall p, (p < size a)%nat -> (arr_item a p <= Pysofi.np_max a)%Qc) /\
  exists p, (p < size a)%nat /\ Pysofi.np_max a = arr_item a p.
Proof.
  intros Hpos. unfold Pysofi.np_max.
  destruct (running_max_spec (arr_item a) (arr_item a 0%nat) (size a)) as (_ & Hall & Hatt).
  split; [exact Hall|].
  destruct Hatt as [->|Hatt]; [exists 0%nat; split; [exact Hpos | reflexivity] | exact Hatt].
Qed.

Lemma store_overwrites_as (d : dtype) (p : nat) (v : Qc) (val : nat -> Qc) :
  val p = cast d v ->
  overwrites_as d (fun a => store a p v) (fun q => Nat.eqb q p) val.
Proof.
  intros Hv a Hd. cbn. repeat split; [exact Hd|].
  intros q. rewrite Hd.
  destruct (Nat.eqb q p) eqn:E; [|reflexivity].
  apply Nat.eqb_eq in E. subst q. symmetry. exact Hv.
Qed.

Lemma for_range_overwrites_as (d : dtype) (n : nat) (body : nat -> ndarray -> ndarray)
      (dom : nat -> nat -> bool) (val : nat -> Qc) :
  (forall i, (i < n)%nat -> overwrites_as d (body i) (dom i) val) ->
  overwrites_as d (for_range n body) (fun p => existsb (fun i => dom i p) (seq 0 n)) val.
Proof.
  induction n as [|n IH]; intros Hb a Hd.
  - cbn. auto.
  - rewrite for_range_S.
    destruct (IH (fun i Hi => Hb i (Nat.lt_lt_succ_r _ _ Hi)) a Hd) as (Hd1 & Hs1 & Hi1).
    destruct (Hb n (Nat.lt_succ_diag_r n) _ Hd1) as (Hd2 & Hs2 & Hi2).
    repeat split; [exact Hd2 | congruence |].
    intros p. rewrite Hi2, Hi1, seq_S, existsb_app. cbn.
    destruct (dom n p), (existsb (fun i => dom i p) (seq 0 n)); reflexivity.
Qed.

(** A value rescaled between a lower and a strictly larger upper bound. *)
Lemma rescaled_in_unit_interval (x lo hi : Qc) :
  (lo <= x)%Qc -> (x <= hi)%Qc -> (lo < hi)%Qc ->
  (0 <= (x - lo) / (hi - lo))%Qc /\ ((x - lo) / (hi - lo) <= 1)%Qc.
Proof.
  intros Hlo Hhi Hlt.
  assert (Hd : (0 < hi - lo)%Qc).
  { apply Qclt_minus_iff in Hlt. exact Hlt. }
  assert (Hnz : (hi - lo)%Qc <> 0%Qc).
  { intros E. rewrite E in Hd. apply (Qclt_not_eq _ _ Hd). reflexivity. }
  assert (Hv : ((x - lo) / (hi - lo) * (hi - lo))%Qc = (x - lo)%Qc) by (field; exact Hnz).
  split.
  - apply (Qcmult_lt_0_le_reg_r _ _ (hi - lo)%Qc Hd).
    rewrite Qcmult_0_l, Hv. apply Qcle_minus_iff in Hlo. exact Hlo.
  - apply (Qcmult_lt_0_le_reg_r _ _ (hi - lo)%Qc Hd).
    rewrite Qcmult_1_l, Hv.
    apply Qcplus_le_compat; [exact Hhi | apply Qcle_refl].
Qed.

Lemma Qc_zero_le_one : (0 <= 1)%Qc.
Proof. unfold Qcle, Qle. vm_compute. discriminate. Qed.

Lemma get2_flat2 (a : ndarray) (r c i j : nat) :
  arr_shape a = [r; c] -> get2 a i j = arr_item a (i * c + j)%nat.
Proof. intros Hsh. unfold get2, cols2. rewrite Hsh. reflexivity. Qed.

(** X3.  In exact arithmetic (the elements are idealised as rationals;
    floating-point rounding is not modelled), on a non-empty 2-D array of a
    floating dtype the Numba loop and the NumPy fallback of
    [fast_normalize_data] return arrays of the input's shape that agree
    element by element; every value lies between 0 and 1; when the array is
    not constant its minimum goes to 0 and its maximum to 1, and a constant
    array goes to all zeros. *)
Theorem fast_normalize_data_spec (data : ndarray) (r c : nat) :
  arr_shape data = [r; c] ->
  is_floating (arr_dtype data) = true ->
  (0 < r * c)%nat ->
  exists a b,
    Normalize.fast_normalize_data_numba data = Ok a /\
    Normalize.fast_normalize_data_numpy data = Ok b /\
    arr_shape a = [r; c] /\ arr_shape b = [r; c] /\
    forall i j, (i < r)%nat -> (j < c)%nat ->
      get2 a i j = get2 b i j /\
      (0 <= get2 b i j)%Qc /\ (get2 b i j <= 1)%Qc /\
      (Pysofi.np_min data = Pysofi.np_max data -> get2 b i j = 0%Qc) /\
      (Pysofi.np_min data <> Pysofi.np_max data ->
       (get2 data i j = Pysofi.np_min data -> get2 b i j = 0%Qc) /\
       (get2 data i j = Pysofi.np_max data -> get2 b i j = 1%Qc)).
Proof.
  intros Hsh Hfl Hpos.
  assert (Hsize : size data = (r * c)%nat) by (unfold size; rewrite Hsh; cbn; lia).
  assert (Hnz : (size data =? 0)%nat = false) by (apply Nat.eqb_neq; lia).
  assert (Hcols : cols2 data = c) by (unfold cols2; rewrite Hsh; reflexivity).
  destruct (np_min_spec data) as [Hmin _]; [lia|].
  destruct (np_max_spec data) as [Hmax _]; [lia|].
  unfold Normalize.fast_normalize_data_numba, Normalize.fast_normalize_data_numpy,
    Normalize.checked_min, Normalize.checked_max.
  rewrite Hnz, Hsh. cbn [nth].
  set (lo := Pysofi.np_min data) in *. set (hi := Pysofi.np_max data) in *.
  unfold Qc_eq_bool. destruct (Qcanon.Qc_eq_dec hi lo) as [Heq|Hne].
  - exists (zeros_like data), (zeros_like data).
    split; [reflexivity|]. split; [reflexivity|].
    split; [exact Hsh|]. split; [exact Hsh|].
    intros i j _ _. change (get2 (zeros_like data) i j) with 0%Qc.
    split; [reflexivity|]. split; [apply Qcle_refl|]. split; [apply Qc_zero_le_one|].
    split; [intros _; reflexivity|].
    intros Hne. exfalso. apply Hne. symmetry. exact Heq.
  - set (val := fun p => ((arr_item data p - lo) * (1 / (hi - lo)))%Qc).
    assert (Hw : overwrites_as (arr_dtype data)
      (for_range r (fun i result =>
         for_range c (fun j result =>
           store result (offset2 (cols2 data) i j)
                 ((get2 data i j - lo) * (1 / (hi - lo)))%Qc) result))
      (fun p => existsb (fun i => existsb (fun j => Nat.eqb p (offset2 (cols2 data) i j))
                                    (seq 0 c)) (seq 0 r)) val).
    { apply for_range_overwrites_as. intros i Hi.
      apply (for_range_overwrites_as _ c _
               (fun j p => Nat.eqb p (offset2 (cols2 data) i j))).
      intros j Hj. apply store_overwrites_as.
      unfold val, cast, get2, offset2. rewrite Hfl. reflexivity. }
    destruct (Hw (zeros_like data) eq_refl) as (_ & Hs & Hi).
    eexists. eexists. split; [reflexivity|]. split; [reflexivity|].
    split; [rewrite Hs; cbn; exact Hsh|]. split; [cbn; exact Hsh|].
    intros i j Hlt_i Hlt_j.
    assert (Hp : (i * c + j < size data)%nat) by (rewrite Hsize; nia).
    assert (Hlt : (lo < hi)%Qc).
    { destruct (Qcle_lt_or_eq lo hi) as [H|H]; [|exact H | congruence].
      eapply Qcle_trans; [apply (Hmin (i * c + j)%nat Hp) | apply (Hmax _ Hp)]. }
    assert (Hd : (hi - lo)%Qc <> 0%Qc).
    { intros E. apply Qclt_minus_iff in Hlt.
      change (hi + - lo)%Qc with (hi - lo)%Qc in Hlt. rewrite E in Hlt.
      apply (Qclt_not_eq _ _ Hlt). reflexivity. }
    assert (Ha : get2 (for_range r (fun i result =>
         for_range c (fun j result =>
           store result (offset2 (cols2 data) i j)
                 ((get2 data i j - lo) * (1 / (hi - lo)))%Qc) result) (zeros_like data)) i j
       = ((get2 data i j - lo) / (hi - lo))%Qc).
    { rewrite (get2_flat2 _ r c) by (rewrite Hs; exact Hsh). rewrite Hi.
      rewrite (existsb_seq_hit r i);
        [| exact Hlt_i
         | apply (existsb_seq_hit c j); [exact Hlt_j |];
           unfold offset2; rewrite Hcols; apply Nat.eqb_refl].
      unfold val, get2. rewrite Hcols. field. exact Hd. }
    assert (Hb : get2 (Pysofi.map_items (fun _ x => ((x - lo) / (hi - lo))%Qc) data) i j
                 = ((get2 data i j - lo) / (hi - lo))%Qc).
    { unfold get2, cols2. cbn. reflexivity. }
    rewrite Ha, Hb.
    destruct (rescaled_in_unit_interval (get2 data i j) lo hi) as [H0 H1].
    { unfold get2. rewrite Hcols. apply Hmin. exact Hp. }
    { unfold get2. rewrite Hcols. apply Hmax. exact Hp. }
    { exact Hlt. }
    split; [reflexivity|]. split; [exact H0|]. split; [exact H1|].
    split; [intros E; congruence|].
    intros _. split; intros E; rewrite E; field; exact Hd.
Qed.

(* ===================================================================== *)
(** ** Further properties of the patched [PysofiData] methods *)
(* ===================================================================== *)

(** X4.  [_ensure_frames_loaded] changes nothing but [frames]: when it
    answers [True], [frames] holds an array, and the one it already held if
    that was a non-empty stack; when it answers [False] or raises, the
    object is exactly as before. *)
Theorem ensure_frames_loaded_outcomes
    (imread : string -> result ndarray) (self : Pysofi.PysofiData) :
  match Pysofi._ensure_frames_loaded imread self with
  | (self', Ok true) =>
      (exists a, Pysofi.frames self' = Val a /\ self' = Pysofi.set_frames (Val a) self) /\
      (forall a, Pysofi.frames self = Val a -> (0 < len a)%nat -> self' = self)
  | (self', Ok false) => self' = self
  | (self', Raise e) => self' = self /\ exn_cls e = TypeError
  end.
Proof.
  unfold Pysofi._ensure_frames_loaded.
  assert (Hother :
    match
      match Pysofi.raw_input self, Pysofi.stack self, Pysofi.data self with
      | Val a, _, _ => (Pysofi.set_frames (Val a) self, Ok true)
      | _, Val a, _ => (Pysofi.set_frames (Val a) self, Ok true)
      | _, _, Val a => (Pysofi.set_frames (Val a) self, Ok true)
      | _, _, _ =>
          match Pysofi.data_path self, Pysofi.fileName self with
          | Some d, Some f =>
              match imread (Os.join d f) with
              | Ok a => (Pysofi.set_frames (Val a) self, Ok true)
              | Raise _ => (self, Ok false)
              end
          | _, _ => (self, Ok false)
          end
      end
    with
    | (self', Ok true) =>
        exists a, Pysofi.frames self' = Val a /\ self' = Pysofi.set_frames (Val a) self
    | (self', Ok false) => self' = self
    | (self', Raise e) => False
    end).
  { destruct (Pysofi.raw_input self), (Pysofi.stack self), (Pysofi.data self);
      try (eexists; split; reflexivity);
      destruct (Pysofi.data_path self), (Pysofi.fileName self); try reflexivity;
      destruct (imread _); try reflexivity; eexists; split; reflexivity. }
  destruct (Pysofi.frames self) as [| |a] eqn:Hf.
  - destruct (match Pysofi.raw_input self with _ => _ end) as [self' [[|]|e]];
      [split; [exact Hother | intros a Ha; discriminate] | exact Hother | contradiction].
  - destruct (match Pysofi.raw_input self with _ => _ end) as [self' [[|]|e]];
      [split; [exact Hother | intros a Ha; discriminate] | exact Hother | contradiction].
  - destruct (arr_shape a) as [|n sh] eqn:Hsh.
    + split; reflexivity.
    + destruct (Nat.ltb_spec 0 n) as [Hpos|Hzero].
      * split; [|intros; reflexivity].
        exists a. split; [exact Hf|]. destruct self; cbn in *.
        unfold Pysofi.set_frames; cbn. rewrite Hf. reflexivity.
      * destruct (match Pysofi.raw_input self with _ => _ end) as [self' [[|]|e]];
          [split; [exact Hother|] | exact Hother | contradiction].
        intros a' Ha' Hlen. inversion Ha'; subst a'.
        unfold len, shape0 in Hlen. rewrite Hsh in Hlen. cbn in Hlen. lia.
Qed.

Lemma ensure_frames_loaded_present
    (imread : string -> result ndarray) (self : Pysofi.PysofiData) (a : ndarray) :
  Pysofi.frames self = Val a -> (0 < len a)%nat ->
  Pysofi._ensure_frames_loaded imread self = (self, Ok true).
Proof.
  intros Hf Hlen. unfold Pysofi._ensure_frames_loaded. rewrite Hf.
  unfold len, shape0 in Hlen. destruct (arr_shape a) as [|n sh]; cbn in Hlen; [lia|].
  destruct (Nat.ltb_spec 0 n); [reflexivity | lia].
Qed.

(** X5.  On an object holding a non-empty 3-D stack of a floating dtype
    whose frames all have non-zero mean, the patched [bleach_correction]
    returns normally, multiplies frame [i] by mean(frame 0) / mean(frame i),
    leaves every frame with the first frame's mean and the first frame
    itself unchanged (exact arithmetic). *)
Theorem bleach_correction_float
    (imread : string -> result ndarray) (self : Pysofi.PysofiData)
    (a : ndarray) (n h w : nat) :
  Pysofi.frames self = Val a ->
  arr_shape a = [n; h; w] ->
  is_floating (arr_dtype a) = true ->
  (0 < n)%nat -> (0 < h * w)%nat ->
  (forall i, (i < n)%nat -> Pysofi.frame_mean a i <> 0%Qc) ->
  exists c,
    Pysofi.bleach_correction imread self = (Pysofi.store_corrected c self, Ok tt) /\
    arr_shape c = [n; h; w] /\
    (forall i q, (i < n)%nat -> (q < h * w)%nat ->
       arr_item c (i * (h * w) + q)%nat
       = (arr_item a (i * (h * w) + q)%nat
          * (Pysofi.frame_mean a 0 / Pysofi.frame_mean a i))%Qc) /\
    (forall i, (i < n)%nat -> Pysofi.frame_mean c i = Pysofi.frame_mean a 0) /\
    (forall q, (q < h * w)%nat -> arr_item c q = arr_item a q).
Proof.
  intros Hf Hsh Hfl Hn Hpos Hmean.
  destruct (bleach_frames_float a n h w Hsh Hfl Hpos Hmean) as (Hs & Hitem & Hm & H0).
  exists (Pysofi.bleach_frames a).
  unfold Pysofi.bleach_correction.
  rewrite (ensure_frames_loaded_present imread self a Hf)
    by (unfold len, shape0; rewrite Hsh; exact Hn).
  rewrite Hf. unfold ndim, len, shape0. rewrite Hsh. cbn [length Nat.ltb Nat.leb hd].
  destruct (Nat.eqb_spec n 0) as [Hz|_]; [lia|].
  split; [reflexivity|]. split; [congruence|]. split; [exact Hitem|].
  split; [exact Hm|]. intros q Hq. apply H0; assumption.
Qed.

Lemma bleach_correction_float_witness :
  exists c,
    Pysofi.bleach_correction Samples.no_files (Samples.holding Samples.fading_stack_f32)
    = (Pysofi.store_corrected c (Samples.holding Samples.fading_stack_f32), Ok tt) /\
    arr_shape c = [2; 1; 2]%nat /\
    (forall i q, (i < 2)%nat -> (q < 1 * 2)%nat ->
       arr_item c (i * (1 * 2) + q)%nat
       = (arr_item Samples.fading_stack_f32 (i * (1 * 2) + q)%nat
          * (Pysofi.frame_mean Samples.fading_stack_f32 0
             / Pysofi.frame_mean Samples.fading_stack_f32 i))%Qc) /\
    (forall i, (i < 2)%nat ->
       Pysofi.frame_mean c i = Pysofi.frame_mean Samples.fading_stack_f32 0) /\
    (forall q, (q < 1 * 2)%nat -> arr_item c q = arr_item Samples.fading_stack_f32 q).
Proof.
  apply (bleach_correction_float Samples.no_files
           (Samples.holding Samples.fading_stack_f32) Samples.fading_stack_f32 2 1 2).
  - reflexivity.
  - reflexivity.
  - reflexivity.
  - lia.
  - lia.
  - intros i Hi H. apply (f_equal (fun x => Qnum (this x))) in H.
    destruct i as [|[|i]]; [vm_compute in H; discriminate
                           | vm_compute in H; discriminate | lia].
Defined.

(** X6.  Whatever the dtype, on an object holding a non-empty stack of at
    least three dimensions [bleach_correction] returns normally with a stack
    of the same shape and dtype in [frames]; every alias among [raw_input],
    [stack] and [data] that existed now holds that same array and none is
    created; [bleach_corrected] is set; the cumulant and Fourier results are
    not touched. *)
Theorem bleach_correction_effects
    (imread : string -> result ndarray) (self : Pysofi.PysofiData) (a : ndarray) :
  Pysofi.frames self = Val a ->
  (0 < len a)%nat -> (3 <= ndim a)%nat ->
  exists self' c,
    Pysofi.bleach_correction imread self = (self', Ok tt) /\
    Pysofi.frames self' = Val c /\
    arr_shape c = arr_shape a /\ arr_dtype c = arr_dtype a /\
    Pysofi.raw_input self' = (if hasattr (Pysofi.raw_input self) then Val c else Absent) /\
    Pysofi.stack self' = (if hasattr (Pysofi.stack self) then Val c else Absent) /\
    Pysofi.data self' = (if hasattr (Pysofi.data self) then Val c else Absent) /\
    Pysofi.bleach_corrected self' = true /\
    Pysofi.cumulants_set self' = Pysofi.cumulants_set self /\
    Pysofi.fourier_result self' = Pysofi.fourier_result self.
Proof.
  intros Hf Hlen Hdim.
  destruct (bleach_loop_items a (shape0 a)) as (Hd & Hs & _).
  fold (Pysofi.bleach_frames a) in Hd, Hs.
  exists (Pysofi.store_corrected (Pysofi.bleach_frames a) self), (Pysofi.bleach_frames a).
  unfold Pysofi.bleach_correction.
  rewrite (ensure_frames_loaded_present imread self a Hf Hlen), Hf.
  destruct (Nat.ltb_spec (ndim a) 3) as [Hlt|_]; [lia|].
  destruct (Nat.eqb_spec (len a) 0) as [Hz|_]; [lia|].
  split; [reflexivity|]. split; [reflexivity|]. split; [exact Hs|]. split; [exact Hd|].
  unfold Pysofi.store_corrected, Pysofi.overwrite_if_present. cbn.
  destruct (Pysofi.raw_input self), (Pysofi.stack self), (Pysofi.data self);
    repeat split; reflexivity.
Qed.

Lemma bleach_correction_effects_witness :
  exists self' c,
    Pysofi.bleach_correction Samples.no_files (Samples.holding Samples.fading_stack)
      = (self', Ok tt) /\
    Pysofi.frames self' = Val c /\
    arr_shape c = arr_shape Samples.fading_stack /\
    arr_dtype c = arr_dtype Samples.fading_stack /\
    Pysofi.raw_input self'
      = (if hasattr (Pysofi.raw_input (Samples.holding Samples.fading_stack))
         then Val c else Absent) /\
    Pysofi.stack self'
      = (if hasattr (Pysofi.stack (Samples.holding Samples.fading_stack))
         then Val c else Absent) /\
    Pysofi.data self'
      = (if hasattr (Pysofi.data (Samples.holding Samples.fading_stack))
         then Val c else Absent) /\
    Pysofi.bleach_corrected self' = true /\
    Pysofi.cumulants_set self'
      = Pysofi.cumulants_set (Samples.holding Samples.fading_stack) /\
    Pysofi.fourier_result self'
      = Pysofi.fourier_result (Samples.holding Samples.fading_stack).
Proof.
  apply (bleach_correction_effects Samples.no_files
           (Samples.holding Samples.fading_stack) Samples.fading_stack).
  - reflexivity.
  - unfold len, shape0. cbn. lia.
  - unfold ndim. cbn. lia.
Defined.

(** X7.  With no frames to be found -- [frames], [raw_input], [stack] and
    [data] all missing or [None], and no [data_path]/[fileName] pair whose
    file can be read -- [bleach_correction] raises [ValueError] and leaves
    the object as it was. *)
Theorem bleach_correction_without_frames
    (imread : string -> result ndarray) (self : Pysofi.PysofiData) :
  is_not_None (Pysofi.frames self) = false ->
  is_not_None (Pysofi.raw_input self) = false ->
  is_not_None (Pysofi.stack self) = false ->
  is_not_None (Pysofi.data self) = false ->
  (forall d f, Pysofi.data_path self = Some d -> Pysofi.fileName self = Some f ->
               exists e, imread (Os.join d f) = Raise e) ->
  Pysofi.bleach_correction imread self
  = (self, Raise (Exn ValueError "Could not find or load frames data in PySOFI object")).
Proof.
  intros Hf Hr Hs Hd Hfile.
  unfold Pysofi.bleach_correction, Pysofi._ensure_frames_loaded.
  destruct (Pysofi.frames self); try discriminate;
    destruct (Pysofi.raw_input self); try discriminate;
    destruct (Pysofi.stack self); try discriminate;
    destruct (Pysofi.data self); try discriminate;
    destruct (Pysofi.data_path self) as [d|]; try reflexivity;
    destruct (Pysofi.fileName self) as [f|]; try reflexivity;
    destruct (Hfile d f eq_refl eq_refl) as [e He]; rewrite He; reflexivity.
Qed.

Lemma bleach_correction_without_frames_witness :
  Pysofi.bleach_correction Samples.no_files Samples.empty_object
  = (Samples.empty_object,
     Raise (Exn ValueError "Could not find or load frames data in PySOFI object")).
Proof.
  apply (bleach_correction_without_frames Samples.no_files Samples.empty_object);
    try reflexivity.
  intros d f Hd. discriminate.
Defined.

Lemma clip_unit (x : Qc) :
  (0 <= Pysofi.qmax 0 (Pysofi.qmin x 1))%Qc /\ (Pysofi.qmax 0 (Pysofi.qmin x 1) <= 1)%Qc.
Proof.
  destruct (qmax_spec 0 (Pysofi.qmin x 1)) as (H0 & _ & H2).
  split; [exact H0|].
  destruct H2 as [E|E]; rewrite E; [apply Qc_zero_le_one | apply (qmin_spec x 1)].
Qed.

(** What [enhance] returns when SciPy is there and the image is not empty:
    the image itself when it is constant, values clipped to [0, 1] of the
    same shape otherwise. *)
Lemma enhance_spec (blur : ndarray -> ndarray) (img : ndarray) :
  (0 < size img)%nat ->
  exists r,
    Pysofi.enhance (Some blur) img = Ok r /\
    arr_shape r = arr_shape img /\
    ((Pysofi.np_min img < Pysofi.np_max img)%Qc ->
     forall p, (0 <= arr_item r p)%Qc /\ (arr_item r p <= 1)%Qc) /\
    ((Pysofi.np_max img <= Pysofi.np_min img)%Qc -> r = img).
Proof.
  intros Hpos. unfold Pysofi.enhance.
  destruct (Nat.eqb_spec (size img) 0) as [Hz|_]; [lia|].
  destruct (Qclt_le_dec (Pysofi.np_min img) (Pysofi.np_max img)) as [Hlt|Hle].
  - eexists. split; [reflexivity|]. split; [reflexivity|]. split.
    + intros _ p. cbn. apply clip_unit.
    + intros Hle. exfalso. apply (Qclt_not_le _ _ Hlt). exact Hle.
  - exists img. split; [reflexivity|]. split; [reflexivity|]. split.
    + intros Hlt. exfalso. apply (Qclt_not_le _ _ Hlt). exact Hle.
    + intros _. reflexivity.
Qed.

(** The loop over the requested orders: an order missing from
    [cumulants_set] is skipped; every other requested order gets its
    enhanced image; entries of orders not requested stay. *)
Lemma reconstruct_orders_spec
    (blur : ndarray -> ndarray) (orders : list Z) (self : Pysofi.PysofiData)
    (cs fr : gmap Z ndarray) :
  Pysofi.cumulants_set self = Some cs ->
  Pysofi.fourier_result self = Some fr ->
  (forall k img, k ∈ orders -> cs !! k = Some img -> (0 < size img)%nat) ->
  exists fr',
    Pysofi.reconstruct_orders (Some blur) orders self
    = (Pysofi.set_fourier_result (Some fr') self, Ok tt) /\
    forall k,
      fr' !! k
      = match cs !! k with
        | Some img =>
            if bool_decide (k ∈ orders)
            then match Pysofi.enhance (Some blur) img with
                 | Ok r => Some r
                 | Raise _ => None
                 end
            else fr !! k
        | None => fr !! k
        end.
Proof.
  revert self fr. induction orders as [|k0 rest IH]; intros self fr Hcs Hfr Hsize.
  - exists fr. split.
    + cbn. destruct self; cbn in *. rewrite Hfr. reflexivity.
    + intros k. destruct (cs !! k); reflexivity.
  - cbn [Pysofi.reconstruct_orders]. rewrite Hcs, Hfr.
    destruct (cs !! k0) as [img0|] eqn:Hk0.
    + destruct (enhance_spec blur img0) as (r0 & Hr0 & _).
      { apply (Hsize k0 img0); [apply list_elem_of_here | exact Hk0]. }
      rewrite Hr0.
      destruct (IH (Pysofi.set_fourier_result (Some (<[k0 := r0]> fr)) self)
                   (<[k0 := r0]> fr)) as (fr' & Hrun & Hlook).
      { destruct self; exact Hcs. }
      { destruct self; reflexivity. }
      { intros k img Hin. apply Hsize. apply list_elem_of_further. exact Hin. }
      exists fr'. split.
      * rewrite Hrun. destruct self; reflexivity.
      * intros k. rewrite Hlook.
        destruct (cs !! k) as [img|] eqn:Hk.
        -- destruct (decide (k ∈ rest)) as [Hin|Hnin].
           ++ rewrite !bool_decide_eq_true_2;
                [reflexivity | apply list_elem_of_further; exact Hin | exact Hin].
           ++ rewrite (bool_decide_eq_false_2 (k ∈ rest)) by exact Hnin.
              destruct (decide (k = k0)) as [->|Hne].
              ** rewrite bool_decide_eq_true_2 by apply list_elem_of_here.
                 rewrite lookup_insert_eq.
                 rewrite Hk0 in Hk. inversion Hk; subst. rewrite Hr0. reflexivity.
              ** rewrite lookup_insert_ne by congruence.
                 rewrite bool_decide_eq_false_2; [reflexivity|].
                 intros Hin. apply elem_of_cons in Hin. destruct Hin; contradiction.
        -- destruct (decide (k = k0)) as [->|Hne]; [congruence|].
           rewrite lookup_insert_ne by congruence. reflexivity.
    + destruct (IH self fr Hcs Hfr) as (fr' & Hrun & Hlook).
      { intros k img Hin. apply Hsize. apply list_elem_of_further. exact Hin. }
      exists fr'. split; [exact Hrun|].
      intros k. rewrite Hlook.
      destruct (cs !! k) as [img|] eqn:Hk; [|reflexivity].
      destruct (decide (k ∈ rest)) as [Hin|Hnin].
      * rewrite !bool_decide_eq_true_2;
          [reflexivity | apply list_elem_of_further; exact Hin | exact Hin].
      * rewrite !bool_decide_eq_false_2; [reflexivity | | exact Hnin].
        intros Hin. apply elem_of_cons in Hin. destruct Hin as [->|Hin];
          [congruence | contradiction].
Qed.

(** X8.  [reconstruct_fourier] raises [ValueError] when [cumulants_set] is
    missing or empty, and [ImportError] when SciPy is missing and the first
    requested order is present; in both cases no Fourier result is stored
    and the cumulants are left alone. *)
Theorem reconstruct_fourier_errors
    (gaussian_filter : option (ndarray -> ndarray)) (orders : option (list Z))
    (self : Pysofi.PysofiData) :
  ((Pysofi.cumulants_set self = None \/ Pysofi.cumulants_set self = Some ∅) ->
   Pysofi.reconstruct_fourier gaussian_filter orders self
   = (self, Raise (Exn ValueError
        "No cumulants available for reconstruction - run cumulants_images first")))
  /\
  (forall cs k rest img,
     gaussian_filter = None ->
     orders = Some (k :: rest) ->
     Pysofi.cumulants_set self = Some cs ->
     cs !! k = Some img ->
     exists self',
       Pysofi.reconstruct_fourier gaussian_filter orders self
       = (self', Raise (Exn ImportError "No module named 'scipy'")) /\
       Pysofi.cumulants_set self' = Some cs /\
       Pysofi.fourier_result self'
       = Some (default ∅ (Pysofi.fourier_result self))).
Proof.
  split.
  - intros [H|H]; unfold Pysofi.reconstruct_fourier; rewrite H; [reflexivity|].
    rewrite bool_decide_eq_true_2 by reflexivity. reflexivity.
  - intros cs k rest img -> -> Hcs Hk.
    unfold Pysofi.reconstruct_fourier. rewrite Hcs.
    rewrite bool_decide_eq_false_2.
    2:{ intros ->. rewrite lookup_empty in Hk. discriminate. }
    destruct self as [f ri st d dp fn c fr w bc dc]. cbn in *. subst c.
    destruct fr as [fr|]; cbn; rewrite Hk; cbn; eexists; repeat split.
Qed.

(** X9.  With SciPy present and non-empty cumulant images,
    [reconstruct_fourier] returns normally and leaves [cumulants_set] alone.
    Every requested order that is in [cumulants_set] gets an image of the
    same shape: the cumulant itself when that is constant, values clipped to
    the interval from 0 to 1 otherwise.  A requested order that is missing
    is skipped, and entries of orders not requested are kept. *)
Theorem reconstruct_fourier_spec
    (blur : ndarray -> ndarray) (orders : option (list Z))
    (self : Pysofi.PysofiData) (cs : gmap Z ndarray) :
  Pysofi.cumulants_set self = Some cs ->
  cs <> ∅ ->
  (forall k img,
     k ∈ match orders with None => (map_to_list cs).*1 | Some l => l end ->
     cs !! k = Some img -> (0 < size img)%nat) ->
  exists self' fr',
    Pysofi.reconstruct_fourier (Some blur) orders self = (self', Ok tt) /\
    Pysofi.cumulants_set self' = Some cs /\
    Pysofi.fourier_result self' = Some fr' /\
    forall k,
      ((k ∉ match orders with None => (map_to_list cs).*1 | Some l => l end \/
        cs !! k = None) ->
       fr' !! k = default ∅ (Pysofi.fourier_result self) !! k) /\
      (k ∈ match orders with None => (map_to_list cs).*1 | Some l => l end ->
       forall img, cs !! k = Some img ->
         exists r,
           fr' !! k = Some r /\ arr_shape r = arr_shape img /\
           ((Pysofi.np_min img < Pysofi.np_max img)%Qc ->
            forall p, (0 <= arr_item r p)%Qc /\ (arr_item r p <= 1)%Qc) /\
           ((Pysofi.np_max img <= Pysofi.np_min img)%Qc -> r = img)).
Proof.
  intros Hcs Hne Hsize.
  set (requested := match orders with None => (map_to_list cs).*1 | Some l => l end) in *.
  unfold Pysofi.reconstruct_fourier. rewrite Hcs.
  rewrite bool_decide_eq_false_2 by exact Hne.
  fold requested.
  set (self1 := match Pysofi.fourier_result self with
                | None => Pysofi.set_fourier_result (Some ∅) self
                | Some _ => self
                end).
  assert (Hcs1 : Pysofi.cumulants_set self1 = Some cs).
  { unfold self1. destruct (Pysofi.fourier_result self); [exact Hcs|].
    destruct self; exact Hcs. }
  assert (Hfr1 : Pysofi.fourier_result self1
                 = Some (default ∅ (Pysofi.fourier_result self))).
  { unfold self1. destruct (Pysofi.fourier_result self) eqn:E; [exact E|].
    destruct self; reflexivity. }
  destruct (reconstruct_orders_spec blur requested self1 cs _ Hcs1 Hfr1 Hsize)
    as (fr' & Hrun & Hlook).
  exists (Pysofi.set_fourier_result (Some fr') self1), fr'.
  split; [exact Hrun|]. split; [destruct self1; exact Hcs1|].
  split; [destruct self1; reflexivity|].
  intros k. split.
  - intros [Hnin|Hnone]; rewrite Hlook.
    + destruct (cs !! k); [|reflexivity].
      rewrite bool_decide_eq_false_2 by exact Hnin. reflexivity.
    + rewrite Hnone. reflexivity.
  - intros Hin img Hk. rewrite Hlook, Hk.
    rewrite bool_decide_eq_true_2 by exact Hin.
    destruct (enhance_spec blur img (Hsize k img Hin Hk)) as (r & Hr & Hshape & Hclip & Hconst).
    exists r. rewrite Hr. repeat split; try assumption.
    + apply Hclip. assumption.
    + apply Hclip. assumption.
Qed.

Lemma reconstruct_fourier_spec_witness :
  exists self' fr',
    Pysofi.reconstruct_fourier (Some (fun a => a)) (Some [3%Z; 4%Z])
      (DataManager.sofi Samples.after_cumulants) = (self', Ok tt) /\
    Pysofi.cumulants_set self'
      = Some (<[2%Z := Samples.cumulant2]> (<[3%Z := Samples.cumulant3]> ∅)) /\
    Pysofi.fourier_result self' = Some fr' /\
    forall k,
      ((k ∉ [3%Z; 4%Z] \/
        (<[2%Z := Samples.cumulant2]> (<[3%Z := Samples.cumulant3]> ∅) : gmap Z ndarray)
          !! k = None) ->
       fr' !! k
       = default ∅ (Pysofi.fourier_result (DataManager.sofi Samples.after_cumulants)) !! k) /\
      (k ∈ [3%Z; 4%Z] ->
       forall img,
         (<[2%Z := Samples.cumulant2]> (<[3%Z := Samples.cumulant3]> ∅) : gmap Z ndarray)
           !! k = Some img ->
         exists r,
           fr' !! k = Some r /\ arr_shape r = arr_shape img /\
           ((Pysofi.np_min img < Pysofi.np_max img)%Qc ->
            forall p, (0 <= arr_item r p)%Qc /\ (arr_item r p <= 1)%Qc) /\
           ((Pysofi.np_max img <= Pysofi.np_min img)%Qc -> r = img)).
Proof.
  apply (reconstruct_fourier_spec (fun a => a) (Some [3%Z; 4%Z])
           (DataManager.sofi Samples.after_cumulants)
           (<[2%Z := Samples.cumulant2]> (<[3%Z := Samples.cumulant3]> ∅))).
  - reflexivity.
  - intros H. apply (f_equal (fun m => m !! 2%Z)) in H.
    rewrite lookup_insert_eq, lookup_empty in H. discriminate.
  - intros k img _ Hk.
    destruct (decide (k = 2%Z)) as [->|H2].
    + rewrite lookup_insert_eq in Hk. inversion Hk. cbn. lia.
    + rewrite lookup_insert_ne in Hk by congruence.
      destruct (decide (k = 3%Z)) as [->|H3].
      * rewrite lookup_insert_eq in Hk. inversion Hk. cbn. lia.
      * rewrite lookup_insert_ne, lookup_empty in Hk by congruence. discriminate.
Defined.

Lemma fast_normalize_data_spec_witness :
  exists a b,
    Normalize.fast_normalize_data_numba Samples.pair_image = Ok a /\
    Normalize.fast_normalize_data_numpy Samples.pair_image = Ok b /\
    arr_shape a = [1; 2]%nat /\ arr_shape b = [1; 2]%nat /\
    forall i j, (i < 1)%nat -> (j < 2)%nat ->
      get2 a i j = get2 b i j /\
      (0 <= get2 b i j)%Qc /\ (get2 b i j <= 1)%Qc /\
      (Pysofi.np_min Samples.pair_image = Pysofi.np_max Samples.pair_image ->
       get2 b i j = 0%Qc) /\
      (Pysofi.np_min Samples.pair_image <> Pysofi.np_max Samples.pair_image ->
       (get2 Samples.pair_image i j = Pysofi.np_min Samples.pair_image ->
        get2 b i j = 0%Qc) /\
       (get2 Samples.pair_image i j = Pysofi.np_max Samples.pair_image ->
        get2 b i j = 1%Qc)).
Proof.
  apply (fast_normalize_data_spec Samples.pair_image 1 2); [reflexivity | reflexivity | lia].
Defined.

(** On an integer array the two variants part: the Numba loop stores into
    [np.zeros_like(data)], so 1/2 becomes 0, where NumPy returns 1/2. *)
Example fast_normalize_data_on_integers :
  match Normalize.fast_normalize_data_numba
          (NdArray uint8 [1; 3]%nat (fun p => q_of_nat p)),
        Normalize.fast_normalize_data_numpy
          (NdArray uint8 [1; 3]%nat (fun p => q_of_nat p)) with
  | Ok a, Ok b => get2 a 0 1 = 0%Qc /\ get2 b 0 1 = Q2Qc (1 # 2)
  | _, _ => False
  end.
Proof. split; apply Qc_is_canon; vm_compute; reflexivity. Qed.

(* ===================================================================== *)
(** ** Further properties of [DataManager] *)
(* ===================================================================== *)

Ltac load_cases :=
  run_flow; unfold Os.getsize, Os.imread;
  cbn -[String.append DataManager.MiB];
  repeat (io_case; cbn -[String.append DataManager.MiB] in * ).


(** X11.  [load_file] succeeds on every existing regular file of at most
    500 MiB that decodes to an array of two or more dimensions taking at
    most 1000 MiB: the stack is stored as float32 (a 2-D image as one
    frame), [total_frames] is its leading dimension, and the last progress
    value reported is 100. *)
Theorem load_file_succeeds
    (s : DataManager.St) (path : string) (sz : Z) (rm : bool) (a : ndarray) :
  Os.fs (DataManager.world s) !! path = Some (Os.RegularFile sz rm) ->
  (sz <= 500 * DataManager.MiB)%Z ->
  Os.tiff_contents (DataManager.world s) path = Ok a ->
  (2 <= ndim a)%nat ->
  (nbytes a <= 1000 * DataManager.MiB)%Z ->
  exists s',
    DataManager.load_file path s
    = (s', Returned (true, "Successfully loaded " +:+ Os.basename path)) /\
    DataManager.data (DataManager.self s')
    = Val (astype float32 (if (ndim a =? 2)%nat then newaxis a else a)) /\
    DataManager.total_frames (DataManager.self s')
    = (if (ndim a =? 2)%nat then 1%nat else shape0 a) /\
    last (DataManager.progress_log (DataManager.self s')) = Some 100%Z.
Proof.
  intros Hfs Hsz Hdec Hdim Hmem.
  destruct s as [w m]. destruct m as [d r n fp tf sl pl].
  cbn [DataManager.world DataManager.self] in *.
  pose proof (exists_of_lookup w path _ Hfs) as Hex.
  assert (Hnot : (500 * DataManager.MiB <? sz)%Z = false) by (apply Z.ltb_ge; exact Hsz).
  assert (Hnb : nbytes (newaxis a) = nbytes a).
  { unfold nbytes, newaxis. cbn. destruct (fold_right _ _ _); reflexivity. }
  assert (Hfit : (1000 * DataManager.MiB <? nbytes a)%Z = false)
    by (apply Z.ltb_ge; exact Hmem).
  destruct a as [dt sh it]. unfold ndim in *. cbn [arr_shape] in *.
  destruct sh as [|h0 [|h1 [|h2 sh]]]; cbn [length] in Hdim; try lia;
    cbn [length Nat.leb Nat.eqb Nat.ltb];
    destruct d; run_flow; cbn -[last]; rewrite Hex; cbn -[last];
    unfold Os.getsize; rewrite Hfs; cbn -[last]; rewrite Hnot; cbn -[last];
    unfold Os.imread; rewrite Hfs; cbn -[last]; rewrite Hdec; cbn -[last];
    rewrite ?Hnb, ?Hfit; cbn -[last];
    eexists; (split; [reflexivity|]); cbn -[last];
    (split; [reflexivity|]); (split; [reflexivity|]);
    rewrite last_snoc; reflexivity.
Qed.

Lemma load_file_succeeds_witness :
  exists s',
    DataManager.load_file "stack.tif" Samples.fresh
    = (s', Returned (true, "Successfully loaded " +:+ Os.basename "stack.tif")) /\
    DataManager.data (DataManager.self s')
    = Val (astype float32 (if (ndim Samples.four_frames =? 2)%nat
                           then newaxis Samples.four_frames else Samples.four_frames)) /\
    DataManager.total_frames (DataManager.self s')
    = (if (ndim Samples.four_frames =? 2)%nat then 1%nat else shape0 Samples.four_frames) /\
    last (DataManager.progress_log (DataManager.self s')) = Some 100%Z.
Proof.
  apply (load_file_succeeds Samples.fresh "stack.tif" 8 true Samples.four_frames).
  - reflexivity.
  - discriminate.
  - reflexivity.
  - unfold ndim. cbn. lia.
  - discriminate.
Defined.

Lemma load_file_keeps_fs (s : DataManager.St) (path : string) :
  Os.fs (DataManager.world (fst (DataManager.load_file path s)))
  = Os.fs (DataManager.world s).
Proof.
  destruct s as [w m]. destruct m as [d r n fp tf sl pl].
  destruct d; load_cases; reflexivity.
Qed.

Lemma load_file_result_of_world (s1 s2 : DataManager.St) (path : string) :
  Os.fs (DataManager.world s1) = Os.fs (DataManager.world s2) ->
  Os.tiff_contents (DataManager.world s1) = Os.tiff_contents (DataManager.world s2) ->
  snd (DataManager.load_file path s1) = snd (DataManager.load_file path s2).
Proof.
  destruct s1 as [[fs1 tc1 wr1 lg1] m1]. destruct s2 as [[fs2 tc2 wr2 lg2] m2].
  cbn [DataManager.world Os.fs Os.tiff_contents]. intros <- <-.
  destruct m1 as [d1 r1 n1 fp1 tf1 sl1 pl1]. destruct m2 as [d2 r2 n2 fp2 tf2 sl2 pl2].
  unfold Os.exists_.
  destruct d1, d2; run_flow; unfold Os.exists_, Os.getsize, Os.imread;
    cbn -[String.append DataManager.MiB];
    repeat (io_case; cbn -[String.append DataManager.MiB] in * );
    reflexivity.
Qed.

(** X12.  The outcome of [load_file] depends on the file system and the
    decoder only, and [load_file] changes neither: calling it again with the
    same path, as the "try anyway" retry of the GUI does, returns the very
    same pair. *)
Theorem load_file_retry_returns_the_same (s : DataManager.St) (path : string) :
  snd (DataManager.load_file path (fst (DataManager.load_file path s)))
  = snd (DataManager.load_file path s).
Proof.
  apply load_file_result_of_world.
  - apply load_file_keeps_fs.
  - destruct s as [w m]. destruct m as [d r n fp tf sl pl].
    destruct d; load_cases; reflexivity.
Qed.

(** X13.  Without a result [save_result] fails at once and changes
    nothing.  With a result and a path ending in [.tif] or [.tiff] (in any
    letter case) it succeeds exactly when the path can be written: on
    success the file exists afterwards and no other path is touched;
    otherwise the error text is returned and the file system is as before. *)
Theorem save_result_spec (s : DataManager.St) (save_path : string) :
  match DataManager.sofi_result (DataManager.self s) with
  | None =>
      DataManager.save_result save_path s
      = (s, Returned (false, "No result to save. Please run SOFI analysis first."))
  | Some _ =>
      (Os.endswith (Os.lower save_path) ".tif"
       || Os.endswith (Os.lower save_path) ".tiff")%bool = true ->
      exists s',
        if Os.writable (DataManager.world s) save_path
        then
          DataManager.save_result save_path s
          = (s', Returned (true, "Successfully saved to " +:+ Os.basename save_path)) /\
          Os.exists_ (DataManager.world s') save_path = true /\
          (forall p, p <> save_path ->
                     Os.fs (DataManager.world s') !! p = Os.fs (DataManager.world s) !! p)
        else
          DataManager.save_result save_path s
          = (s', Returned (false, "Failed to save file: Permission denied: " +:+ save_path)) /\
          Os.fs (DataManager.world s') = Os.fs (DataManager.world s)
  end.
Proof.
  destruct s as [w m]. destruct m as [d r n fp tf sl pl].
  cbn [DataManager.self DataManager.sofi_result DataManager.world].
  destruct r as [img|]; [|reflexivity].
  intros Htiff.
  unfold DataManager.save_result, DataManager.save_result_body.
  run_flow. unfold Os.write. cbn -[String.append Os.endswith Os.lower].
  rewrite Htiff.
  destruct (Os.writable w save_path) eqn:Hw;
    cbn -[String.append Os.endswith Os.lower];
    eexists; (split; [reflexivity|]); cbn;
    try reflexivity;
    (split; [apply (exists_of_lookup _ _ _ (lookup_insert_eq _ _ _))|]);
    intros p Hp; apply lookup_insert_ne; congruence.
Qed.

Example save_result_upper_case_extension :
  snd (DataManager.save_result "OUT.TIF"
         (DataManager.MkSt Samples.disk
            (DataManager.set_sofi_result (Some Samples.cumulant2) DataManager.__init__)))
  = Returned (true, "Successfully saved to OUT.TIF").
Proof. vm_compute. reflexivity. Qed.

Lemma save_result_spec_witness :
  exists s',
    DataManager.save_result "OUT.TIF"
      (DataManager.MkSt Samples.disk
         (DataManager.set_sofi_result (Some Samples.cumulant2) DataManager.__init__))
    = (s', Returned (true, "Successfully saved to " +:+ Os.basename "OUT.TIF")) /\
    Os.exists_ (DataManager.world s') "OUT.TIF" = true /\
    (forall p, p <> "OUT.TIF" ->
               Os.fs (DataManager.world s') !! p = Os.fs Samples.disk !! p).
Proof.
  exact (save_result_spec
           (DataManager.MkSt Samples.disk
              (DataManager.set_sofi_result (Some Samples.cumulant2) DataManager.__init__))
           "OUT.TIF" eq_refl).
Defined.

(** *** A successful run *)

(** When the result stage falls through, it has stored an image. *)
Lemma result_stage_stores
    (lib : DataManager.Library) (p : DataManager.Parameters) (rs : DataManager.RunSt) :
  match DataManager.result_stage lib p rs with
  | (rs', Next _) =>
      exists img, DataManager.sofi_result (DataManager.self (DataManager.run_st rs')) = Some img
  | _ => True
  end.
Proof.
  destruct rs as [[w m] sf fl]. unfold DataManager.result_stage.
  run_unfold. cbn -[String.append].
  run_cases; first [exact I | eexists; reflexivity].
Qed.

(** X14.  Whenever [run_sofi] reports success, the image it returns is an
    actual image (never [None]) and is the one now stored in
    [sofi_result]; the list of tracked temporary files is empty; the last
    progress value reported is 100; and every failure met on the way --
    every raise of a library call or of the result extraction, caught or
    not -- was one of the three the code recovers from: an error of the
    weighting assignment, a [TypeError] of the first [cumulants_images]
    call, an error of [reconstruct_fourier]. *)
Theorem run_sofi_success
    (lib : DataManager.Library) (p : DataManager.Parameters) (s : DataManager.St) :
  match DataManager.run_sofi lib p s with
  | (s', failed, Returned (ok, msg, r)) =>
      ok = true ->
      (exists img, r = Some img /\
                   DataManager.sofi_result (DataManager.self s') = Some img) /\
      DataManager.temp_files (DataManager.self s') = [] /\
      last (DataManager.progress_log (DataManager.self s')) = Some 100%Z /\
      DataManager.all_recovered failed
  | (_, _, Propagated _) => True
  end.
Proof.
  destruct s as [w m].
  unfold DataManager.run_sofi, DataManager.run_sofi_body.
  destruct (DataManager.importable lib); top_simpl.
  2:{ intros H. discriminate. }
  run_unfold. top_simpl.
  destruct (DataManager.file_path m) as [| |path]; top_simpl.
  - exact I.
  - intros H. discriminate.
  - set (rs0 := DataManager.MkRun _ _ _).
    assert (H0 : DataManager.all_recovered (DataManager.failed_steps rs0))
      by apply all_recovered_nil.
    clearbody rs0.
    pose proof (load_stage_contract lib path rs0 H0) as C.
    destruct (DataManager.load_stage lib path rs0) as [rs1 [[]|r|e]].
    2:{ destruct r as [[ok msg] img]. destruct C as [(-> & _) _].
        intros H. discriminate. }
    2:{ run_cleanup. intros H. discriminate. }
    destruct C as [H1 _].
    pose proof (bleach_stage_contract lib p rs1 H1) as C.
    destruct (DataManager.bleach_stage lib p rs1) as [rs2 [[]|r|e]].
    2:{ destruct r as [[ok msg] img]. destruct C as [(-> & _) _].
        intros H. discriminate. }
    2:{ run_cleanup. intros H. discriminate. }
    destruct C as [H2 _].
    pose proof (drift_stage_contract lib p rs2 H2) as C.
    destruct (DataManager.drift_stage lib p rs2) as [rs3 [[]|r|e]].
    2:{ destruct r as [[ok msg] img]. destruct C as [(-> & _) _].
        intros H. discriminate. }
    2:{ run_cleanup. intros H. discriminate. }
    destruct C as [H3 _].
    pose proof (statistics_stage_contract lib p rs3 H3) as C.
    destruct (DataManager.statistics_stage lib p rs3) as [rs4 [[]|r|e]].
    2:{ destruct r as [[ok msg] img]. destruct C as [(-> & _) _].
        intros H. discriminate. }
    2:{ run_cleanup. intros H. discriminate. }
    destruct C as [H4 _].
    pose proof (result_stage_contract lib p rs4 H4) as C.
    pose proof (result_stage_stores lib p rs4) as S.
    destruct (DataManager.result_stage lib p rs4) as [rs5 [order'|r|e]].
    2:{ destruct r as [[ok msg] img]. destruct C as [(-> & _) _].
        intros H. discriminate. }
    2:{ run_cleanup. intros H. discriminate. }
    destruct C as [H5 _]. destruct S as [img Himg].
    run_cleanup. intros _.
    split; [exists img; split; exact Himg|].
    split; [reflexivity|].
    split; [|exact H5].
    cbn -[last]. apply last_snoc.
Qed.

Lemma run_sofi_success_witness :
  (exists img,
     Some Samples.cumulant2 = Some img /\
     DataManager.sofi_result (DataManager.self (fst (fst
       (DataManager.run_sofi (Samples.patched_library {[2%Z := Samples.cumulant2]})
          (Samples.params 2 false) Samples.with_path)))) = Some img) /\
  DataManager.temp_files (DataManager.self (fst (fst
    (DataManager.run_sofi (Samples.patched_library {[2%Z := Samples.cumulant2]})
       (Samples.params 2 false) Samples.with_path)))) = [] /\
  last (DataManager.progress_log (DataManager.self (fst (fst
    (DataManager.run_sofi (Samples.patched_library {[2%Z := Samples.cumulant2]})
       (Samples.params 2 false) Samples.with_path))))) = Some 100%Z /\
  DataManager.all_recovered (snd (fst
    (DataManager.run_sofi (Samples.patched_library {[2%Z := Samples.cumulant2]})
       (Samples.params 2 false) Samples.with_path))).
Proof.
  pose proof (run_sofi_success (Samples.patched_library {[2%Z := Samples.cumulant2]})
                (Samples.params 2 false) Samples.with_path) as H.
  assert (E : snd (DataManager.run_sofi (Samples.patched_library {[2%Z := Samples.cumulant2]})
                     (Samples.params 2 false) Samples.with_path)
              = Returned (true, "Successfully completed 2-order SOFI analysis",
                          Some Samples.cumulant2))
    by (vm_compute; reflexivity).
  destruct (DataManager.run_sofi (Samples.patched_library {[2%Z := Samples.cumulant2]})
              (Samples.params 2 false) Samples.with_path) as [[s' failed] out].
  cbn [fst snd] in *. subst out. apply H. reflexivity.
Defined.

(* ===================================================================== *)
(** ** Further properties of [DataVisualizer] *)
(* ===================================================================== *)

Ltac vis_cases :=
  repeat match goal with
         | |- context [match ?x with _ => _ end] =>
             lazymatch x with
             | context [match _ with _ => _ end] => fail
             | _ => destruct x eqn:?
             end
         | |- context [if ?x then _ else _] =>
             lazymatch x with
             | context [if _ then _ else _] => fail
             | _ => destruct x eqn:?
             end
         end.

Lemma in_range_spec (v : Visualizer.DataVisualizer) (idx : Z) :
  Visualizer.in_range v idx = true <-> (0 <= idx < Visualizer.total_frames v)%Z.
Proof.
  unfold Visualizer.in_range. rewrite andb_true_iff, Z.leb_le, Z.ltb_lt. reflexivity.
Qed.

(** Only [total_frames] matters to [in_range]. *)
Lemma in_range_total (v v' : Visualizer.DataVisualizer) (idx : Z) :
  Visualizer.total_frames v' = Visualizer.total_frames v ->
  Visualizer.in_range v' idx = Visualizer.in_range v idx.
Proof. intros H. unfold Visualizer.in_range. rewrite H. reflexivity. Qed.

Lemma shows_a_frame_after (v v' : Visualizer.DataVisualizer) :
  Visualizer.total_frames v' = Visualizer.total_frames v ->
  Visualizer.data v' = Visualizer.data v ->
  Visualizer.shown v' = Visualizer.shown v ->
  Visualizer.in_range v (Visualizer.current_frame v') = true ->
  Visualizer.shows_a_frame v ->
  Visualizer.shows_a_frame v'.
Proof.
  intros Hn Hd Hsh Hc [_ Hs]. split.
  - rewrite (in_range_total v v' _ Hn). exact Hc.
  - rewrite Hd, Hsh. intros Hne. destruct (Hs Hne) as (i & Hi & Hr).
    exists i. split; [exact Hi|]. rewrite (in_range_total v v' _ Hn). exact Hr.
Qed.

Lemma display_frame_shows (v : Visualizer.DataVisualizer) (idx : Z) :
  Visualizer.shows_a_frame v ->
  Visualizer.shows_a_frame (Visualizer.display_frame v idx) /\
  Visualizer.total_frames (Visualizer.display_frame v idx) = Visualizer.total_frames v /\
  Visualizer.data (Visualizer.display_frame v idx) = Visualizer.data v.
Proof.
  intros Hv. destruct v as [sofi d c n pl pb sl fc id sh].
  unfold Visualizer.display_frame. cbn.
  destruct d as [a|]; [|split; [exact Hv | split; reflexivity]].
  destruct (n =? 0)%Z; [split; [exact Hv | split; reflexivity]|].
  destruct (Visualizer.in_range _ idx) eqn:Hi; cbn;
    [|split; [exact Hv | split; reflexivity]].
  assert (Hok : forall fc', Visualizer.shows_a_frame
                  (Visualizer.Mk sofi (Some a) idx n pl pb sl fc' id (Some idx))).
  { intros fc'. split; [exact Hi|]. intros _. exists idx. split; [reflexivity | exact Hi]. }
  destruct sofi; cbn; [|destruct fc; cbn]; (split; [apply Hok | split; reflexivity]).
Qed.

Lemma handle_shows (v : Visualizer.DataVisualizer) (e : Visualizer.event) :
  Visualizer.shows_a_frame v ->
  Visualizer.shows_a_frame (Visualizer.handle v e) /\
  Visualizer.total_frames (Visualizer.handle v e) = Visualizer.total_frames v /\
  Visualizer.data (Visualizer.handle v e) = Visualizer.data v.
Proof.
  intros Hv. pose proof (proj1 (in_range_spec _ _) (proj1 Hv)) as Hc.
  assert (Hthen : forall w idx,
            Visualizer.total_frames w = Visualizer.total_frames v ->
            Visualizer.data w = Visualizer.data v ->
            Visualizer.shown w = Visualizer.shown v ->
            Visualizer.in_range v (Visualizer.current_frame w) = true ->
            Visualizer.shows_a_frame (Visualizer.display_frame w idx) /\
            Visualizer.total_frames (Visualizer.display_frame w idx)
            = Visualizer.total_frames v /\
            Visualizer.data (Visualizer.display_frame w idx) = Visualizer.data v).
  { intros w idx Hn Hd Hsh Hin.
    destruct (display_frame_shows w idx (shows_a_frame_after v w Hn Hd Hsh Hin Hv))
      as (H1 & H2 & H3).
    split; [exact H1|]. split; [rewrite H2; exact Hn | rewrite H3; exact Hd]. }
  destruct e as [| | |pos| | |idx|idx]; cbn [Visualizer.handle].
  - (* prev_frame *)
    unfold Visualizer.prev_frame. cbn zeta.
    apply Hthen; try (destruct v as [sofi d c n pl pb [s|] fc id sh]; reflexivity).
    apply in_range_spec.
    destruct v as [sofi d c n pl pb [s|] fc id sh]; cbn in *; lia.
  - (* next_frame *)
    unfold Visualizer.next_frame. cbn zeta.
    apply Hthen; try (destruct v as [sofi d c n pl pb [s|] fc id sh]; reflexivity).
    apply in_range_spec.
    destruct v as [sofi d c n pl pb [s|] fc id sh]; cbn in *; lia.
  - (* play_pause *)
    unfold Visualizer.play_pause.
    destruct v as [sofi d c n pl [|] sl fc id sh]; destruct pl; cbn;
      (split; [exact Hv | split; reflexivity]).
  - (* the slider is dragged *)
    destruct v as [sofi d c n pl pb [s|] fc id sh]; cbn;
      (split; [exact Hv | split; reflexivity]).
  - (* on_slider_release *)
    unfold Visualizer.on_slider_release.
    destruct (Visualizer.frame_slider v) as [pos|];
      [|split; [exact Hv | split; reflexivity]].
    cbn zeta.
    destruct (Visualizer.slider_update_id v); cbn zeta;
      match goal with
      | |- context [if ?b then _ else _] => destruct b eqn:Hin
      end;
      first [ apply Hthen; first [reflexivity | exact Hin]
            | split; [apply (shows_a_frame_after v); first [reflexivity | exact (proj1 Hv) | exact Hv]
                     | split; reflexivity] ].
  - (* _update_frame_from_slider *)
    unfold Visualizer._update_frame_from_slider. cbn zeta.
    destruct (Visualizer.frame_slider (Visualizer.with_update_id v None)) as [pos|];
      [|split; [apply (shows_a_frame_after v); first [reflexivity | exact (proj1 Hv) | exact Hv]
               | split; reflexivity]].
    match goal with
    | |- context [if ?b then _ else _] => destruct b eqn:Hin
    end;
      first [ apply Hthen; first [reflexivity | exact Hin]
            | split; [apply (shows_a_frame_after v); first [reflexivity | exact (proj1 Hv) | exact Hv]
                     | split; reflexivity] ].
  - (* update_ui_for_frame *)
    unfold Visualizer.update_ui_for_frame. cbn zeta.
    apply Hthen; try (destruct v as [sofi d c n pl pb [s|] fc id sh]; reflexivity).
    destruct v as [sofi d c n pl pb [s|] fc id sh]; exact (proj1 Hv).
  - (* display_frame *)
    apply display_frame_shows. exact Hv.
Qed.

Lemma counter_in_range_total
    (v v' : Visualizer.DataVisualizer) (a : Visualizer.animation) :
  Visualizer.total_frames v' = Visualizer.total_frames v ->
  Visualizer.counter_in_range v a -> Visualizer.counter_in_range v' a.
Proof.
  intros H. destruct a; cbn; try rewrite H; try rewrite (in_range_total v v' _ H);
    intros Ha; exact Ha.
Qed.

Lemma counters_in_range_total
    (v v' : Visualizer.DataVisualizer) (l : list Visualizer.animation) :
  Visualizer.total_frames v' = Visualizer.total_frames v ->
  Forall (Visualizer.counter_in_range v) l -> Forall (Visualizer.counter_in_range v') l.
Proof.
  intros H Hl. eapply Forall_impl; [exact Hl|].
  intros a. apply counter_in_range_total. exact H.
Qed.

Lemma at_point_on_the_stack
    (pl : Visualizer.Player) (i : nat) (a : Visualizer.animation) :
  Visualizer.on_the_stack pl ->
  Visualizer.counter_in_range (Visualizer.visualizer pl) a ->
  Visualizer.on_the_stack (Visualizer.at_point pl i a) /\
  Visualizer.total_frames (Visualizer.visualizer (Visualizer.at_point pl i a))
  = Visualizer.total_frames (Visualizer.visualizer pl) /\
  Visualizer.data (Visualizer.visualizer (Visualizer.at_point pl i a))
  = Visualizer.data (Visualizer.visualizer pl).
Proof.
  intros [Hv Hl] Ha. split; [|split; reflexivity]. split; [exact Hv|].
  apply Forall_insert; assumption.
Qed.

Lemma caught_on_the_stack (pl : Visualizer.Player) (i : nat) :
  Visualizer.on_the_stack pl ->
  Visualizer.on_the_stack (Visualizer.caught pl i) /\
  Visualizer.total_frames (Visualizer.visualizer (Visualizer.caught pl i))
  = Visualizer.total_frames (Visualizer.visualizer pl) /\
  Visualizer.data (Visualizer.visualizer (Visualizer.caught pl i))
  = Visualizer.data (Visualizer.visualizer pl).
Proof.
  intros [Hv Hl]. destruct pl as [v tid l sched].
  cbn [Visualizer.visualizer Visualizer.animations] in *.
  unfold Visualizer.caught. cbn [Visualizer.visualizer Visualizer.animations].
  split; [|split; destruct v; reflexivity]. split.
  - apply (shows_a_frame_after v); try (destruct v; reflexivity); [|exact Hv].
    destruct v; exact (proj1 Hv).
  - apply Forall_insert; [|exact I].
    apply (counters_in_range_total v); [destruct v; reflexivity | exact Hl].
Qed.

Lemma advance_on_the_stack
    (pl : Visualizer.Player) (i now : nat) (window : Visualizer.tk) :
  Visualizer.on_the_stack pl ->
  Visualizer.on_the_stack (Visualizer.advance pl i now window) /\
  Visualizer.total_frames (Visualizer.visualizer (Visualizer.advance pl i now window))
  = Visualizer.total_frames (Visualizer.visualizer pl) /\
  Visualizer.data (Visualizer.visualizer (Visualizer.advance pl i now window))
  = Visualizer.data (Visualizer.visualizer pl).
Proof.
  intros Hpl. pose proof Hpl as [Hv Hl].
  unfold Visualizer.advance. cbn zeta.
  destruct (Visualizer.animations pl !! i) as [a|] eqn:Hi;
    [|split; [exact Hpl | split; reflexivity]].
  pose proof (Forall_lookup_1 _ _ _ _ Hl Hi) as Ha.
  destruct a as [|c|t c|t c|t c|t c|c|]; cbn [Visualizer.counter_in_range] in Ha.
  - (* the thread reads the current frame *)
    apply at_point_on_the_stack; [exact Hpl | exact (proj1 Hv)].
  - (* the thread takes its id *)
    split; [|split; reflexivity]. split; [exact Hv|].
    apply Forall_insert; [exact Hl | exact Ha].
  - (* the test of the loop *)
    destruct (Visualizer.is_playing _ && (c <? _)%Z)%bool eqn:Htest.
    + apply andb_true_iff in Htest. destruct Htest as [_ Hlt].
      apply Z.ltb_lt in Hlt. apply in_range_spec in Ha.
      destruct window;
        [ apply at_point_on_the_stack; [exact Hpl | cbn; lia]
        | apply at_point_on_the_stack; [exact Hpl | exact I]
        | apply caught_on_the_stack; exact Hpl ].
    + apply at_point_on_the_stack; [exact Hpl | exact I].
  - (* the thread id is compared *)
    destruct (bool_decide _);
      apply at_point_on_the_stack; first [exact Hpl | exact Ha | exact I].
  - (* the counter is stepped and stored *)
    destruct pl as [v tid l sched].
    cbn [Visualizer.visualizer Visualizer.animations Visualizer.play_thread_id
         Visualizer.scheduled] in *.
    assert (Hin : Visualizer.in_range v (c + 1) = true) by (apply in_range_spec; lia).
    split; [|split; destruct v; reflexivity]. split.
    + apply (shows_a_frame_after v); try (destruct v; reflexivity); [|exact Hv].
      destruct v; exact Hin.
    + apply Forall_insert.
      * apply (counters_in_range_total v); [destruct v; reflexivity | exact Hl].
      * cbn. rewrite (in_range_total v); [exact Hin | destruct v; reflexivity].
  - (* the redraw is scheduled *)
    destruct window; try (apply caught_on_the_stack; exact Hpl);
      (split; [|split; reflexivity]); (split; [exact Hv|]);
      (apply Forall_insert; [exact Hl | exact Ha]).
  - (* after the loop *)
    destruct (_ <=? c)%Z; [destruct window|];
      first [ apply caught_on_the_stack; exact Hpl
            | apply at_point_on_the_stack; [exact Hpl | exact I] ].
  - split; [exact Hpl | split; reflexivity].
Qed.

Lemma play_on_the_stack (pl : Visualizer.Player) (m : Visualizer.move) :
  Visualizer.on_the_stack pl ->
  Visualizer.on_the_stack (Visualizer.play pl m) /\
  Visualizer.total_frames (Visualizer.visualizer (Visualizer.play pl m))
  = Visualizer.total_frames (Visualizer.visualizer pl) /\
  Visualizer.data (Visualizer.visualizer (Visualizer.play pl m))
  = Visualizer.data (Visualizer.visualizer pl).
Proof.
  intros Hpl. destruct m as [e| |i now window]; cbn [Visualizer.play].
  - destruct Hpl as [Hv Hl]. cbn zeta.
    destruct (handle_shows _ e Hv) as (H1 & H2 & H3).
    cbn [Visualizer.visualizer Visualizer.animations].
    split; [|split; assumption]. split; [exact H1|].
    apply Forall_app. split.
    + apply (counters_in_range_total (Visualizer.visualizer pl)); assumption.
    + destruct e; try constructor.
      destruct (_ && _)%bool; repeat constructor.
  - cbn zeta. destruct (Visualizer.scheduled pl) as [|f rest];
      [split; [exact Hpl | split; reflexivity]|].
    destruct Hpl as [Hv Hl].
    destruct (handle_shows _ (Visualizer.UpdateUi f) Hv) as (H1 & H2 & H3).
    cbn [Visualizer.handle] in *. cbn [Visualizer.visualizer Visualizer.animations].
    split; [|split; assumption]. split; [exact H1|].
    apply (counters_in_range_total (Visualizer.visualizer pl)); assumption.
  - apply advance_on_the_stack. exact Hpl.
Qed.

(** X16.  Playback and navigation never leave the stack.  However the
    handler calls of the main loop ([prev_frame], [next_frame],
    [play_pause], slider drags, releases and timer callbacks,
    [update_ui_for_frame], [display_frame] with any index), the scheduled
    redraws and the steps of the playback threads started by [play_pause]
    interleave, [current_frame] is always a frame index of the stack, so
    is the frame on the canvas when there is data, so is the counter of
    every playback thread, and neither [data] nor [total_frames] is
    changed. *)
Theorem playback_stays_on_the_stack
    (ms : list Visualizer.move) (pl : Visualizer.Player) :
  Visualizer.on_the_stack pl ->
  Visualizer.on_the_stack (Visualizer.play_all pl ms) /\
  Visualizer.total_frames (Visualizer.visualizer (Visualizer.play_all pl ms))
  = Visualizer.total_frames (Visualizer.visualizer pl) /\
  Visualizer.data (Visualizer.visualizer (Visualizer.play_all pl ms))
  = Visualizer.data (Visualizer.visualizer pl).
Proof.
  revert pl. induction ms as [|m ms IH]; intros pl Hpl.
  - split; [exact Hpl | split; reflexivity].
  - destruct (play_on_the_stack pl m Hpl) as (H1 & H2 & H3).
    destruct (IH (Visualizer.play pl m) H1) as (I1 & I2 & I3).
    unfold Visualizer.play_all in *. cbn [fold_left].
    split; [exact I1|]. split; [rewrite I2; exact H2 | rewrite I3; exact H3].
Qed.

Lemma playback_stays_on_the_stack_witness :
  Visualizer.on_the_stack (Visualizer.play_all Samples.paused_player Samples.a_playback) /\
  Visualizer.total_frames
    (Visualizer.visualizer (Visualizer.play_all Samples.paused_player Samples.a_playback))
  = Visualizer.total_frames (Visualizer.visualizer Samples.paused_player) /\
  Visualizer.data
    (Visualizer.visualizer (Visualizer.play_all Samples.paused_player Samples.a_playback))
  = Visualizer.data (Visualizer.visualizer Samples.paused_player).
Proof.
  apply (playback_stays_on_the_stack Samples.a_playback Samples.paused_player).
  split.
  - split; [reflexivity|]. intros _. exists 0%Z. split; reflexivity.
  - constructor.
Defined.

(** The thread stores its counter before the redraw it schedules has run:
    in between, the current frame is not the one on the canvas. *)
Example playback_runs_ahead_of_the_canvas :
  Visualizer.current_frame
    (Visualizer.visualizer (Visualizer.play_all Samples.paused_player Samples.a_playback))
  = 1%Z /\
  Visualizer.shown
    (Visualizer.visualizer (Visualizer.play_all Samples.paused_player Samples.a_playback))
  = Some 0%Z /\
  Visualizer.scheduled (Visualizer.play_all Samples.paused_player Samples.a_playback)
  = [1%Z].
Proof. repeat split; vm_compute; reflexivity. Qed.

(** Without frames [next_frame] leaves the range: on a visualizer as
    [__init__] builds it, pressing "next" sets [current_frame] to -1. *)
Example next_frame_without_frames :
  Visualizer.current_frame
    (Visualizer.next_frame
       (Visualizer.Mk false None 0 0 false true None None None None)) = (-1)%Z.
Proof. reflexivity. Qed.

Lemma display_frame_current (v : Visualizer.DataVisualizer) :
  Visualizer.current_frame (Visualizer.display_frame v (Visualizer.current_frame v))
  = Visualizer.current_frame v.
Proof. apply display_frame_sets_current. reflexivity. Qed.

Lemma prev_frame_current (v : Visualizer.DataVisualizer) :
  Visualizer.current_frame (Visualizer.prev_frame v)
  = Z.max 0 (Visualizer.current_frame v - 1) /\
  Visualizer.total_frames (Visualizer.prev_frame v) = Visualizer.total_frames v.
Proof.
  unfold Visualizer.prev_frame. cbn zeta. rewrite display_frame_current.
  destruct v as [sofi d c n pl pb [s|] fc id sh]; cbn; (split; [reflexivity|]);
    unfold Visualizer.display_frame; cbn; vis_cases; reflexivity.
Qed.

Lemma next_frame_current (v : Visualizer.DataVisualizer) :
  Visualizer.current_frame (Visualizer.next_frame v)
  = Z.min (Visualizer.total_frames v - 1) (Visualizer.current_frame v + 1) /\
  Visualizer.total_frames (Visualizer.next_frame v) = Visualizer.total_frames v.
Proof.
  unfold Visualizer.next_frame. cbn zeta. rewrite display_frame_current.
  destruct v as [sofi d c n pl pb [s|] fc id sh]; cbn; (split; [reflexivity|]);
    unfold Visualizer.display_frame; cbn; vis_cases; reflexivity.
Qed.

(** X17.  On a visualizer whose current frame is a frame of the stack,
    stepping back and then forward returns to the same frame unless it was
    the first one, stepping forward and then back returns to it unless it
    was the last one; at the first frame [prev_frame], and at the last
    frame [next_frame], leave the current frame where it is. *)
Theorem prev_next_round_trip (v : Visualizer.DataVisualizer) :
  Visualizer.in_range v (Visualizer.current_frame v) = true ->
  ((0 < Visualizer.current_frame v)%Z ->
   Visualizer.current_frame (Visualizer.next_frame (Visualizer.prev_frame v))
   = Visualizer.current_frame v) /\
  ((Visualizer.current_frame v < Visualizer.total_frames v - 1)%Z ->
   Visualizer.current_frame (Visualizer.prev_frame (Visualizer.next_frame v))
   = Visualizer.current_frame v) /\
  (Visualizer.current_frame v = 0%Z ->
   Visualizer.current_frame (Visualizer.prev_frame v) = 0%Z) /\
  (Visualizer.current_frame v = (Visualizer.total_frames v - 1)%Z ->
   Visualizer.current_frame (Visualizer.next_frame v) = Visualizer.current_frame v).
Proof.
  intros Hr. apply in_range_spec in Hr.
  destruct (prev_frame_current v) as [Hp Hpn].
  destruct (next_frame_current v) as [Hx Hxn].
  destruct (next_frame_current (Visualizer.prev_frame v)) as [Hxp _].
  destruct (prev_frame_current (Visualizer.next_frame v)) as [Hpx _].
  repeat split; intros H.
  - rewrite Hxp, Hpn, Hp. lia.
  - rewrite Hpx, Hx. lia.
  - rewrite Hp. lia.
  - rewrite Hx. lia.
Qed.

Lemma prev_next_round_trip_witness :
  Visualizer.in_range (Visualizer.next_frame Samples.playing_visualizer)
    (Visualizer.current_frame (Visualizer.next_frame Samples.playing_visualizer)) = true /\
  Visualizer.current_frame
    (Visualizer.next_frame
       (Visualizer.prev_frame (Visualizer.next_frame Samples.playing_visualizer)))
  = Visualizer.current_frame (Visualizer.next_frame Samples.playing_visualizer) /\
  Visualizer.current_frame
    (Visualizer.prev_frame
       (Visualizer.next_frame (Visualizer.next_frame Samples.playing_visualizer)))
  = Visualizer.current_frame (Visualizer.next_frame Samples.playing_visualizer).
Proof.
  split; [reflexivity|].
  destruct (prev_next_round_trip (Visualizer.next_frame Samples.playing_visualizer) eq_refl)
    as (H1 & H2 & _ & _).
  split; [apply H1 | apply H2]; vm_compute; reflexivity.
Defined.

(** *** What a run leaves alone *)

Ltac close_same := unfold DataManager.same_inputs; cbn; repeat split; reflexivity.

Lemma load_stage_same_inputs
    (lib : DataManager.Library) (path : string) (rs : DataManager.RunSt) :
  DataManager.same_inputs (DataManager.run_st rs)
    (DataManager.run_st (fst (DataManager.load_stage lib path rs))).
Proof.
  destruct rs as [[w m] sf fl]. unfold DataManager.load_stage.
  run_unfold. unfold Os.imread. cbn -[String.append].
  run_cases; close_same.
Qed.

Lemma bleach_stage_same_inputs
    (lib : DataManager.Library) (p : DataManager.Parameters) (rs : DataManager.RunSt) :
  DataManager.same_inputs (DataManager.run_st rs)
    (DataManager.run_st (fst (DataManager.bleach_stage lib p rs))).
Proof.
  destruct rs as [[w m] sf fl]. unfold DataManager.bleach_stage.
  run_unfold. cbn -[String.append].
  run_cases; close_same.
Qed.

Lemma drift_stage_same_inputs
    (lib : DataManager.Library) (p : DataManager.Parameters) (rs : DataManager.RunSt) :
  DataManager.same_inputs (DataManager.run_st rs)
    (DataManager.run_st (fst (DataManager.drift_stage lib p rs))).
Proof.
  destruct rs as [[w m] sf fl]. unfold DataManager.drift_stage.
  run_unfold. cbn -[String.append].
  run_cases; close_same.
Qed.

Lemma statistics_stage_same_inputs
    (lib : DataManager.Library) (p : DataManager.Parameters) (rs : DataManager.RunSt) :
  DataManager.same_inputs (DataManager.run_st rs)
    (DataManager.run_st (fst (DataManager.statistics_stage lib p rs))).
Proof.
  destruct rs as [[w m] sf fl]. unfold DataManager.statistics_stage.
  run_unfold. cbn -[String.append].
  run_cases; close_same.
Qed.

Lemma result_stage_same_inputs
    (lib : DataManager.Library) (p : DataManager.Parameters) (rs : DataManager.RunSt) :
  DataManager.same_inputs (DataManager.run_st rs)
    (DataManager.run_st (fst (DataManager.result_stage lib p rs))).
Proof.
  destruct rs as [[w m] sf fl]. unfold DataManager.result_stage.
  run_unfold. cbn -[String.append].
  run_cases; close_same.
Qed.

Lemma same_inputs_trans (s1 s2 s3 : DataManager.St) :
  DataManager.same_inputs s1 s2 -> DataManager.same_inputs s2 s3 ->
  DataManager.same_inputs s1 s3.
Proof.
  unfold DataManager.same_inputs.
  intros (A1 & A2 & A3 & A4 & A5 & A6 & A7) (B1 & B2 & B3 & B4 & B5 & B6 & B7).
  repeat split; etransitivity; eassumption.
Qed.

(** The footprint on the file system and on the manager's inputs. *)
Lemma footprint_unchanged (s x : DataManager.St) :
  DataManager.same_inputs s x ->
  DataManager.data (DataManager.self x) = DataManager.data (DataManager.self s) /\
  DataManager.total_frames (DataManager.self x)
  = DataManager.total_frames (DataManager.self s) /\
  DataManager.file_path (DataManager.self x) = DataManager.file_path (DataManager.self s) /\
  forall q,
    Os.fs (DataManager.world x) !! q = Os.fs (DataManager.world s) !! q \/
    (q ∈ DataManager.temp_files (DataManager.self s) /\
     Os.fs (DataManager.world x) !! q = None).
Proof.
  intros (A1 & A2 & A3 & A4 & A5 & _).
  repeat split; try assumption. intros q. left. rewrite A5. reflexivity.
Qed.

Lemma footprint_cleaned (s x : DataManager.St) (w' : Os.World) (q : string) :
  DataManager.same_inputs s x ->
  Os.fs w' !! q
  = DataManager.fs_after_cleanup (DataManager.temp_files (DataManager.self x))
      (DataManager.world x) q ->
  Os.fs w' !! q = Os.fs (DataManager.world s) !! q \/
  (q ∈ DataManager.temp_files (DataManager.self s) /\ Os.fs w' !! q = None).
Proof.
  intros (_ & _ & _ & A4 & A5 & _) H. rewrite H.
  unfold DataManager.fs_after_cleanup. rewrite A4, A5.
  destruct (Os.fs (DataManager.world s) !! q) as [[sz [|]|]|]; try (left; reflexivity).
  destruct (decide (q ∈ DataManager.temp_files (DataManager.self s))) as [Hin|Hnin].
  - rewrite bool_decide_eq_true_2 by exact Hin. right. split; [exact Hin | reflexivity].
  - rewrite bool_decide_eq_false_2 by exact Hnin. left. reflexivity.
Qed.

Ltac after_cleanup S s0 :=
  match goal with
  | |- context [DataManager._cleanup_temp_files ?x] =>
      let w' := fresh "w'" in
      let Hc := fresh "Hc" in
      let Hfs := fresh "Hfs" in
      destruct (cleanup_runs DataManager.Res x) as (w' & Hc & Hfs);
      rewrite Hc; clear Hc; top_simpl;
      pose proof S as (A1 & A2 & A3 & _);
      (split; [exact A1|]); (split; [exact A2|]); (split; [exact A3|]);
      intros q; exact (footprint_cleaned s0 x w' q S (Hfs q))
  end.

(** X18.  Whatever the PySOFI methods do to their [PysofiData] object and
    however the run ends, [run_sofi]
    leaves the loaded stack ([data]), [total_frames] and [file_path] as
    they were, and on the file system it does nothing but remove tracked
    temporary files: every path is either as before or was tracked in
    [temp_files] and is gone. *)
Theorem run_sofi_footprint
    (lib : DataManager.Library) (p : DataManager.Parameters) (s : DataManager.St) :
  match DataManager.run_sofi lib p s with
  | (s', _, _) =>
      DataManager.data (DataManager.self s') = DataManager.data (DataManager.self s) /\
      DataManager.total_frames (DataManager.self s')
      = DataManager.total_frames (DataManager.self s) /\
      DataManager.file_path (DataManager.self s')
      = DataManager.file_path (DataManager.self s) /\
      forall q,
        Os.fs (DataManager.world s') !! q = Os.fs (DataManager.world s) !! q \/
        (q ∈ DataManager.temp_files (DataManager.self s) /\
         Os.fs (DataManager.world s') !! q = None)
  end.
Proof.
  destruct s as [w m].
  unfold DataManager.run_sofi, DataManager.run_sofi_body.
  destruct (DataManager.importable lib); top_simpl.
  2:{ apply (footprint_unchanged (DataManager.MkSt w m) (DataManager.MkSt w m)). close_same. }
  run_unfold. top_simpl.
  destruct (DataManager.file_path m) as [| |path] eqn:Hfp; top_simpl.
  - split; [reflexivity|]. split; [reflexivity|]. split; [exact Hfp|].
    intros q. left. reflexivity.
  - split; [reflexivity|]. split; [reflexivity|]. split; [exact Hfp|].
    intros q. left. reflexivity.
  - rewrite <- Hfp.
    set (rs0 := DataManager.MkRun _ _ _).
    assert (S0 : DataManager.same_inputs (DataManager.MkSt w m) (DataManager.run_st rs0))
      by close_same.
    clearbody rs0.
    pose proof (same_inputs_trans _ _ _ S0 (load_stage_same_inputs lib path rs0)) as S1.
    destruct (DataManager.load_stage lib path rs0) as [rs1 [[]|r|e]]; cbn [fst] in S1.
    2:{ exact (footprint_unchanged (DataManager.MkSt w m) _ S1). }
    2:{ after_cleanup S1 (DataManager.MkSt w m). }
    pose proof (same_inputs_trans _ _ _ S1 (bleach_stage_same_inputs lib p rs1)) as S2.
    destruct (DataManager.bleach_stage lib p rs1) as [rs2 [[]|r|e]]; cbn [fst] in S2.
    2:{ exact (footprint_unchanged (DataManager.MkSt w m) _ S2). }
    2:{ after_cleanup S2 (DataManager.MkSt w m). }
    pose proof (same_inputs_trans _ _ _ S2 (drift_stage_same_inputs lib p rs2)) as S3.
    destruct (DataManager.drift_stage lib p rs2) as [rs3 [[]|r|e]]; cbn [fst] in S3.
    2:{ exact (footprint_unchanged (DataManager.MkSt w m) _ S3). }
    2:{ after_cleanup S3 (DataManager.MkSt w m). }
    pose proof (same_inputs_trans _ _ _ S3 (statistics_stage_same_inputs lib p rs3)) as S4.
    destruct (DataManager.statistics_stage lib p rs3) as [rs4 [[]|r|e]]; cbn [fst] in S4.
    2:{ exact (footprint_unchanged (DataManager.MkSt w m) _ S4). }
    2:{ after_cleanup S4 (DataManager.MkSt w m). }
    pose proof (same_inputs_trans _ _ _ S4 (result_stage_same_inputs lib p rs4)) as S5.
    destruct (DataManager.result_stage lib p rs4) as [rs5 [order'|r|e]]; cbn [fst] in S5.
    2:{ exact (footprint_unchanged (DataManager.MkSt w m) _ S5). }
    2:{ after_cleanup S5 (DataManager.MkSt w m). }
    after_cleanup S5 (DataManager.MkSt w m).
Qed.

Example run_sofi_removes_tracked_files :
  Os.exists_
    (DataManager.world (fst (fst
       (DataManager.run_sofi (Samples.patched_library {[2%Z := Samples.cumulant2]})
          (Samples.params 2 false)
          (DataManager.MkSt Samples.disk
             (DataManager.set_temp_files ["scratch.tmp"]
                (DataManager.set_file_path (Val "stack.tif") DataManager.__init__)))))))
    "scratch.tmp" = false.
Proof. vm_compute. reflexivity. Qed.

(* ===================================================================== *)
(** ** The window: run parameters and dropped paths *)
(* ===================================================================== *)

(** X19.  Of the seven entries the window puts into the parameter dict,
    [run_sofi] finds three: [order], [bleach_correction] and
    [drift_correction].  The weighting is stored under [weight] and the
    deconvolution flag under [deconvolution], while [run_sofi] looks up
    [weighting] and [deconv]: whatever is selected in the window, the run
    uses the defaults, ['tvmoments'] and no deconvolution. *)
Theorem gui_parameters_as_read_by_run_sofi
    (order frames : Z) (method weight : string) (bleach drift deconv : bool) :
  exists p,
    Gui.as_read_by_run_sofi (Gui.parameters order frames method weight bleach drift deconv)
    = Some p /\
    DataManager.p_order p = Some order /\
    DataManager.p_bleach_correction p = Some bleach /\
    DataManager.p_drift_correction p = Some drift /\
    DataManager.get_or (DataManager.p_weighting p) "tvmoments" = "tvmoments" /\
    DataManager.get_or (DataManager.p_deconv p) false = false.
Proof.
  eexists. split.
  - unfold Gui.as_read_by_run_sofi, Gui.parameters, Gui.dict_get.
    repeat first [ rewrite lookup_insert_eq
                 | rewrite lookup_insert_ne by discriminate
                 | rewrite lookup_empty ].
    reflexivity.
  - cbn. repeat split; reflexivity.
Qed.

(** *** Dropped paths *)

Lemma no_space_in_words (l : Gui.str) :
  Forall (fun c => Gui.isspace c = false) l -> Gui.contains l Gui.space = false.
Proof.
  induction 1 as [|c l Hc _ IH]; [reflexivity|].
  unfold Gui.contains in *. cbn [existsb]. rewrite IH, orb_false_r.
  destruct (N.eqb_spec Gui.space c) as [<-|]; [discriminate Hc | reflexivity].
Qed.

(** The first word [split_from] yields, when it is reading [word] and
    [path] is still ahead. *)
Lemma split_from_first (path : Gui.str) :
  forall word,
    Forall (fun c => Gui.isspace c = false) word ->
    match Gui.split_from word path with
    | [] => word = [] /\ Forall (fun c => Gui.isspace c = true) path
    | first :: _ =>
        first <> [] /\
        Forall (fun c => Gui.isspace c = false) first /\
        exists pre post,
          (rev word ++ path)%list = (pre ++ first ++ post)%list /\
          Forall (fun c => Gui.isspace c = true) pre /\
          match post with
          | [] => True
          | c :: _ => Gui.isspace c = true
          end
    end.
Proof.
  induction path as [|c rest IH]; intros word Hword.
  - destruct word as [|x word]; cbn [Gui.split_from]; [split; constructor|].
    split; [|split].
    + intros H. apply (f_equal (@length N)) in H.
      rewrite length_rev in H. discriminate.
    + apply Forall_rev. exact Hword.
    + exists [], []. rewrite !app_nil_r. repeat split. constructor.
  - cbn [Gui.split_from]. destruct (Gui.isspace c) eqn:Hc.
    + destruct word as [|x word].
      * specialize (IH [] Hword).
        destruct (Gui.split_from [] rest) as [|first others].
        -- destruct IH as [_ IH]. split; [reflexivity | constructor; assumption].
        -- destruct IH as (H1 & H2 & pre & post & Heq & Hpre & Hpost).
           split; [exact H1|]. split; [exact H2|].
           exists (c :: pre), post. cbn in *. rewrite Heq.
           split; [reflexivity|]. split; [constructor; assumption | exact Hpost].
      * split; [|split].
        -- intros H. apply (f_equal (@length N)) in H.
           rewrite length_rev in H. discriminate.
        -- apply Forall_rev. exact Hword.
        -- exists [], (c :: rest). split; [reflexivity|].
           split; [constructor | exact Hc].
    + assert (Hword' : Forall (fun c => Gui.isspace c = false) (c :: word))
        by (constructor; assumption).
      specialize (IH (c :: word) Hword').
      destruct (Gui.split_from (c :: word) rest) as [|first others].
      * destruct IH as [IH _]. discriminate IH.
      * destruct IH as (H1 & H2 & pre & post & Heq & Hpre & Hpost).
        split; [exact H1|]. split; [exact H2|].
        exists pre, post. split; [|split; assumption].
        rewrite <- Heq. cbn [rev]. rewrite <- app_assoc. reflexivity.
Qed.

(** X20.  The path [_on_drop] displays and hands to
    [_load_file_from_path] never contains a space.  Dropped data without a
    space (once a pair of enclosing braces is removed) is passed on as it
    is; of data with a space only the first whitespace-delimited word is
    passed on, a path other than the one dropped; and when there is no such
    word the handler raises [IndexError]. *)
Theorem on_drop_spec (data : Gui.str) :
  match Gui._on_drop data with
  | Gui.Loads path =>
      Gui.contains path Gui.space = false /\
      (Gui.contains (Gui.strip_braces data) Gui.space = false ->
       path = Gui.strip_braces data) /\
      (Gui.contains (Gui.strip_braces data) Gui.space = true ->
       path <> Gui.strip_braces data /\
       path <> [] /\
       Forall (fun c => Gui.isspace c = false) path /\
       exists pre post,
         Gui.strip_braces data = (pre ++ path ++ post)%list /\
         Forall (fun c => Gui.isspace c = true) pre /\
         match post with
         | [] => True
         | c :: _ => Gui.isspace c = true
         end)
  | Gui.IndexError =>
      Gui.contains (Gui.strip_braces data) Gui.space = true /\
      Forall (fun c => Gui.isspace c = true) (Gui.strip_braces data)
  end.
Proof.
  unfold Gui._on_drop. cbn zeta.
  destruct (Gui.contains (Gui.strip_braces data) Gui.space) eqn:Hsp.
  - pose proof (split_from_first (Gui.strip_braces data) [] ltac:(constructor)) as H.
    unfold Gui.split. destruct (Gui.split_from [] (Gui.strip_braces data)) as [|first others].
    + destruct H as [_ H]. split; [reflexivity | exact H].
    + destruct H as (H1 & H2 & pre & post & Heq & Hpre & Hpost). cbn [rev app] in Heq.
      pose proof (no_space_in_words first H2) as Hno.
      split; [exact Hno|]. split; [intros H; discriminate H|]. intros _.
      split; [intros ->; rewrite Hsp in Hno; discriminate Hno|].
      split; [exact H1|]. split; [exact H2|].
      exists pre, post. split; [exact Heq | split; assumption].
  - split; [exact Hsp|]. split; [intros _; reflexivity | intros H; discriminate H].
Qed.

(** A path with a space, as the drop source wraps it in braces: the file
    loaded is not the file dropped. *)
Example drop_of_a_path_with_a_space :
  Gui._on_drop (Samples.code_points "{/data/my run/stack.tif}")
  = Gui.Loads (Samples.code_points "/data/my") /\
  Gui._on_drop (Samples.code_points "/data/stack.tif")
  = Gui.Loads (Samples.code_points "/data/stack.tif") /\
  Gui._on_drop (Samples.code_points "{ }") = Gui.IndexError.
Proof. repeat split; vm_compute; reflexivity. Qed.

(** *** The progress reported during a run *)

Ltac close_progress :=
  cbn -[String.append];
  first [ reflexivity | left; reflexivity | right; reflexivity ].

Lemma load_stage_progress
    (lib : DataManager.Library) (path : string) (rs : DataManager.RunSt) :
  match DataManager.load_stage lib path rs with
  | (rs', Next _) =>
      DataManager.progress_log (DataManager.self (DataManager.run_st rs'))
      = (DataManager.progress_log (DataManager.self (DataManager.run_st rs)) ++ [20%Z])%list
  | (rs', _) =>
      DataManager.progress_log (DataManager.self (DataManager.run_st rs'))
      = DataManager.progress_log (DataManager.self (DataManager.run_st rs)) \/
      DataManager.progress_log (DataManager.self (DataManager.run_st rs'))
      = (DataManager.progress_log (DataManager.self (DataManager.run_st rs)) ++ [20%Z])%list
  end.
Proof.
  destruct rs as [[w m] sf fl]. unfold DataManager.load_stage.
  run_unfold. unfold Os.imread. cbn -[String.append].
  run_cases; close_progress.
Qed.

Lemma bleach_stage_progress
    (lib : DataManager.Library) (p : DataManager.Parameters) (rs : DataManager.RunSt) :
  DataManager.progress_log
    (DataManager.self (DataManager.run_st (fst (DataManager.bleach_stage lib p rs))))
  = DataManager.progress_log (DataManager.self (DataManager.run_st rs)).
Proof.
  destruct rs as [[w m] sf fl]. unfold DataManager.bleach_stage.
  run_unfold. cbn -[String.append].
  run_cases; close_progress.
Qed.

Lemma drift_stage_progress
    (lib : DataManager.Library) (p : DataManager.Parameters) (rs : DataManager.RunSt) :
  DataManager.progress_log
    (DataManager.self (DataManager.run_st (fst (DataManager.drift_stage lib p rs))))
  = DataManager.progress_log (DataManager.self (DataManager.run_st rs)).
Proof.
  destruct rs as [[w m] sf fl]. unfold DataManager.drift_stage.
  run_unfold. cbn -[String.append].
  run_cases; close_progress.
Qed.

Lemma statistics_stage_progress
    (lib : DataManager.Library) (p : DataManager.Parameters) (rs : DataManager.RunSt) :
  match DataManager.statistics_stage lib p rs with
  | (rs', Next _) =>
      DataManager.progress_log (DataManager.self (DataManager.run_st rs'))
      = ((DataManager.progress_log (DataManager.self (DataManager.run_st rs)) ++ [50%Z])
         ++ [70%Z])%list
  | (rs', _) =>
      DataManager.progress_log (DataManager.self (DataManager.run_st rs'))
      = (DataManager.progress_log (DataManager.self (DataManager.run_st rs)) ++ [50%Z])%list \/
      DataManager.progress_log (DataManager.self (DataManager.run_st rs'))
      = ((DataManager.progress_log (DataManager.self (DataManager.run_st rs)) ++ [50%Z])
         ++ [70%Z])%list
  end.
Proof.
  destruct rs as [[w m] sf fl]. unfold DataManager.statistics_stage.
  run_unfold. cbn -[String.append].
  run_cases; close_progress.
Qed.

Lemma result_stage_progress
    (lib : DataManager.Library) (p : DataManager.Parameters) (rs : DataManager.RunSt) :
  DataManager.progress_log
    (DataManager.self (DataManager.run_st (fst (DataManager.result_stage lib p rs))))
  = DataManager.progress_log (DataManager.self (DataManager.run_st rs)).
Proof.
  destruct rs as [[w m] sf fl]. unfold DataManager.result_stage.
  run_unfold. cbn -[String.append].
  run_cases; close_progress.
Qed.

Ltac track H P :=
  cbn [fst] in H; rewrite P in H; rewrite <- ?app_assoc in H; cbn [app] in H.

Ltac report P :=
  match type of P with
  | _ = (_ ++ ?l)%list =>
      exists l; split; [exact P|];
      split; [eexists; cbn [app]; reflexivity|];
      split; [intros H; discriminate H
             | intros (msg0 & r0 & H); first [discriminate H | inversion H; congruence]]
  end.

Ltac report_failure C L P :=
  let ok := fresh "ok" in
  let msg := fresh "msg" in
  let img := fresh "img" in
  match goal with
  | r : DataManager.Res |- _ =>
      destruct r as [[ok msg] img]; destruct C as [(-> & _) _];
      first [ destruct L as [L|L]; track L P; top_simpl; report L
            | track L P; top_simpl; report L ]
  end.

Ltac report_raise L P :=
  first [ destruct L as [L|L]; track L P; run_cleanup; report L
        | track L P; run_cleanup; report L ].

(** X21.  The progress values a run of [run_sofi] reports are, in order,
    an initial part of 0, 20, 50, 70, 100: the bar never goes back during
    a run, and the run reports 100 exactly when it returns success.  (A
    failed run leaves the bar where the failure occurred.) *)
Theorem run_sofi_progress
    (lib : DataManager.Library) (p : DataManager.Parameters) (s : DataManager.St) :
  match DataManager.run_sofi lib p s with
  | (s', _, out) =>
      exists reported,
        DataManager.progress_log (DataManager.self s')
        = (DataManager.progress_log (DataManager.self s) ++ reported)%list /\
        reported `prefix_of` [0; 20; 50; 70; 100]%Z /\
        (reported = [0; 20; 50; 70; 100]%Z <->
         exists msg r, out = Returned (true, msg, r))
  end.
Proof.
  destruct s as [w m].
  unfold DataManager.run_sofi, DataManager.run_sofi_body.
  assert (Pnil : DataManager.progress_log m = (DataManager.progress_log m ++ [])%list)
    by (rewrite app_nil_r; reflexivity).
  destruct (DataManager.importable lib); top_simpl.
  2:{ report Pnil. }
  run_unfold. top_simpl.
  destruct (DataManager.file_path m) as [| |path]; top_simpl.
  - report Pnil.
  - report Pnil.
  - clear Pnil. set (rs0 := DataManager.MkRun _ _ _).
    assert (H0 : DataManager.all_recovered (DataManager.failed_steps rs0))
      by apply all_recovered_nil.
    assert (P0 : DataManager.progress_log (DataManager.self (DataManager.run_st rs0))
                 = (DataManager.progress_log m ++ [0%Z])%list) by reflexivity.
    clearbody rs0.
    (* load *)
    pose proof (load_stage_contract lib path rs0 H0) as C.
    pose proof (load_stage_progress lib path rs0) as L.
    destruct (DataManager.load_stage lib path rs0) as [rs1 [[]|r|e]].
    2:{ report_failure C L P0. }
    2:{ report_raise L P0. }
    destruct C as [H1 _]. track L P0.
    (* bleach *)
    pose proof (bleach_stage_contract lib p rs1 H1) as C.
    pose proof (bleach_stage_progress lib p rs1) as L2.
    destruct (DataManager.bleach_stage lib p rs1) as [rs2 [[]|r|e]].
    2:{ report_failure C L2 L. }
    2:{ report_raise L2 L. }
    destruct C as [H2 _]. track L2 L.
    (* drift *)
    pose proof (drift_stage_contract lib p rs2 H2) as C.
    pose proof (drift_stage_progress lib p rs2) as L3.
    destruct (DataManager.drift_stage lib p rs2) as [rs3 [[]|r|e]].
    2:{ report_failure C L3 L2. }
    2:{ report_raise L3 L2. }
    destruct C as [H3 _]. track L3 L2.
    (* moments, cumulants *)
    pose proof (statistics_stage_contract lib p rs3 H3) as C.
    pose proof (statistics_stage_progress lib p rs3) as L4.
    destruct (DataManager.statistics_stage lib p rs3) as [rs4 [[]|r|e]].
    2:{ report_failure C L4 L3. }
    2:{ report_raise L4 L3. }
    destruct C as [H4 _]. track L4 L3.
    (* deconvolution, result *)
    pose proof (result_stage_contract lib p rs4 H4) as C.
    pose proof (result_stage_progress lib p rs4) as L5.
    destruct (DataManager.result_stage lib p rs4) as [rs5 [order'|r|e]].
    2:{ report_failure C L5 L4. }
    2:{ report_raise L5 L4. }
    track L5 L4. run_cleanup.
    exists [0; 20; 50; 70; 100]%Z. split.
    + etransitivity; [exact (f_equal (fun l => (l ++ [100%Z])%list) L5)|].
      rewrite <- app_assoc. reflexivity.
    + split; [reflexivity|]. split; [intros _; eexists; eexists; reflexivity | reflexivity].
Qed.
